(** * Dual-storage registration back end: a shallow embedding

    The development follows the Node.js sources of the registration
    system: the Mongoose [User] model, the [DualStorage] coordinator,
    the dual-storage registration route and the [DataMigration] tool.

    JavaScript objects are finite maps from property names to values,
    files are optional contents (absent or present), and every call
    that consults the outside world (random salts, identifiers, the
    clock, the MongoDB driver) receives its answer as an explicit
    argument.  A read fails on a file that is absent; a write that the
    operating system refuses, and the directory of uploaded photos the
    upload middleware writes to before a handler runs, are outside the
    model. *)

From Stdlib Require Import ZArith Ascii String.
From stdpp Require Import base option list strings gmap fin_maps pretty.

Local Open Scope string_scope.
#[local] Set Warnings "-register-all".
#[local] Set Default Proof Using "Type".

(** ** JavaScript strings

    A string is the text of a JavaScript string, held as its UTF-8
    bytes.  Equality, [startsWith] and [includes] give on these bytes
    what [===], [String.prototype.startsWith] and
    [String.prototype.includes] give on the code units.  The functions
    of the library that depend on the Unicode tables ([toLowerCase],
    [trim], [length]) are not programmed here: they are the operations
    of the class [Library] below. *)

Module JS.

(** Lowercasing of the letters [A-Z] alone, every other byte being
    kept: the case folding of the [i] flag of a regular expression on a
    pattern of ASCII letters, and what [toLowerCase] does to a text
    without any other cased letter. *)
Definition lower_ascii (c : ascii) : ascii :=
  let n := Ascii.nat_of_ascii c in
  if (65 <=? n)%nat && (n <=? 90)%nat then Ascii.ascii_of_nat (n + 32) else c.

Fixpoint ascii_toLowerCase (s : string) : string :=
  match s with
  | EmptyString => EmptyString
  | String c r => String (lower_ascii c) (ascii_toLowerCase r)
  end.

(** The white space of the ASCII range. *)
Definition is_space (c : ascii) : bool :=
  let n := Ascii.nat_of_ascii c in
  (n =? 32)%nat || ((9 <=? n)%nat && (n <=? 13)%nat).

Fixpoint ascii_trimStart (s : string) : string :=
  match s with
  | EmptyString => EmptyString
  | String c r => if is_space c then ascii_trimStart r else s
  end.

(** [ascii_trimEnd] keeps a character when it is not a space or when
    something is left after it. *)
Fixpoint ascii_trimEnd (s : string) : string :=
  match s with
  | EmptyString => EmptyString
  | String c r =>
      match ascii_trimEnd r with
      | EmptyString => if is_space c then EmptyString else String c EmptyString
      | r' => String c r'
      end
  end.

(** What [trim] does to a text whose only white space is ASCII. *)
Definition ascii_trim (s : string) : string := ascii_trimEnd (ascii_trimStart s).

Fixpoint startsWith (p s : string) : bool :=
  match p, s with
  | EmptyString, _ => true
  | String a p', String b s' => if Ascii.eqb a b then startsWith p' s' else false
  | String _ _, EmptyString => false
  end.

(** [hay.includes(needle)]. *)
Fixpoint includes (needle hay : string) : bool :=
  startsWith needle hay ||
  match hay with
  | EmptyString => false
  | String _ r => includes needle r
  end.

(** ** JavaScript values

    The values that occur in request bodies, in the JSON files and in
    Mongoose documents.  A [Date] is identified with its rendering by
    [toISOString], the invalid date with the text 'Invalid Date'; an
    [ObjectId] with its hexadecimal rendering; a nested object (the
    profile photo descriptor) is a map
    of its own. Numbers are the integers. *)
Inductive Value : Type :=
| Undefined
| Null
| Bool (b : bool)
| Num (n : Z)
| Str (s : string)
| Date (iso : string)
| ObjectId (hex : string)
| Obj (fields : list (string * Value)).

(** An object: property names to values. A missing key reads as
    [undefined]. *)
Abbreviation Object := (gmap string Value).

Definition get (o : Object) (k : string) : Value :=
  match o !! k with
  | Some v => v
  | None => Undefined
  end.

(** Truthiness, as used by [if (v)], [v ? a : b] and [v || d]. *)
Definition truthy (v : Value) : bool :=
  match v with
  | Undefined | Null => false
  | Bool b => b
  | Num n => negb (n =? 0)%Z
  | Str s => negb (String.eqb s "")
  | Date _ | ObjectId _ | Obj _ => true
  end.

(** [v || d] *)
Definition or_else (v d : Value) : Value := if truthy v then v else d.

(** [typeof v] *)
Definition typeof (v : Value) : string :=
  match v with
  | Undefined => "undefined"
  | Bool _ => "boolean"
  | Num _ => "number"
  | Str _ => "string"
  | Null | Date _ | ObjectId _ | Obj _ => "object"
  end.

(** [a === b]: primitives compare by value; two object references are
    never the same here, since every object compared below comes from a
    separate parse or construction. *)
Definition strict_eq (a b : Value) : bool :=
  match a, b with
  | Undefined, Undefined => true
  | Null, Null => true
  | Bool x, Bool y => Bool.eqb x y
  | Num x, Num y => (x =? y)%Z
  | Str x, Str y => String.eqb x y
  | _, _ => false
  end.

(** What [JSON.parse (JSON.stringify v)] gives for a property value:
    [undefined] properties are dropped, dates and object ids become
    their strings (an invalid date becomes [null]). *)
Definition toJSON (v : Value) : option Value :=
  match v with
  | Undefined => None
  | Date iso => Some (if String.eqb iso "Invalid Date" then Null else Str iso)
  | ObjectId hex => Some (Str hex)
  | _ => Some v
  end.

Definition JSON_roundtrip (o : Object) : Object := omap toJSON o.

(** ** The library

    What the back end calls in the JavaScript library and in Mongoose
    and what depends on the Unicode tables, on the date parser or on the
    version of Mongoose.  One property of them is relied upon:
    lowercasing twice is lowercasing once, as the lowercase mapping of
    Unicode has it ([toLowerCase_idempotent]); without it the exact
    comparison of the coordinator would not be a comparison up to case.

    - [toLowerCase s] is [s.toLowerCase()], [toLocaleLowerCase s] is
      [s.toLocaleLowerCase()] and [trim s] is [s.trim()];
    - [String_length s] is [s.length], the number of UTF-16 code units;
    - [Date_iso v] is the rendering [new Date(v).toISOString()] of the
      date built from a value that is not a date, [None] when that date
      is invalid, and [Date_toString d] is the rendering [d.toString()]
      of a date;
    - [castDate v] is the date Mongoose casts such a value to on a
      [Date] path, and [castNumber v] the number it casts a value that
      is neither a number nor a boolean to on a [Number] path, [None]
      when it throws a [CastError];
    - [nested_set v] is what a new document holds at a nested path such
      as [profilePhoto] when the constructor is given the value [v]
      there ([None]: a [CastError]), and [nested_init v] what a document
      loaded from the collection holds when the stored document has [v]
      there. *)
Class Library := mkLibrary {
  toLowerCase : string -> string;
  toLocaleLowerCase : string -> string;
  trim : string -> string;
  String_length : string -> nat;
  Date_iso : Value -> option string;
  Date_toString : string -> string;
  castDate : Value -> option string;
  castNumber : Value -> option Z;
  nested_set : Value -> option Value;
  nested_init : Value -> Value;
  toLowerCase_idempotent : forall s, toLowerCase (toLowerCase s) = toLowerCase s
}.

(** An [Error] object, identified by its message. *)
Record Error := mkError { message : string }.

End JS.

Import JS.

(** ** Outcomes and the state threaded through the back end *)

(** The JSON document kept in [stats.json], in the layout written by
    [initFileStorage], with counters that are integers below 2^53 (where
    adding one is exact).  A [stats.json] in another layout, such as the
    one the file back end writes, is not described by this record. *)
Record Stats := mkStats {
  totalUsers : Z;
  totalRegistrations : Z;
  lastRegistration : option string;
  createdAt : string
}.

(** Everything the coordinator reads or writes: the two data files (a
    file is absent or holds its parsed content), the [mongoConnected]
    flag of the [DualStorage] instance, the two module-level bindings
    [mongoose] and [User] ([false] when the [require] failed and the
    binding stayed [null]), and the [users] collection of MongoDB. *)
Record Storage := mkStorage {
  usersFile : option (list Object);
  statsFile : option Stats;
  mongoConnected : bool;
  mongoose : bool;
  User : bool;
  collection : list Object
}.

Definition set_usersFile (f : option (list Object)) (st : Storage) : Storage :=
  mkStorage f (statsFile st) (mongoConnected st) (mongoose st) (User st) (collection st).

Definition set_statsFile (f : option Stats) (st : Storage) : Storage :=
  mkStorage (usersFile st) f (mongoConnected st) (mongoose st) (User st) (collection st).

Definition set_mongoConnected (b : bool) (st : Storage) : Storage :=
  mkStorage (usersFile st) (statsFile st) b (mongoose st) (User st) (collection st).

Definition set_collection (c : list Object) (st : Storage) : Storage :=
  mkStorage (usersFile st) (statsFile st) (mongoConnected st) (mongoose st) (User st) c.

(** An [async] method: it runs on the storage and either throws or
    returns. *)
Definition M (A : Type) : Type := Storage -> (Error + A) * Storage.

Definition ret {A} (a : A) : M A := fun st => (inr a, st).

Definition throw {A} (e : Error) : M A := fun st => (inl e, st).

Definition bind {A B} (m : M A) (k : A -> M B) : M B :=
  fun st =>
    match m st with
    | (inl e, st') => (inl e, st')
    | (inr a, st') => k a st'
    end.

(** [try { m } catch (error) { h error }] *)
Definition try_catch {A} (m : M A) (h : Error -> M A) : M A :=
  fun st =>
    match m st with
    | (inl e, st') => h e st'
    | r => r
    end.

Definition when (b : Storage -> bool) (m : M unit) : M unit :=
  fun st => if b st then m st else ret tt st.

Notation "'let*' x ':=' m 'in' k" := (bind m (fun x => k))
  (at level 10, x name, m at level 100, k at level 200).
Notation "'await' m ';;' k" := (bind m (fun _ => k))
  (at level 10, m at level 99, k at level 200).

(** Answers of the MongoDB side to one [save]: the [ObjectId] given to
    the new document, the salt drawn by the pre-save hook, the clock
    as the validator of [dateOfBirth] reads it and as it is read for
    the timestamps, and whether the driver fails on the query or on the
    insert. *)
Record MongoEnv := mkMongoEnv {
  objectId : string;
  hookSalt : string;
  validationNow : string;
  saveNow : string;
  findOne_throws : bool;
  save_throws : bool
}.

(** Answers of the outside world to one [createUser]: [uuidv4()],
    [bcrypt.genSalt(12)], the three readings of the clock, and the
    MongoDB side. *)
Record Env := mkEnv {
  uuid : string;
  salt : string;
  createdNow : string;
  updatedNow : string;
  statsNow : string;
  mongo : MongoEnv
}.

Section Backend.

Context {lib : Library}.

(** [bcrypt.hash(data, salt)], for a string [data]. *)
Variable bcrypt_hash : string -> string -> string.

(** The validators the [userSchema] declares on its paths ([required],
    [maxlength], [minlength], [match], [enum], [validate]), as run by
    Mongoose on a document before it is saved.  The validator of
    [dateOfBirth] compares the date with [new Date()]: the first
    argument is that reading of the clock. *)
Variable userSchema_validators : string -> Object -> bool.

(** [new Date(v)]: a date is copied, any other value gives the date the
    library makes of it. *)
Definition new_Date (v : Value) : Value :=
  match v with
  | Date d => Date d
  | _ => Date (default "Invalid Date" (Date_iso v))
  end.

(** ** models/User.js *)

(** The [String] paths of the schema. *)
Definition userSchema_strings : list string :=
  ["name"; "email"; "password"; "phone"; "gender"; "address"; "city"; "state";
   "postalCode"; "country"; "occupation"; "company"; "website";
   "emergencyContactName"; "emergencyContactPhone"; "status"].

(** The [Date] paths of the schema, with the two of [timestamps: true]. *)
Definition userSchema_dates : list string :=
  ["dateOfBirth"; "lastLogin"; "createdAt"; "updatedAt"].

(** [v.k] for a nested object [v]. *)
Fixpoint assoc (k : string) (l : list (string * Value)) : Value :=
  match l with
  | [] => Undefined
  | (k', v) :: rest => if String.eqb k k' then v else assoc k rest
  end.

Definition prop (v : Value) (k : string) : Value :=
  match v with
  | Obj l => assoc k l
  | _ => Undefined
  end.

(** The [Boolean] paths of the schema. *)
Definition userSchema_booleans : list string :=
  ["newsletterSubscription"; "termsAccepted"; "emailVerified"].

(** Casting to a [Boolean] path: the values Mongoose converts. *)
Definition castBoolean (v : Value) : option Value :=
  match v with
  | Undefined | Null | Bool _ => Some v
  | Num n =>
      if (n =? 1)%Z then Some (Bool true)
      else if (n =? 0)%Z then Some (Bool false)
      else None
  | Str s =>
      if existsb (String.eqb s) ["true"; "1"; "yes"] then Some (Bool true)
      else if existsb (String.eqb s) ["false"; "0"; "no"] then Some (Bool false)
      else None
  | Date _ | ObjectId _ | Obj _ => None
  end.

(** The setters the schema declares on its [String] paths
    ([lowercase: true], [trim: true]). *)
Definition userSchema_setter (path : string) (s : string) : string :=
  if decide (path = "email") then trim (toLowerCase s)
  else if decide (path = "gender") then toLowerCase s
  else if decide (path ∈ ["name"; "phone"; "address"; "city"; "state";
                          "postalCode"; "country"; "occupation"; "company";
                          "website"; "emergencyContactName";
                          "emergencyContactPhone"])
  then trim s
  else s.

(** Casting of one value to its path, when a document is built or a
    filter is prepared.  On a [String] path a string goes through the
    setters, numbers, booleans, dates and object ids are turned into
    strings first, an object stands for the string it has under [_id],
    and any other object is refused ([None], a [CastError]).
    On a [Date] path [null] and the empty string give [null], a valid
    date is kept, an invalid one is refused, and any other value is
    cast by Mongoose.  On the [Number] path [loginCount] a number is
    kept, a boolean counts as 1 or 0, the empty string gives [null].
    The nested path [profilePhoto] is set as Mongoose sets a nested
    path. *)
Definition userSchema_cast (path : string) (v : Value) : option Value :=
  if decide (path ∈ userSchema_strings) then
    match v with
    | Str s | ObjectId s => Some (Str (userSchema_setter path s))
    | Date d => Some (Str (userSchema_setter path (Date_toString d)))
    | Num n => Some (Str (userSchema_setter path (pretty n)))
    | Bool b => Some (Str (userSchema_setter path (if b then "true" else "false")))
    | Obj _ =>
        match prop v "_id" with
        | Str s => Some (Str (userSchema_setter path s))
        | _ => None
        end
    | Undefined | Null => Some v
    end
  else if decide (path ∈ userSchema_dates) then
    match v with
    | Undefined | Null => Some v
    | Date d => if String.eqb d "Invalid Date" then None else Some v
    | Str s =>
        if String.eqb s "" then Some Null
        else match castDate v with Some d => Some (Date d) | None => None end
    | _ => match castDate v with Some d => Some (Date d) | None => None end
    end
  else if decide (path ∈ userSchema_booleans) then castBoolean v
  else if decide (path = "loginCount") then
    match v with
    | Undefined | Null | Num _ => Some v
    | Bool b => Some (Num (if b then 1 else 0))
    | Str s =>
        if String.eqb s "" then Some Null
        else match castNumber v with Some n => Some (Num n) | None => None end
    | _ => match castNumber v with Some n => Some (Num n) | None => None end
    end
  else if decide (path = "profilePhoto") then
    match v with
    | Undefined => Some v
    | _ => nested_set v
    end
  else Some v.

(** The five leaves of [profilePhoto], each with the default [null]. *)
Definition profilePhoto_default : Value :=
  Obj [("filename", Null); ("originalName", Null); ("mimetype", Null);
       ("size", Null); ("path", Null)].

(** The [default] values of the schema. *)
Definition userSchema_defaults : Object :=
  list_to_map [("profilePhoto", profilePhoto_default);
               ("newsletterSubscription", Bool false); ("status", Str "active");
               ("emailVerified", Bool false); ("lastLogin", Null);
               ("loginCount", Num 0)].

(** A document under construction: its properties, and whether a value
    could not be cast (the error then surfaces at validation). *)
Record Document := mkDocument {
  fields : Object;
  castError : bool
}.

(** The cast of one property by the constructor: an [undefined]
    property is not set. *)
Definition cast_property (k : string) (v : Value) : option Value :=
  match v with
  | Undefined => None
  | _ => userSchema_cast k v
  end.

(** [new User(obj)]: the defined properties are cast, the defaults fill
    what is missing, and the document gets its own [_id].  Both callers
    pass schema paths only, so nothing is stripped. *)
Definition User_new (env : MongoEnv) (obj : Object) : Document :=
  mkDocument
    (<["_id" := ObjectId (objectId env)]>
       (map_imap cast_property obj ∪ userSchema_defaults))
    (bool_decide (map_Exists (fun k v => userSchema_cast k v = None) obj)).

(** [userSchema.pre('save', ...)]: a password that has been set is
    hashed with a fresh salt. *)
Definition pre_save (env : MongoEnv) (doc : Object) : Error + Object :=
  match doc !! "password" with
  | None | Some Undefined => inr doc          (* !this.isModified('password') *)
  | Some (Str p) => inr (<["password" := Str (bcrypt_hash p (hookSalt env))]> doc)
  | Some v => inl (mkError ("Illegal arguments: " ++ typeof v ++ ", string"))
  end.

(** [timestamps: true]: a missing [createdAt] or [updatedAt] is set to
    the time of the save. *)
Definition timestamp (env : MongoEnv) (k : string) (doc : Object) : Object :=
  match get doc k with
  | Undefined | Null => <[k := Date (saveNow env)]> doc
  | _ => doc
  end.

Definition timestamps (env : MongoEnv) (doc : Object) : Object :=
  timestamp env "updatedAt" (timestamp env "createdAt" doc).

(** The key of a document in the unique index on [email]: a missing
    field is indexed as [null]. *)
Definition email_key (doc : Object) : Value :=
  match get doc "email" with
  | Undefined => Null
  | v => v
  end.

(** The paths the validators read: the declared ones, not [_id] nor the
    timestamps. *)
Definition validated_paths (doc : Object) : Object :=
  delete "_id" (delete "createdAt" (delete "updatedAt" doc)).

(** [doc.save()] of a new document: validation, the pre-save hook, then
    the insert, which the driver or the unique index on [email] may
    refuse. *)
Definition User_save (env : MongoEnv) (doc : Document) (db : list Object)
  : Error + list Object :=
  if castError doc
     || negb (userSchema_validators (validationNow env) (validated_paths (fields doc)))
  then inl (mkError "User validation failed")
  else
    match pre_save env (fields doc) with
    | inl e => inl e
    | inr hashed =>
        let stored := timestamps env hashed in
        if save_throws env then inl (mkError "MongoNetworkError")
        else if existsb (fun d => strict_eq (email_key d) (email_key stored)) db
        then inl (mkError "E11000 duplicate key error collection: users index: email_1")
        else inr (db ++ [stored])%list
    end.

(** The properties of an object that are not [undefined]. *)
Definition defined (v : Value) : option Value :=
  match v with
  | Undefined => None
  | _ => Some v
  end.

(** A document as a query hands it out: the defaults of the schema
    fill the paths the stored document lacks, and a stored
    [profilePhoto] is read as Mongoose reads a nested path. *)
Definition hydrate (stored : Object) : Object :=
  let doc := omap defined stored ∪ userSchema_defaults in
  match get stored "profilePhoto" with
  | Undefined => doc
  | v => <["profilePhoto" := nested_init v]> doc
  end.

(** [User.findOne({ email: v })]: the filter value is cast like the
    path, then looked up. *)
Definition User_findOne (env : MongoEnv) (v : Value) (db : list Object)
  : Error + option Object :=
  match userSchema_cast "email" v with
  | None => inl (mkError "Cast to string failed at path email")
  | Some q =>
      if findOne_throws env then inl (mkError "MongoNetworkError")
      else
        let key := match q with Undefined => Null | _ => q end in
        inr (hydrate <$> find (fun d => strict_eq (email_key d) key) db)
  end.

(** [User.find({})] *)
Definition User_find (db : list Object) : list Object := hydrate <$> db.

(** ** models/DualStorage.js *)

(** [new DualStorage()] over a data directory without files. *)
Definition constructor (mongoose_loaded User_loaded : bool) (db : list Object)
  : Storage :=
  mkStorage None None false mongoose_loaded User_loaded db.

Definition initialStats (now : string) : Stats := mkStats 0 0 None now.

Definition initFileStorage (now : string) : M unit :=
  fun st =>
    let st1 :=
      match usersFile st with
      | None => set_usersFile (Some []) st        (* fs.access failed *)
      | Some _ => st
      end in
    let st2 :=
      match statsFile st1 with
      | None => set_statsFile (Some (initialStats now)) st1
      | Some _ => st1
      end in
    (inr tt, st2).

(** [readyState] is [mongoose.connection.readyState]; [connect_ok]
    tells whether [mongoose.connect] resolves. *)
Definition initMongoStorage (readyState : Z) (connect_ok : bool) : M unit :=
  try_catch
    (await (if (readyState =? 0)%Z
            then (if connect_ok then ret tt
                  else throw (mkError "connect ECONNREFUSED"))
            else ret tt) ;;
     fun st => (inr tt, set_mongoConnected true st))
    (fun _ st => (inr tt, set_mongoConnected false st)).

Definition init (now : string) (readyState : Z) (connect_ok : bool) : M unit :=
  await initFileStorage now ;;
  when mongoose (initMongoStorage readyState connect_ok).

Definition readUsers : M (list Object) :=
  fun st =>
    match usersFile st with
    | Some users => (inr users, st)
    | None => (inl (mkError "ENOENT: no such file or directory, open users.json"), st)
    end.

Definition saveToFile (userData : Object) : M unit :=
  try_catch
    (let* users := readUsers in
     match find (fun u => strict_eq (get u "email") (get userData "email")) users with
     | Some existingUser => throw (mkError "User with this email already exists")
     | None =>
         fun st =>
           (inr tt, set_usersFile (Some (JSON_roundtrip <$> (users ++ [userData])%list)) st)
     end)
    (fun error => throw error).

Definition saveToMongo (env : MongoEnv) (userData : Object) : M unit :=
  try_catch
    (fun st =>
       let mongoData := delete "_id" userData in
       let user := User_new env mongoData in
       match User_save env user (collection st) with
       | inl e => (inl e, st)
       | inr db => (inr tt, set_collection db st)
       end)
    (fun error => ret tt).   (* logged; file storage already succeeded *)

Definition updateStats (now : string) : M unit :=
  fun st =>
    match statsFile st, usersFile st with
    | Some stats, Some users =>
        (inr tt,
         set_statsFile
           (Some (mkStats (Z.of_nat (length users))
                          (totalRegistrations stats + 1)
                          (Some now)
                          (createdAt stats))) st)
    | _, _ => (inr tt, st)       (* the error is logged, not thrown *)
    end.

(** [bcrypt.hash(userData.password, salt)] *)
Definition hash_password (v : Value) (salt : string) : M string :=
  match v with
  | Str p => ret (bcrypt_hash p salt)
  | _ => throw (mkError ("Illegal arguments: " ++ typeof v ++ ", string"))
  end.

(** [userData.email.toLowerCase()] *)
Definition email_toLowerCase (v : Value) : M string :=
  match v with
  | Str e => ret (toLowerCase e)
  | Undefined =>
      throw (mkError "Cannot read properties of undefined (reading 'toLowerCase')")
  | Null =>
      throw (mkError "Cannot read properties of null (reading 'toLowerCase')")
  | _ => throw (mkError "userData.email.toLowerCase is not a function")
  end.

Definition newUser_of (env : Env) (userData : Object)
    (hashedPassword email : string) : Object :=
  list_to_map
    [("_id", Str (uuid env));
     ("name", get userData "name");
     ("email", Str email);
     ("password", Str hashedPassword);
     ("phone", get userData "phone");
     ("dateOfBirth",
        if truthy (get userData "dateOfBirth")
        then new_Date (get userData "dateOfBirth")
        else Null);
     ("gender", or_else (get userData "gender") Null);
     ("address", or_else (get userData "address") Null);
     ("city", or_else (get userData "city") Null);
     ("state", or_else (get userData "state") Null);
     ("postalCode", or_else (get userData "postalCode") Null);
     ("country", or_else (get userData "country") Null);
     ("occupation", or_else (get userData "occupation") Null);
     ("company", or_else (get userData "company") Null);
     ("website", or_else (get userData "website") Null);
     ("emergencyContactName", or_else (get userData "emergencyContactName") Null);
     ("emergencyContactPhone", or_else (get userData "emergencyContactPhone") Null);
     ("profilePhoto", or_else (get userData "profilePhoto") Null);
     ("newsletterSubscription", Bool (strict_eq (get userData "newsletterSubscription") (Bool true)));
     ("termsAccepted", Bool (strict_eq (get userData "termsAccepted") (Bool true)));
     ("status", Str "active");
     ("emailVerified", Bool false);
     ("createdAt", Str (createdNow env));
     ("updatedAt", Str (updatedNow env));
     ("lastLogin", Null);
     ("loginCount", Num 0)].

Definition createUser (env : Env) (userData : Object) : M Object :=
  try_catch
    (let* hashedPassword := hash_password (get userData "password") (salt env) in
     let* email := email_toLowerCase (get userData "email") in
     let newUser := newUser_of env userData hashedPassword email in
     await saveToFile newUser ;;
     await when (fun st => mongoConnected st && User st)
                (saveToMongo (mongo env) newUser) ;;
     await updateStats (statsNow env) ;;
     ret (delete "password" newUser))
    (fun error => throw error).

(** The storage-status view. *)
Record StorageStatus := mkStatus {
  fileStorage_status : string;
  mongoStorage_status : string;
  mongoStorage_connection : bool;
  mode : string
}.

Definition getStorageStatus (st : Storage) : StorageStatus :=
  mkStatus "active"
           (if mongoConnected st then "active" else "unavailable")
           (mongoConnected st)
           (if mongoConnected st then "dual" else "file-only").


(** ** routes/userRoutesDual.js *)

(** The [Joi] schemas the route builds. *)
Record StringRules := mkStringRules {
  rule_trim : bool;
  rule_lowercase : bool;
  rule_email : bool;
  rule_min : option nat;
  rule_max : option nat
}.

Inductive Joi : Type :=
| JoiString (rules : StringRules)
| JoiBoolean
| JoiNumber
| JoiDateIso
| JoiAny
| JoiAlternatives (alts : list Joi)
| JoiAllow (vs : list Value) (s : Joi)
| JoiValid (vs : list Value) (s : Joi)
| JoiCustom (f : Value -> option Value) (s : Joi).

(** [Joi.string().email()], [Joi.date().iso()] and [new URL(value)]
    decide on the text alone. *)
Variable Joi_email : string -> bool.
Variable Joi_isoDate : string -> bool.
Variable URL_valid : string -> bool.

Definition within (min max : option nat) (n : nat) : bool :=
  match min with Some lo => (lo <=? n)%nat | None => true end &&
  match max with Some hi => (n <=? hi)%nat | None => true end.

(** The conversion a schema applies first (the default
    [convert: true]): a string is put in lower case with
    [toLocaleLowerCase], then trimmed; an ISO text becomes the date it
    denotes; a string whose lowercase is 'true' or 'false' becomes the
    boolean.  Outside [A-Z] only the Kelvin sign (to k) and the dotted
    capital I (to i and a combining dot) have a lowercase that meets
    [a-z], and neither word has these letters: the lowercase of a
    string is one of the two words exactly when its lowercasing over
    [A-Z] is.  A string flag never reaches
    [Joi.number()] (see [preprocessFormData]), so the conversion of
    numeric strings is not worked out. *)
Fixpoint Joi_coerce (schema : Joi) (v : Value) : Value :=
  match schema with
  | JoiString r =>
      match v with
      | Str s =>
          let s1 := if rule_lowercase r then toLocaleLowerCase s else s in
          Str (if rule_trim r then trim s1 else s1)
      | _ => v
      end
  | JoiBoolean =>
      match v with
      | Str s =>
          if String.eqb (ascii_toLowerCase s) "true" then Bool true
          else if String.eqb (ascii_toLowerCase s) "false" then Bool false
          else v
      | _ => v
      end
  | JoiDateIso =>
      match v with
      | Str s =>
          if Joi_isoDate s
          then match Date_iso v with Some d => Date d | None => v end
          else v
      | _ => v
      end
  | JoiAllow _ s | JoiValid _ s | JoiCustom _ s => Joi_coerce s v
  | JoiNumber | JoiAny | JoiAlternatives _ => v
  end.

(** Validation of a defined value: the converted value, or [None] when
    the value is refused.  The values of [allow] and [valid] are
    compared with the converted value and end the validation; [min] and
    [max] bound the [length] of the string. *)
Fixpoint Joi_validate (schema : Joi) (v : Value) : option Value :=
  match schema with
  | JoiString r =>
      match Joi_coerce schema v with
      | Str s =>
          if String.eqb s "" then None
          else if within (rule_min r) (rule_max r) (String_length s)
                  && (negb (rule_email r) || Joi_email s)
          then Some (Str s) else None
      | _ => None
      end
  | JoiBoolean =>
      match Joi_coerce schema v with
      | Bool b => Some (Bool b)
      | _ => None
      end
  | JoiNumber => match v with Num _ => Some v | _ => None end
  | JoiDateIso =>
      match Joi_coerce schema v with
      | Date d => Some (Date d)
      | _ => None
      end
  | JoiAny => Some v
  | JoiAlternatives alts =>
      (fix try (alts : list Joi) : option Value :=
         match alts with
         | [] => None
         | s :: rest =>
             match Joi_validate s v with
             | Some v' => Some v'
             | None => try rest
             end
         end) alts
  | JoiAllow vs s =>
      if existsb (strict_eq (Joi_coerce s v)) vs then Some (Joi_coerce s v)
      else Joi_validate s v
  | JoiValid vs s =>
      if existsb (strict_eq (Joi_coerce s v)) vs then Some (Joi_coerce s v)
      else None
  | JoiCustom f s =>
      match Joi_validate s v with
      | Some v' => f v'
      | None => None
      end
  end.

Definition Joi_string : Joi := JoiString (mkStringRules false false false None None).

Definition on_rules (f : StringRules -> StringRules) (s : Joi) : Joi :=
  match s with JoiString r => JoiString (f r) | _ => s end.

Definition Joi_trim : Joi -> Joi :=
  on_rules (fun r => mkStringRules true (rule_lowercase r) (rule_email r) (rule_min r) (rule_max r)).

Definition Joi_lowercase : Joi -> Joi :=
  on_rules (fun r => mkStringRules (rule_trim r) true (rule_email r) (rule_min r) (rule_max r)).

Definition Joi_isEmail : Joi -> Joi :=
  on_rules (fun r => mkStringRules (rule_trim r) (rule_lowercase r) true (rule_min r) (rule_max r)).

Definition Joi_min (n : nat) : Joi -> Joi :=
  on_rules (fun r => mkStringRules (rule_trim r) (rule_lowercase r) (rule_email r) (Some n) (rule_max r)).

Definition Joi_max (n : nat) : Joi -> Joi :=
  on_rules (fun r => mkStringRules (rule_trim r) (rule_lowercase r) (rule_email r) (rule_min r) (Some n)).

(** A key of an object schema: [.required()] or [.optional()]. *)
Record Key := mkKey { key_schema : Joi; key_required : bool }.

Definition required (s : Joi) : Key := mkKey s true.
Definition optional (s : Joi) : Key := mkKey s false.

(** [schema.validate(input, { stripUnknown: true, abortEarly: false })]:
    the converted object, or [None] when some key is refused. *)
Fixpoint Joi_object (keys : list (string * Key)) (input : Object) : option Object :=
  match keys with
  | [] => Some ∅
  | (k, key) :: rest =>
      match Joi_object rest input with
      | None => None
      | Some value =>
          match get input k with
          | Undefined => if key_required key then None else Some value
          | v =>
              match Joi_validate (key_schema key) v with
              | Some v' => Some (<[k := v']> value)
              | None => None
              end
          end
      end
  end.

(** The [custom] rule of [website]; its pattern [/^https?:\/\//i]
    folds the case of the ASCII letters only. *)
Definition website_custom (v : Value) : option Value :=
  match v with
  | Str value =>
      if String.eqb value "" then Some v
      else
        let value' :=
          if startsWith "http://" (ascii_toLowerCase value)
             || startsWith "https://" (ascii_toLowerCase value)
          then value else "http://" ++ value in
        if URL_valid value' then Some (Str value') else None
  | _ => Some v
  end.

(** The two flags share one schema. *)
Definition flagSchema : Joi :=
  JoiAlternatives
    [JoiBoolean;
     JoiValid [Str "true"; Str "false"; Str "1"; Str "0"] Joi_string;
     JoiValid [Num 0; Num 1] JoiNumber].

Definition registrationSchema : list (string * Key) :=
  [("name", required (Joi_max 100 (Joi_trim Joi_string)));
   ("email", required (Joi_lowercase (Joi_isEmail Joi_string)));
   ("password", required (Joi_min 6 Joi_string));
   ("phone", required (Joi_max 20 (Joi_trim Joi_string)));
   ("date_of_birth",
      optional (JoiAlternatives [JoiDateIso; JoiAllow [Str ""] Joi_string;
                                 JoiAllow [Null] JoiAny]));
   ("gender",
      optional (JoiAllow [Null]
                  (JoiValid [Str "male"; Str "female"; Str "other";
                             Str "prefer_not_to_say"; Str ""] Joi_string)));
   ("address", optional (JoiAllow [Str ""] (Joi_max 500 (Joi_trim Joi_string))));
   ("city", optional (JoiAllow [Str ""] (Joi_max 100 (Joi_trim Joi_string))));
   ("state", optional (JoiAllow [Str ""] (Joi_max 100 (Joi_trim Joi_string))));
   ("postal_code", optional (JoiAllow [Str ""] (Joi_max 20 (Joi_trim Joi_string))));
   ("country", optional (JoiAllow [Str ""] (Joi_max 100 (Joi_trim Joi_string))));
   ("occupation", optional (JoiAllow [Str ""] (Joi_max 100 (Joi_trim Joi_string))));
   ("company", optional (JoiAllow [Str ""] (Joi_max 100 (Joi_trim Joi_string))));
   ("website", optional (JoiAllow [Str ""] (JoiCustom website_custom Joi_string)));
   ("emergency_contact_name",
      optional (JoiAllow [Str ""] (Joi_max 100 (Joi_trim Joi_string))));
   ("emergency_contact_phone",
      optional (JoiAllow [Str ""] (Joi_max 20 (Joi_trim Joi_string))));
   ("newsletter_subscription", optional flagSchema);
   ("terms_accepted", required flagSchema)].

(** The conversion [preprocessFormData] applies to a flag that is not
    [undefined]; the comparison [s.toLowerCase() === 'true'] is with a
    word of ASCII letters, as in [Joi_coerce]. *)
Definition convert_flag (v : Value) : Value :=
  match v with
  | Str s => Bool (String.eqb (ascii_toLowerCase s) "true" || String.eqb s "1")
  | Num n => Bool (n =? 1)%Z
  | _ => v
  end.

Definition preprocess_flag (k : string) (processed : Object) : Object :=
  match get processed k with
  | Undefined => processed
  | v => <[k := convert_flag v]> processed
  end.

Definition empty_to_null (k : string) (processed : Object) : Object :=
  if strict_eq (get processed k) (Str "") then <[k := Null]> processed
  else processed.

Definition preprocessFormData (data : Object) : Object :=
  let processed := data in
  let processed := preprocess_flag "newsletter_subscription" processed in
  let processed := preprocess_flag "terms_accepted" processed in
  let processed := empty_to_null "date_of_birth" processed in
  foldl (fun processed field => empty_to_null field processed) processed
    ["gender"; "address"; "city"; "state"; "postal_code"; "country";
     "occupation"; "company"; "website"; "emergency_contact_name";
     "emergency_contact_phone"].

(** [req.file], as left by the upload middleware. *)
Record UploadedFile := mkUploadedFile {
  file_filename : string;
  file_originalname : string;
  file_mimetype : string;
  file_size : Z;
  file_path : string
}.

Definition userData_of (value : Object) (file : option UploadedFile) : Object :=
  let userData :=
    <["termsAccepted" := get value "terms_accepted"]>
    (<["newsletterSubscription" := get value "newsletter_subscription"]>
    (<["emergencyContactPhone" := get value "emergency_contact_phone"]>
    (<["emergencyContactName" := get value "emergency_contact_name"]>
    (<["postalCode" := get value "postal_code"]>
    (<["dateOfBirth" := get value "date_of_birth"]> value))))) in
  match file with
  | Some f =>
      <["profilePhoto" :=
          Obj [("filename", Str (file_filename f));
               ("originalName", Str (file_originalname f));
               ("mimetype", Str (file_mimetype f));
               ("size", Num (file_size f));
               ("path", Str (file_path f))]]> userData
  | None => userData
  end.

(** The responses of [POST /register]. *)
Inductive Response : Type :=
| Created (user : Object) (storage : StorageStatus)     (* 201 *)
| ValidationFailed                                       (* 400 *)
| Conflict (msg : string)                                (* 409 *)
| InternalError.                                         (* 500 *)

Definition status_code (r : Response) : Z :=
  match r with
  | Created _ _ => 201
  | ValidationFailed => 400
  | Conflict _ => 409
  | InternalError => 500
  end.

Definition created_view (newUser : Object) : Object :=
  list_to_map
    [("id", get newUser "_id");
     ("name", get newUser "name");
     ("email", get newUser "email");
     ("phone", get newUser "phone");
     ("createdAt", get newUser "createdAt");
     ("profilePhoto",
        if truthy (get newUser "profilePhoto")
        then Obj [("filename", prop (get newUser "profilePhoto") "filename");
                  ("originalName", prop (get newUser "profilePhoto") "originalName")]
        else Null)].

(** The [catch] branch of the handler. *)
Definition error_response (error : Error) : Response :=
  if includes "already exists" (message error)
  then Conflict "User with this email already exists"
  else InternalError.

Definition register (body : Object) (file : option UploadedFile) (env : Env)
    (st : Storage) : Response * Storage :=
  let processedBody := preprocessFormData body in
  match Joi_object registrationSchema processedBody with
  | None => (ValidationFailed, st)
  | Some value =>
      let userData := userData_of value file in
      match createUser env userData st with
      | (inr newUser, st') => (Created (created_view newUser) (getStorageStatus st'), st')
      | (inl error, st') => (error_response error, st')
      end
  end.

(** ** migrate.js *)

(** Answers of the outside world while one record is migrated: the
    clock, read when the record lacks a timestamp, and the MongoDB
    side. *)
Record MigrateEnv := mkMigrateEnv {
  createdAtNow : string;
  updatedAtNow : string;
  store : MongoEnv
}.

Inductive Outcome : Type := Migrated | Skipped | Errored.

(** The three counters of [migrateUsers], with the total it prints. *)
Record Summary := mkSummary {
  migratedCount : nat;
  skippedCount : nat;
  errorCount : nat;
  total : nat
}.

Definition readUsersFromFile (file : option (list Object)) : list Object :=
  match file with
  | Some users => users
  | None => []            (* the read error is logged *)
  end.

(** The object literal handed to [new User], first without its two
    clock-dependent properties. *)
Definition mongoUser_base (fileUser : Object) : Object :=
  list_to_map
    [("name", get fileUser "name");
     ("email", get fileUser "email");
     ("password", get fileUser "password");
     ("phone", get fileUser "phone");
     ("dateOfBirth",
        if truthy (get fileUser "dateOfBirth")
        then new_Date (get fileUser "dateOfBirth") else Null);
     ("gender", get fileUser "gender");
     ("address", get fileUser "address");
     ("city", get fileUser "city");
     ("state", get fileUser "state");
     ("postalCode", get fileUser "postalCode");
     ("country", get fileUser "country");
     ("occupation", get fileUser "occupation");
     ("company", get fileUser "company");
     ("website", get fileUser "website");
     ("emergencyContactName", get fileUser "emergencyContactName");
     ("emergencyContactPhone", get fileUser "emergencyContactPhone");
     ("profilePhoto", get fileUser "profilePhoto");
     ("newsletterSubscription", get fileUser "newsletterSubscription");
     ("termsAccepted", get fileUser "termsAccepted");
     ("status", or_else (get fileUser "status") (Str "active"));
     ("emailVerified", or_else (get fileUser "emailVerified") (Bool false));
     ("lastLogin",
        if truthy (get fileUser "lastLogin")
        then new_Date (get fileUser "lastLogin") else Null);
     ("loginCount", or_else (get fileUser "loginCount") (Num 0))].

Definition mongoUser_of (env : MigrateEnv) (fileUser : Object) : Object :=
  <["createdAt" := if truthy (get fileUser "createdAt")
                   then new_Date (get fileUser "createdAt")
                   else Date (createdAtNow env)]>
  (<["updatedAt" := if truthy (get fileUser "updatedAt")
                    then new_Date (get fileUser "updatedAt")
                    else Date (updatedAtNow env)]>
   (mongoUser_base fileUser)).

(** The body of the loop for one record of the file. *)
Definition migrate_one (env : MigrateEnv) (fileUser : Object) (db : list Object)
  : Outcome * list Object :=
  match User_findOne (store env) (get fileUser "email") db with
  | inl _ => (Errored, db)
  | inr (Some existingUser) => (Skipped, db)
  | inr None =>
      let mongoUser := User_new (store env) (mongoUser_of env fileUser) in
      match User_save (store env) mongoUser db with
      | inl _ => (Errored, db)
      | inr db' => (Migrated, db')
      end
  end.

Definition count (o : Outcome) (s : Summary) : Summary :=
  match o with
  | Migrated => mkSummary (S (migratedCount s)) (skippedCount s) (errorCount s) (total s)
  | Skipped => mkSummary (migratedCount s) (S (skippedCount s)) (errorCount s) (total s)
  | Errored => mkSummary (migratedCount s) (skippedCount s) (S (errorCount s)) (total s)
  end.

(** The [for ... of] loop: the record at position [i] of the file gets
    the answers [envs i]; the loop carries the counters, the lines it
    logs (one outcome per record) and the collection. *)
Fixpoint migrate_loop (envs : nat -> MigrateEnv) (i : nat) (fileUsers : list Object)
    (s : Summary) (db : list Object) : Summary * list Outcome * list Object :=
  match fileUsers with
  | [] => (s, [], db)
  | fileUser :: rest =>
      let '(o, db1) := migrate_one (envs i) fileUser db in
      let '(s', log, db2) := migrate_loop envs (S i) rest (count o s) db1 in
      (s', o :: log, db2)
  end.

(** [migrateUsers]: what it reports (nothing when it stops early) and
    the collection it leaves. *)
Definition migrateUsers (connected : bool) (envs : nat -> MigrateEnv)
    (file : option (list Object)) (db : list Object)
  : option (Summary * list Outcome) * list Object :=
  if negb connected then (None, db)                  (* migration aborted *)
  else
    let fileUsers := readUsersFromFile file in
    if (length fileUsers =? 0)%nat then (None, db)   (* no users to migrate *)
    else
      let '(s, log, db') :=
        migrate_loop envs 0 fileUsers (mkSummary 0 0 0 (length fileUsers)) db in
      (Some (s, log), db').

(** [date.toISOString()] *)
Definition toISOString (v : Value) : Error + Value :=
  match v with
  | Date iso =>
      if String.eqb iso "Invalid Date" then inl (mkError "Invalid time value")
      else inr (Str iso)
  | _ => inl (mkError "toISOString is not a function")
  end.

(** [user._id.toString()] *)
Definition id_toString (v : Value) : Error + Value :=
  match v with
  | ObjectId s | Str s => inr (Str s)
  | Date d => inr (Str (Date_toString d))
  | Num n => inr (Str (pretty n))
  | Bool b => inr (Str (if b then "true" else "false"))
  | Obj _ => inr (Str "[object Object]")
  | Undefined =>
      inl (mkError "Cannot read properties of undefined (reading 'toString')")
  | Null =>
      inl (mkError "Cannot read properties of null (reading 'toString')")
  end.

(** [v ? v.toISOString() : d] *)
Definition iso_or (v d : Value) : Error + Value :=
  if truthy v then toISOString v else inr d.

(** The callback of [mongoUsers.map], on a document as [User.find]
    hands it out. *)
Definition convertUser (now : string) (user : Object) : Error + Object :=
  match id_toString (get user "_id"),
        iso_or (get user "dateOfBirth") Null,
        iso_or (get user "createdAt") (Str now),
        iso_or (get user "updatedAt") (Str now),
        iso_or (get user "lastLogin") Null with
  | inr id, inr dateOfBirth, inr createdAt, inr updatedAt, inr lastLogin =>
      inr (list_to_map
             [("_id", id);
              ("name", get user "name");
              ("email", get user "email");
              ("password", get user "password");
              ("phone", get user "phone");
              ("dateOfBirth", dateOfBirth);
              ("gender", get user "gender");
              ("address", get user "address");
              ("city", get user "city");
              ("state", get user "state");
              ("postalCode", get user "postalCode");
              ("country", get user "country");
              ("occupation", get user "occupation");
              ("company", get user "company");
              ("website", get user "website");
              ("emergencyContactName", get user "emergencyContactName");
              ("emergencyContactPhone", get user "emergencyContactPhone");
              ("profilePhoto", get user "profilePhoto");
              ("newsletterSubscription", get user "newsletterSubscription");
              ("termsAccepted", get user "termsAccepted");
              ("status", get user "status");
              ("emailVerified", get user "emailVerified");
              ("createdAt", createdAt);
              ("updatedAt", updatedAt);
              ("lastLogin", lastLogin);
              ("loginCount", get user "loginCount")])
  | inl e, _, _, _, _ => inl e
  | _, inl e, _, _, _ => inl e
  | _, _, inl e, _, _ => inl e
  | _, _, _, inl e, _ => inl e
  | _, _, _, _, inl e => inl e
  end.

Fixpoint convertUsers (now : string) (mongoUsers : list Object)
  : Error + list Object :=
  match mongoUsers with
  | [] => inr []
  | user :: rest =>
      match convertUser now user, convertUsers now rest with
      | inr u, inr us => inr (u :: us)
      | inl e, _ => inl e
      | _, inl e => inl e
      end
  end.

(** [syncFromMongoToFile]: the content of [users.json] afterwards.
    [find_throws] tells whether [User.find({})] fails. *)
Definition syncFromMongoToFile (connected find_throws : bool) (now : string)
    (file : option (list Object)) (db : list Object) : option (list Object) :=
  if negb connected then file                        (* sync aborted *)
  else if find_throws then file                      (* caught and logged *)
  else
    let mongoUsers := User_find db in
    let fileUsers := readUsersFromFile file in
    match convertUsers now mongoUsers with
    | inl _ => file                                  (* caught and logged *)
    | inr convertedUsers => Some (JSON_roundtrip <$> convertedUsers)
    end.

(** ** Notions used by the statements *)

(** The user collection of the Primary Store (none while the file is
    missing). *)
Definition users_of (st : Storage) : list Object := default [] (usersFile st).

(** Some record of the collection carries the email [e], compared
    without regard to case. *)
Definition email_taken (e : string) (users : list Object) : Prop :=
  exists u e', u ∈ users /\ get u "email" = Str e' /\ toLowerCase e' = toLowerCase e.

(** The error [saveToFile] throws on a duplicate. *)
Definition duplicate_error : Error := mkError "User with this email already exists".

(** Every record carries a string email that is its own lowercase. *)
Definition lowercase_emails (users : list Object) : Prop :=
  Forall (fun u => exists e, get u "email" = Str e /\ toLowerCase e = e) users.

(** No two records carry the same email up to case. *)
Definition unique_emails (users : list Object) : Prop :=
  forall i j u v eu ev,
    users !! i = Some u -> users !! j = Some v ->
    get u "email" = Str eu -> get v "email" = Str ev ->
    toLowerCase eu = toLowerCase ev -> i = j.

(** What the coordinator keeps true of [users.json]. *)
Definition store_inv (st : Storage) : Prop :=
  exists users, usersFile st = Some users /\ lowercase_emails users /\ unique_emails users.

(** The state in which a successful [createUser] ends. *)
Definition created (env : Env) (newUser : Object) (users : list Object)
    (st : Storage) : Storage :=
  let st1 := set_usersFile (Some (JSON_roundtrip <$> (users ++ [newUser])%list)) st in
  let st2 := snd (when (fun st => mongoConnected st && User st)
                       (saveToMongo (mongo env) newUser) st1) in
  snd (updateStats (statsNow env) st2).

(** Both data files are present and the counter of [stats.json] is the
    number of records of [users.json]. *)
Definition counted (st : Storage) : Prop :=
  exists users stats,
    usersFile st = Some users /\ statsFile st = Some stats /\
    totalUsers stats = Z.of_nat (length users).

(** The states of the coordinator: [init] on a data directory without
    files, then any calls of [createUser]. *)
Inductive reachable : Storage -> Prop :=
| reachable_init now readyState connect_ok mongoose_loaded User_loaded db :
    reachable (snd (init now readyState connect_ok
                      (constructor mongoose_loaded User_loaded db)))
| reachable_createUser st env userData :
    reachable st -> reachable (snd (createUser env userData st)).

(** A sequence of calls of [createUser], each with its own answers of
    the outside world. *)
Fixpoint createUsers (calls : list (Env * Object)) (st : Storage)
  : list (Error + Object) * Storage :=
  match calls with
  | [] => ([], st)
  | (env, userData) :: rest =>
      let '(r, st1) := createUser env userData st in
      let '(rs, st2) := createUsers rest st1 in
      (r :: rs, st2)
  end.

Definition succeeded {A} (r : Error + A) : bool :=
  match r with inr _ => true | inl _ => false end.

(** The part of the document built from a file record that does not
    depend on the run (no [_id], no clock). *)
Definition canonical (fileUser : Object) : Object :=
  map_imap cast_property (mongoUser_base fileUser) ∪ userSchema_defaults.



(** The key under which [findOne] looks a file record up. *)
Definition filter_key (v : Value) : option Value :=
  match userSchema_cast "email" v with
  | None => None
  | Some Undefined => Some Null
  | Some q => Some q
  end.

(** ** The serialized collection *)

(** What a value becomes in a JSON file ([undefined] when the property
    is dropped). *)
Definition JSON_value (v : Value) : Value := default Undefined (toJSON v).

(** What a document read from the collection shows at a path: the
    stored value, or the default of the schema when there is none. *)
Definition shown (doc : Object) (k : string) : Value :=
  match get doc k with
  | Undefined => get userSchema_defaults k
  | v => if decide (k = "profilePhoto") then nested_init v else v
  end.

(** The paths [syncFromMongoToFile] copies as it reads them. *)
Definition copied_paths : list string :=
  ["name"; "email"; "password"; "phone"; "gender"; "address"; "city"; "state";
   "postalCode"; "country"; "occupation"; "company"; "website";
   "emergencyContactName"; "emergencyContactPhone"; "profilePhoto";
   "newsletterSubscription"; "termsAccepted"; "status"; "emailVerified";
   "loginCount"].

(** The keys of a record of [users.json] written by the sync. *)
Definition file_keys : list string :=
  ["_id"; "name"; "email"; "password"; "phone"; "dateOfBirth"; "gender"; "address";
   "city"; "state"; "postalCode"; "country"; "occupation"; "company"; "website";
   "emergencyContactName"; "emergencyContactPhone"; "profilePhoto";
   "newsletterSubscription"; "termsAccepted"; "status"; "emailVerified";
   "createdAt"; "updatedAt"; "lastLogin"; "loginCount"].

(** A date as MongoDB holds one: a valid date, or none. *)
Definition stored_date (v : Value) : bool :=
  match v with
  | Undefined | Null => true
  | Date d => negb (String.eqb d "Invalid Date")
  | _ => false
  end.

(** A document as MongoDB holds it: under an [ObjectId], with dates on
    its [Date] paths. *)
Definition stored_document (doc : Object) : bool :=
  match get doc "_id" with ObjectId _ => true | _ => false end
  && forallb (fun k => stored_date (get doc k)) userSchema_dates.

(** The record of [users.json] that stands for a document of the
    collection: the identifier as a string, the copied paths as the
    document shows them, the dates in their ISO rendering ([null] for a
    missing date of birth or last login, the time of the sync for a
    missing timestamp), and no other property. *)
Definition serialized (now : string) (doc fileUser : Object) : Prop :=
  (forall h, get doc "_id" = ObjectId h -> get fileUser "_id" = Str h)
  /\ (forall k, k ∈ copied_paths -> get fileUser k = JSON_value (shown doc k))
  /\ (forall k d, k ∈ userSchema_dates -> get doc k = Date d -> get fileUser k = Str d)
  /\ (forall k, k = "dateOfBirth" \/ k = "lastLogin" ->
                truthy (get doc k) = false -> get fileUser k = Null)
  /\ (forall k, k = "createdAt" \/ k = "updatedAt" ->
                truthy (get doc k) = false -> get fileUser k = Str now)
  /\ (forall k, is_Some (fileUser !! k) ->
                k = "_id" \/ k ∈ copied_paths \/ k ∈ userSchema_dates).


Definition same_outcome (a b : Outcome) : bool :=
  match a, b with
  | Migrated, Migrated | Skipped, Skipped | Errored, Errored => true
  | _, _ => false
  end.

(** How many lines of the log report the outcome [o]. *)
Definition occurrences (o : Outcome) (log : list Outcome) : nat :=
  length (List.filter (same_outcome o) log).

(** The schema of a key in an object schema. *)
Fixpoint Joi_key (keys : list (string * Key)) (k : string) : option Key :=
  match keys with
  | [] => None
  | (k', key) :: rest => if String.eqb k k' then Some key else Joi_key rest k
  end.

(** ** Sample inputs

    Concrete answers of the outside world, payloads and states on which
    the statements below are exercised.  [standin_hash] and the
    [accept_] functions stand in for [bcrypt.hash], for the validators
    of the schema and for the format checks of [Joi];
    [standin_library] stands in for the library on the sample texts,
    which are ASCII and whose dates are written in ISO form: it
    lowercases and trims over the ASCII range, counts bytes, reads a
    non-empty text as the date it spells, casts nothing but numbers to
    a number, and keeps a nested value as it is given. *)

Definition standin_date (v : Value) : option string :=
  match v with
  | Str s => if String.eqb s "" then None else Some s
  | _ => None
  end.

Definition standin_nested (v : Value) : option Value :=
  match v with
  | Null | Obj _ => Some v
  | _ => None
  end.

Definition standin_library : Library.
Proof.
  refine (mkLibrary ascii_toLowerCase ascii_toLowerCase ascii_trim String.length
                    standin_date (fun d => d) standin_date (fun _ => None)
                    standin_nested (fun v => v) _).
  intros s. induction s as [|c r IH]; cbn [ascii_toLowerCase]; [reflexivity|].
  rewrite IH. f_equal.
  destruct c as [[] [] [] [] [] [] [] []]; reflexivity.
Defined.

Definition standin_hash (data salt : string) : string := "$2a$12$" ++ salt ++ "$" ++ data.

Definition accept_all (now : string) (doc : Object) : bool := true.

Definition accept_text (s : string) : bool := true.

Definition sample_mongoEnv : MongoEnv :=
  mkMongoEnv "507f1f77bcf86cd799439011" "hooksalt" "2024-05-01T10:00:00.003Z"
             "2024-05-01T10:00:00.004Z" false false.

Definition sample_env : Env :=
  mkEnv "110ec58a-a0f2-4ac4-8393-c866d813b8d1" "salt" "2024-05-01T10:00:00.000Z"
        "2024-05-01T10:00:00.001Z" "2024-05-01T10:00:00.002Z" sample_mongoEnv.

Definition sample_env2 : Env :=
  mkEnv "7d444840-9dc0-11d1-b245-5ffdce74fad2" "salt2" "2024-05-02T10:00:00.000Z"
        "2024-05-02T10:00:00.001Z" "2024-05-02T10:00:00.002Z"
        (mkMongoEnv "507f191e810c19729de860ea" "hooksalt2" "2024-05-02T10:00:00.003Z"
                    "2024-05-02T10:00:00.004Z" false false).

(** The answers of a call during which the insert into MongoDB fails. *)
Definition sample_env_down : Env :=
  mkEnv "110ec58a-a0f2-4ac4-8393-c866d813b8d1" "salt" "2024-05-01T10:00:00.000Z"
        "2024-05-01T10:00:00.001Z" "2024-05-01T10:00:00.002Z"
        (mkMongoEnv "507f1f77bcf86cd799439011" "hooksalt" "2024-05-01T10:00:00.003Z"
                    "2024-05-01T10:00:00.004Z" false true).


Definition sample_migrateEnv : MigrateEnv :=
  mkMigrateEnv "2024-06-01T00:00:00.000Z" "2024-06-01T00:00:00.001Z"
    (mkMongoEnv "65f1a2b3c4d5e6f708192a3b" "hooksalt3" "2024-06-01T00:00:00.002Z"
                "2024-06-01T00:00:00.003Z" false false).

(** The payload of the end-to-end example, as the route hands it over. *)
Definition sample_userData : Object :=
  list_to_map [("name", Str "Jane Doe"); ("email", Str "JANE@X.COM");
               ("password", Str "secret1"); ("phone", Str "+15551234");
               ("termsAccepted", Bool true)].

Definition sample_userData2 : Object :=
  list_to_map [("name", Str "John Roe"); ("email", Str "john@x.com");
               ("password", Str "secret2"); ("phone", Str "+15559876");
               ("termsAccepted", Bool true)].

(** A request body whose consent flag is the string 'false'. *)
Definition sample_body_unaccepted : Object :=
  list_to_map [("name", Str "Jane Doe"); ("email", Str "JANE@X.COM");
               ("password", Str "secret1"); ("phone", Str "+15551234");
               ("terms_accepted", Str "false")].

(** [init] on an empty data directory, MongoDB refusing the connection
    and MongoDB connected. *)
Definition sample_file_only : Storage :=
  snd (init "2024-05-01T09:00:00.000Z" 0 false (constructor true true [])).

Definition sample_dual : Storage :=
  snd (init "2024-05-01T09:00:00.000Z" 0 true (constructor true true [])).

(** The dual state after Jane has registered. *)
Definition sample_registered : Storage :=
  snd (createUser sample_env sample_userData sample_dual).

(** Two documents of the collection and two records of the file, for
    the example of the destructive sync: A and B in MongoDB, A and C in
    the file. *)
Definition sample_doc (oid name email : string) : Object :=
  list_to_map [("_id", ObjectId oid); ("name", Str name); ("email", Str email);
               ("password", Str "$2a$12$hash"); ("phone", Str "+15550000");
               ("termsAccepted", Bool true); ("status", Str "active");
               ("createdAt", Date "2024-04-01T00:00:00.000Z");
               ("updatedAt", Date "2024-04-01T00:00:00.000Z")].

Definition sample_fileUser (id name email : string) : Object :=
  list_to_map [("_id", Str id); ("name", Str name); ("email", Str email);
               ("password", Str "$2a$12$hash"); ("phone", Str "+15550000");
               ("termsAccepted", Bool true); ("status", Str "active");
               ("createdAt", Str "2024-04-01T00:00:00.000Z");
               ("updatedAt", Str "2024-04-01T00:00:00.000Z")].

(** A data directory whose [users.json] was not written by the
    coordinator: the email of its record has capital letters. *)
Definition sample_foreign : Storage :=
  mkStorage (Some [sample_fileUser "id-j" "Jane Doe" "Jane@X.com"])
            (Some (mkStats 1 1 None "2024-05-01T09:00:00.000Z")) false true true [].

Definition sample_collection : list Object :=
  [sample_doc "65f000000000000000000001" "A" "a@x.com";
   sample_doc "65f000000000000000000002" "B" "b@x.com"].

Definition sample_users : list Object :=
  [sample_fileUser "id-a" "A" "a@x.com"; sample_fileUser "id-c" "C" "c@x.com"].

(** ** models/DualStorage.js: the readers *)

(** [findUserByEmail(email)]: MongoDB is asked first when it is
    connected, then the file; a failure of either is thrown again. *)
Definition findUserByEmail (env : MongoEnv) (email : string) : M (option Object) :=
  try_catch
    (let* fromMongo :=
       fun st =>
         if mongoConnected st && User st
         then match User_findOne env (Str (toLowerCase email)) (collection st) with
              | inl e => (inl e, st)
              | inr user => (inr user, st)
              end
         else (inr None, st) in
     match fromMongo with
     | Some user => ret (Some user)
     | None =>
         let* users := readUsers in
         ret (find (fun u => strict_eq (get u "email") (Str (toLowerCase email))) users)
     end)
    (fun error => throw error).

(** [getAllUsers()]: the documents of MongoDB without their password
    when it is connected and holds some, the records of the file without
    their password otherwise.  [find_throws] tells whether
    [User.find({})] fails. *)
Definition getAllUsers (find_throws : bool) : M (list Object) :=
  let fromFile : M (list Object) :=
    let* users := readUsers in
    ret (delete "password" <$> users) in
  try_catch
    (fun st =>
       if mongoConnected st && User st then
         if find_throws then (inl (mkError "MongoNetworkError"), st)
         else
           let users := delete "password" <$> User_find (collection st) in
           if (0 <? length users)%nat then (inr users, st) else fromFile st
       else fromFile st)
    (fun error => throw error).

(** What [getStats] answers: the content of [stats.json], or the
    fallback object with its [error] when the file cannot be read. *)
Record StatsAnswer := mkStatsAnswer {
  answer_totalUsers : Z;
  answer_totalRegistrations : Z;
  answer_lastRegistration : option string;
  answer_createdAt : option string;
  answer_error : option string
}.

Definition getStats (st : Storage) : StatsAnswer :=
  match statsFile st with
  | Some stats =>
      mkStatsAnswer (totalUsers stats) (totalRegistrations stats)
                    (lastRegistration stats) (Some (createdAt stats)) None
  | None => mkStatsAnswer 0 0 None None (Some "Could not read statistics")
  end.

(** ** routes/userRoutesDual.js: the listing *)

(** The responses of [GET /]. *)
Inductive ListResponse : Type :=
| Listed (users : list Object) (stats : StatsAnswer) (storage : StorageStatus)  (* 200 *)
| ListFailed.                                                                  (* 500 *)

Definition get_users (find_throws : bool) (st : Storage) : ListResponse * Storage :=
  match getAllUsers find_throws st with
  | (inr users, st') => (Listed users (getStats st') (getStorageStatus st'), st')
  | (inl error, st') => (ListFailed, st')
  end.

(** ** Further notions used by the statements *)

(** A record that a JSON round trip leaves as it is, as every record
    read from a file is. *)
Definition json_normal (users : list Object) : Prop :=
  Forall (fun u => JSON_roundtrip u = u) users.

(** Every record of the file has a string email under whose key the
    collection holds a document. *)
Definition mirrored (users db : list Object) : Prop :=
  Forall (fun u => exists e,
            get u "email" = Str e /\
            existsb (fun d => strict_eq (email_key d) (Str (trim (toLowerCase e)))) db
            = true) users.

(** The emails of the collection are as the setters of the schema leave
    them. *)
Definition normalised_emails (db : list Object) : Prop :=
  Forall (fun d => exists s, get d "email" = Str s /\ trim (toLowerCase s) = s) db.

(** What [preprocessFormData] does to an optional text field. *)
Definition empty_as_null (v : Value) : Value :=
  if strict_eq v (Str "") then Null else v.

(** The keys [preprocessFormData] may rewrite. *)
Definition flag_fields : list string := ["newsletter_subscription"; "terms_accepted"].

Definition nullable_fields : list string :=
  ["date_of_birth"; "gender"; "address"; "city"; "state"; "postal_code"; "country";
   "occupation"; "company"; "website"; "emergency_contact_name";
   "emergency_contact_phone"].

(** The optional properties [createUser] fills with [null]. *)
Definition optional_fields : list string :=
  ["gender"; "address"; "city"; "state"; "postalCode"; "country"; "occupation";
   "company"; "website"; "emergencyContactName"; "emergencyContactPhone";
   "profilePhoto"].

(** ** models/FileDatabase.js

    The file-only back end keeps its records in the same [users.json];
    its [stats.json] has a layout of its own. *)

(** [new Date(v).getTime()], [None] for [NaN], and
    [new Date(v).toDateString()]. *)
Variable Date_getTime : Value -> option Z.
Variable Date_toDateString : Value -> string.

(** The statistics [updateStats] writes; [init] writes the three
    counters that have no option here. *)
Record FileStats := mkFileStats {
  stats_totalUsers : Z;
  stats_activeUsers : Z;
  stats_verifiedEmails : option Z;
  stats_newsletterSubscribers : option Z;
  stats_registrationsToday : Z;
  stats_lastUpdated : option string
}.

Record FileDb := mkFileDb {
  db_usersFile : option (list Object);
  db_statsFile : option FileStats
}.

(** Answers of the outside world to one [createUser] of the file back
    end: the identifier, the salt, the readings of the clock, and
    whether the two writes fail. *)
Record FileEnv := mkFileEnv {
  file_uuid : string;
  file_salt : string;
  file_createdNow : string;
  file_updatedNow : string;
  file_today : string;
  file_lastUpdated : string;
  users_write_fails : bool;
  stats_write_fails : bool
}.

(** [readUsers]: an unreadable file reads as no users. *)
Definition FileDatabase_readUsers (fd : FileDb) : list Object :=
  match db_usersFile fd with
  | Some users => users
  | None => []
  end.

(** [saveUsers]: whether the write succeeded. *)
Definition FileDatabase_saveUsers (write_fails : bool) (users : list Object) (fd : FileDb)
  : bool * FileDb :=
  if write_fails then (false, fd)
  else (true, mkFileDb (Some (JSON_roundtrip <$> users)) (db_statsFile fd)).

(** [v.toLowerCase()] for a value [v] written [what] in the source. *)
Definition value_toLowerCase (what : string) (v : Value) : Error + string :=
  match v with
  | Str s => inr (toLowerCase s)
  | Undefined =>
      inl (mkError "Cannot read properties of undefined (reading 'toLowerCase')")
  | Null => inl (mkError "Cannot read properties of null (reading 'toLowerCase')")
  | _ => inl (mkError (what ++ ".toLowerCase is not a function"))
  end.

(** [users.find(user => user.email.toLowerCase() === email.toLowerCase())]:
    the callback throws on the first record, or on the argument, that
    has no string there. *)
Fixpoint FileDatabase_find_email (users : list Object) (email : Value)
  : Error + option Object :=
  match users with
  | [] => inr None
  | user :: rest =>
      match value_toLowerCase "user.email" (get user "email") with
      | inl e => inl e
      | inr a =>
          match value_toLowerCase "email" email with
          | inl e => inl e
          | inr b =>
              if String.eqb a b then inr (Some user)
              else FileDatabase_find_email rest email
          end
      end
  end.

Definition FileDatabase_findUserByEmail (email : Value) (fd : FileDb)
  : Error + option Object :=
  FileDatabase_find_email (FileDatabase_readUsers fd) email.

Definition count_users (f : Object -> bool) (users : list Object) : Z :=
  Z.of_nat (length (List.filter f users)).

(** [updateStats]: the statistics are computed afresh from the file;
    [null] when they cannot be written. *)
Definition FileDatabase_updateStats (env : FileEnv) (fd : FileDb)
  : option FileStats * FileDb :=
  let users := FileDatabase_readUsers fd in
  let stats :=
    mkFileStats
      (Z.of_nat (length users))
      (count_users (fun user => strict_eq (get user "status") (Str "active")) users)
      (Some (count_users (fun user => truthy (get user "emailVerified")) users))
      (Some (count_users (fun user => truthy (get user "newsletterSubscription")) users))
      (count_users
         (fun user => String.eqb (Date_toDateString (get user "createdAt")) (file_today env))
         users)
      (Some (file_lastUpdated env)) in
  if stats_write_fails env then (None, fd)
  else (Some stats, mkFileDb (db_usersFile fd) (Some stats)).

Definition FileDatabase_newUser (env : FileEnv) (userData : Object)
    (hashedPassword email : string) : Object :=
  list_to_map
    [("_id", Str (file_uuid env));
     ("name", get userData "name");
     ("email", Str email);
     ("password", Str hashedPassword);
     ("phone", get userData "phone");
     ("dateOfBirth", or_else (get userData "dateOfBirth") Null);
     ("gender", or_else (get userData "gender") Null);
     ("address", or_else (get userData "address") Null);
     ("city", or_else (get userData "city") Null);
     ("state", or_else (get userData "state") Null);
     ("postalCode", or_else (get userData "postalCode") Null);
     ("country", or_else (get userData "country") Null);
     ("occupation", or_else (get userData "occupation") Null);
     ("company", or_else (get userData "company") Null);
     ("website", or_else (get userData "website") Null);
     ("emergencyContactName", or_else (get userData "emergencyContactName") Null);
     ("emergencyContactPhone", or_else (get userData "emergencyContactPhone") Null);
     ("profilePhoto", or_else (get userData "profilePhoto") Null);
     ("newsletterSubscription", or_else (get userData "newsletterSubscription") (Bool false));
     ("termsAccepted", or_else (get userData "termsAccepted") (Bool false));
     ("status", Str "active");
     ("emailVerified", Bool false);
     ("createdAt", Str (file_createdNow env));
     ("updatedAt", Str (file_updatedNow env));
     ("lastLogin", Null);
     ("loginCount", Num 0)].

(** [createUser] of the file back end: the existence check comes first
    and disregards case; the result of [saveUsers] is not looked at. *)
Definition FileDatabase_createUser (env : FileEnv) (userData : Object) (fd : FileDb)
  : (Error + Object) * FileDb :=
  let users := FileDatabase_readUsers fd in
  match FileDatabase_find_email users (get userData "email") with
  | inl error => (inl error, fd)
  | inr (Some existingUser) => (inl (mkError "User with this email already exists"), fd)
  | inr None =>
      match get userData "password" with
      | Str p =>
          match value_toLowerCase "userData.email" (get userData "email") with
          | inl error => (inl error, fd)
          | inr email =>
              let newUser :=
                FileDatabase_newUser env userData (bcrypt_hash p (file_salt env)) email in
              let fd1 := snd (FileDatabase_saveUsers (users_write_fails env)
                                (users ++ [newUser])%list fd) in
              let fd2 := snd (FileDatabase_updateStats env fd1) in
              (inr (delete "password" newUser), fd2)
          end
      | v => (inl (mkError ("Illegal arguments: " ++ typeof v ++ ", string")), fd)
      end
  end.

(** [Array.prototype.sort(compare)]: the sort is stable, and a
    comparison that yields [NaN] counts as zero; for a consistent
    comparison the result is the one of the insertion sort. *)
Definition in_order (compare : Object -> Object -> option Z) (a b : Object) : bool :=
  match compare a b with
  | Some n => (n <=? 0)%Z
  | None => true
  end.

Fixpoint Array_insert (compare : Object -> Object -> option Z) (x : Object)
    (l : list Object) : list Object :=
  match l with
  | [] => [x]
  | y :: rest =>
      if in_order compare x y then x :: y :: rest
      else y :: Array_insert compare x rest
  end.

Fixpoint Array_sort (compare : Object -> Object -> option Z) (l : list Object)
  : list Object :=
  match l with
  | [] => []
  | x :: rest => Array_insert compare x (Array_sort compare rest)
  end.

(** [(a, b) => new Date(b.createdAt) - new Date(a.createdAt)] *)
Definition newest_first (a b : Object) : option Z :=
  match Date_getTime (get b "createdAt"), Date_getTime (get a "createdAt") with
  | Some tb, Some ta => Some (tb - ta)%Z
  | _, _ => None
  end.

(** [Array.prototype.slice(start, end)] on integers: a negative index
    counts from the end. *)
Definition relative_index (len i : Z) : Z :=
  if (i <? 0)%Z then Z.max (len + i) 0 else Z.min i len.

Definition Array_slice (start end_ : Z) (l : list Object) : list Object :=
  let len := Z.of_nat (length l) in
  let k := relative_index len start in
  let final := relative_index len end_ in
  take (Z.to_nat (final - k)) (drop (Z.to_nat k) l).

(** [Math.ceil(total / limit)] for integers; with [limit] zero the
    quotient is no number of pages ([Infinity] or [NaN]). *)
Definition Math_ceil_div (total limit : Z) : option Z :=
  if (limit =? 0)%Z then None else Some (- ((- total) / limit))%Z.

Record Page := mkPage {
  page_users : list Object;
  page_total : Z;
  page_page : Z;
  page_totalPages : option Z
}.

(** [getAllUsers(page, limit, status)], called with integers as the
    route does. *)
Definition FileDatabase_getAllUsers (page limit : Z) (status : Value) (fd : FileDb)
  : Page :=
  let users := FileDatabase_readUsers fd in
  let filteredUsers :=
    if truthy status
    then List.filter (fun user => strict_eq (get user "status") status) users
    else users in
  let filteredUsers := delete "password" <$> filteredUsers in
  let filteredUsers := Array_sort newest_first filteredUsers in
  let startIndex := ((page - 1) * limit)%Z in
  let endIndex := (startIndex + limit)%Z in
  let paginatedUsers := Array_slice startIndex endIndex filteredUsers in
  mkPage paginatedUsers (Z.of_nat (length filteredUsers)) page
         (Math_ceil_div (Z.of_nat (length filteredUsers)) limit).

(** ** The consent key of the sibling routes

    [routes/userRoutesFile.js] converts a truthy flag and validates
    [terms_accepted] against one schema, the MongoDB route validates the
    raw body against another. *)
Definition fileRoute_flag (k : string) (processedBody : Object) : Object :=
  if truthy (get processedBody k)
  then <[k := Bool (strict_eq (get processedBody k) (Str "true")
                    || strict_eq (get processedBody k) (Bool true))]> processedBody
  else processedBody.

Definition fileRoute_preprocess (body : Object) : Object :=
  let processedBody := body in
  let processedBody := fileRoute_flag "newsletter_subscription" processedBody in
  let processedBody := fileRoute_flag "terms_accepted" processedBody in
  empty_to_null "date_of_birth" processedBody.

Definition fileRoute_terms : Joi :=
  JoiAlternatives [JoiValid [Bool true] JoiBoolean; JoiValid [Str "true"] Joi_string].

Definition mongoRoute_terms : Joi := JoiValid [Bool true] JoiBoolean.

(** Stand-ins for the clock functions: the day of an ISO date as a
    number, and its first ten characters. *)
Definition digit_value (c : ascii) : option Z :=
  let n := Ascii.nat_of_ascii c in
  if (48 <=? n)%nat && (n <=? 57)%nat then Some (Z.of_nat (n - 48)) else None.

Fixpoint digits_value (fuel : nat) (s : string) (acc : Z) : Z :=
  match fuel, s with
  | S fuel', String c r =>
      match digit_value c with
      | Some d => digits_value fuel' r (10 * acc + d)%Z
      | None => digits_value fuel' r acc
      end
  | _, _ => acc
  end.

Definition standin_getTime (v : Value) : option Z :=
  match v with
  | Str s | Date s => Some (digits_value 10 s 0)
  | _ => None
  end.

Definition standin_toDateString (v : Value) : string :=
  match v with
  | Str s | Date s => substring 0 10 s
  | _ => "Invalid Date"
  end.

Definition sample_fileEnv : FileEnv :=
  mkFileEnv "9b2e4f3a-8c1d-4e5f-a6b7-c8d9e0f1a2b3" "salt3" "2024-05-03T10:00:00.000Z"
            "2024-05-03T10:00:00.001Z" "2024-05-03" "2024-05-03T10:00:00.002Z"
            false false.

Definition sample_fileEnv_failing : FileEnv :=
  mkFileEnv "9b2e4f3a-8c1d-4e5f-a6b7-c8d9e0f1a2b3" "salt3" "2024-05-03T10:00:00.000Z"
            "2024-05-03T10:00:00.001Z" "2024-05-03" "2024-05-03T10:00:00.002Z"
            true false.

Definition sample_fileDb : FileDb := mkFileDb (Some sample_users) None.

Definition sample_fileDb_empty : FileDb := mkFileDb (Some []) None.

(** A payload whose email is the one of record A, in upper case. *)
Definition sample_userData_taken : Object :=
  list_to_map [("name", Str "Ann"); ("email", Str "A@X.COM");
               ("password", Str "secret3"); ("phone", Str "+15550001");
               ("termsAccepted", Bool true)].

(** An object schema with the consent key of the file route alone, and
    a body for it. *)
Definition sample_consent_schema : list (string * Key) :=
  [("terms_accepted", required fileRoute_terms)].

Definition sample_consent_body : Object := list_to_map [("terms_accepted", Str "true")].

(** ** Facts about the coordinator *)

Lemma strict_eq_Str v s : strict_eq v (Str s) = true <-> v = Str s.
Proof.
  destruct v; simpl; try (split; [discriminate | intros [=]]).
  rewrite String.eqb_eq. split; [intros ->; reflexivity | intros [= ->]; reflexivity].
Qed.

Lemma get_JSON_roundtrip_Str o k s :
  get o k = Str s -> get (JSON_roundtrip o) k = Str s.
Proof.
  unfold get, JSON_roundtrip. rewrite lookup_omap.
  destruct (o !! k) as [v|]; simpl; [|discriminate].
  intros ->. reflexivity.
Qed.

Lemma head_default_elem {A} (l : list A) d :
  (0 < length l)%nat -> default d (head l) ∈ l.
Proof. destruct l as [|a l]; simpl; [lia | intros _; apply list_elem_of_here]. Qed.

Lemma last_default {A} (l : list A) d :
  (0 < length l)%nat -> last l = Some (default d (last l)).
Proof.
  intros Hl. destruct (last l) as [x|] eqn:Hlast; [reflexivity|].
  apply last_None in Hlast. subst l. simpl in Hl. lia.
Qed.

Lemma get_delete_ne (o : Object) k k' : k <> k' -> get (delete k o) k' = get o k'.
Proof. intros H. unfold get. rewrite lookup_delete_ne by exact H. reflexivity. Qed.

Lemma get_insert_ne (o : Object) k k' v : k <> k' -> get (<[k := v]> o) k' = get o k'.
Proof. intros H. unfold get. rewrite lookup_insert_ne by exact H. reflexivity. Qed.

Lemma get_insert_eq (o : Object) k v : get (<[k := v]> o) k = v.
Proof. unfold get. rewrite lookup_insert_eq. reflexivity. Qed.

(** The record assembled by [createUser], at its fixed keys. *)
Lemma newUser_email env userData h e : get (newUser_of env userData h e) "email" = Str e.
Proof. vm_compute. reflexivity. Qed.

Lemma newUser_password env userData h e :
  get (newUser_of env userData h e) "password" = Str h.
Proof. vm_compute. reflexivity. Qed.

Lemma newUser_id env userData h e :
  get (newUser_of env userData h e) "_id" = Str (uuid env).
Proof. vm_compute. reflexivity. Qed.

Lemma saveToMongo_returns env userData st :
  exists st', saveToMongo env userData st = (inr tt, st')
    /\ usersFile st' = usersFile st /\ statsFile st' = statsFile st
    /\ mongoConnected st' = mongoConnected st /\ mongoose st' = mongoose st
    /\ User st' = User st.
Proof.
  unfold saveToMongo, try_catch.
  destruct (User_save _ _ _); eexists; (split; [reflexivity|]); repeat split.
Qed.

Lemma when_saveToMongo_returns env userData st :
  exists st', when (fun st => mongoConnected st && User st)
                   (saveToMongo env userData) st = (inr tt, st')
    /\ usersFile st' = usersFile st /\ statsFile st' = statsFile st
    /\ mongoConnected st' = mongoConnected st /\ mongoose st' = mongoose st
    /\ User st' = User st.
Proof.
  unfold when. destruct (mongoConnected st && User st).
  - apply saveToMongo_returns.
  - exists st. repeat split.
Qed.

Lemma updateStats_returns now st :
  exists st', updateStats now st = (inr tt, st')
    /\ usersFile st' = usersFile st /\ mongoConnected st' = mongoConnected st
    /\ mongoose st' = mongoose st /\ User st' = User st
    /\ collection st' = collection st.
Proof.
  unfold updateStats.
  destruct (statsFile st) eqn:Hs, (usersFile st) eqn:Hu; eexists;
    (split; [reflexivity|]); simpl; rewrite ?Hu; repeat split.
Qed.

Lemma created_usersFile env newUser users st :
  usersFile (created env newUser users st)
  = Some (JSON_roundtrip <$> (users ++ [newUser])%list).
Proof.
  unfold created.
  destruct (when_saveToMongo_returns (mongo env) newUser
              (set_usersFile (Some (JSON_roundtrip <$> (users ++ [newUser])%list)) st))
    as (st2 & E2 & U2 & _).
  rewrite E2. simpl.
  destruct (updateStats_returns (statsNow env) st2) as (st3 & E3 & U3 & _).
  rewrite E3. simpl. rewrite U3, U2. reflexivity.
Qed.

Lemma created_flags env newUser users st :
  mongoConnected (created env newUser users st) = mongoConnected st
  /\ mongoose (created env newUser users st) = mongoose st
  /\ User (created env newUser users st) = User st.
Proof.
  unfold created.
  destruct (when_saveToMongo_returns (mongo env) newUser
              (set_usersFile (Some (JSON_roundtrip <$> (users ++ [newUser])%list)) st))
    as (st2 & E2 & _ & _ & C2 & M2 & V2).
  rewrite E2. simpl.
  destruct (updateStats_returns (statsNow env) st2) as (st3 & E3 & _ & C3 & M3 & V3 & _).
  rewrite E3. simpl. rewrite C3, C2, M3, M2, V3, V2. repeat split.
Qed.

Lemma saveToFile_fresh userData st users :
  usersFile st = Some users ->
  find (fun u => strict_eq (get u "email") (get userData "email")) users = None ->
  saveToFile userData st
  = (inr tt, set_usersFile (Some (JSON_roundtrip <$> (users ++ [userData])%list)) st).
Proof.
  intros Hf Hfind. unfold saveToFile, try_catch, bind, readUsers.
  rewrite Hf, Hfind. reflexivity.
Qed.

Lemma saveToFile_duplicate userData st users u :
  usersFile st = Some users ->
  find (fun u => strict_eq (get u "email") (get userData "email")) users = Some u ->
  saveToFile userData st = (inl (mkError "User with this email already exists"), st).
Proof.
  intros Hf Hfind. unfold saveToFile, try_catch, bind, readUsers.
  rewrite Hf, Hfind. reflexivity.
Qed.

Lemma saveToFile_absent userData st :
  usersFile st = None ->
  exists err, saveToFile userData st = (inl err, st).
Proof.
  intros Hf. unfold saveToFile, try_catch, bind, readUsers.
  rewrite Hf. eexists. reflexivity.
Qed.

(** The body of [createUser] once the password and the email have been
    read as strings. *)
Lemma createUser_strings env userData st e p :
  get userData "email" = Str e ->
  get userData "password" = Str p ->
  let newUser := newUser_of env userData (bcrypt_hash p (salt env)) (toLowerCase e) in
  createUser env userData st
  = match saveToFile newUser st with
    | (inl err, st') => (inl err, st')
    | (inr _, st1) =>
        (inr (delete "password" newUser),
         snd (updateStats (statsNow env)
                (snd (when (fun st => mongoConnected st && User st)
                           (saveToMongo (mongo env) newUser) st1))))
    end.
Proof.
  intros He Hp newUser.
  unfold createUser, try_catch, bind. rewrite Hp, He.
  unfold hash_password, email_toLowerCase, ret, throw. cbv beta iota.
  fold newUser.
  destruct (saveToFile newUser st) as [[err|[]] st1]; [reflexivity|].
  destruct (when_saveToMongo_returns (mongo env) newUser st1) as (st2 & E2 & _).
  rewrite E2.
  destruct (updateStats_returns (statsNow env) st2) as (st3 & E3 & _).
  cbv beta iota. unfold snd at 2. rewrite E3. reflexivity.
Qed.

(** A payload with a string password and a string email that no record
    of the file carries is created. *)
Lemma createUser_fresh env userData st e p users :
  get userData "email" = Str e ->
  get userData "password" = Str p ->
  usersFile st = Some users ->
  find (fun u => strict_eq (get u "email") (Str (toLowerCase e))) users = None ->
  let newUser := newUser_of env userData (bcrypt_hash p (salt env)) (toLowerCase e) in
  createUser env userData st
  = (inr (delete "password" newUser), created env newUser users st).
Proof.
  intros He Hp Hf Hfind newUser.
  rewrite (createUser_strings env userData st e p He Hp). fold newUser.
  rewrite (saveToFile_fresh newUser st users Hf).
  - reflexivity.
  - unfold newUser. rewrite newUser_email. exact Hfind.
Qed.

(** A payload whose lowercased email is the email of a record of the
    file is refused, and nothing is written. *)
Lemma createUser_duplicate env userData st e p users u :
  get userData "email" = Str e ->
  get userData "password" = Str p ->
  usersFile st = Some users ->
  find (fun u => strict_eq (get u "email") (Str (toLowerCase e))) users = Some u ->
  createUser env userData st
  = (inl (mkError "User with this email already exists"), st).
Proof.
  intros He Hp Hf Hfind.
  rewrite (createUser_strings env userData st e p He Hp).
  rewrite (saveToFile_duplicate _ st users u Hf).
  - reflexivity.
  - rewrite newUser_email. exact Hfind.
Qed.

(** Every call either throws and leaves the storage as it was, or is a
    creation as in [createUser_fresh]. *)
Lemma createUser_inv env userData st r st' :
  createUser env userData st = (r, st') ->
  (exists err, r = inl err /\ st' = st) \/
  (exists e p users,
      get userData "email" = Str e /\ get userData "password" = Str p /\
      usersFile st = Some users /\
      find (fun u => strict_eq (get u "email") (Str (toLowerCase e))) users = None /\
      r = inr (delete "password"
                 (newUser_of env userData (bcrypt_hash p (salt env)) (toLowerCase e))) /\
      st' = created env (newUser_of env userData (bcrypt_hash p (salt env)) (toLowerCase e))
                    users st).
Proof.
  intros H.
  destruct (get userData "password") as [| | | |p| | |] eqn:Hp;
    try (left; unfold createUser, try_catch, bind in H; rewrite Hp in H;
         unfold hash_password, throw in H; cbv beta iota in H;
         injection H as <- <-; eexists; split; reflexivity).
  destruct (get userData "email") as [| | | |e| | |] eqn:He;
    try (left; unfold createUser, try_catch, bind in H; rewrite Hp, He in H;
         unfold hash_password, email_toLowerCase, ret, throw in H; cbv beta iota in H;
         injection H as <- <-; eexists; split; reflexivity).
  destruct (usersFile st) as [users|] eqn:Hf.
  - destruct (find (fun u => strict_eq (get u "email") (Str (toLowerCase e))) users)
      as [u|] eqn:Hfind.
    + left. rewrite (createUser_duplicate env userData st e p users u He Hp Hf Hfind) in H.
      injection H as <- <-. eexists; split; reflexivity.
    + right. rewrite (createUser_fresh env userData st e p users He Hp Hf Hfind) in H.
      apply pair_equal_spec in H as [<- <-].
      exists e, p, users. repeat split; assumption.
  - left. rewrite (createUser_strings env userData st e p He Hp) in H.
    destruct (saveToFile_absent
                (newUser_of env userData (bcrypt_hash p (salt env)) (toLowerCase e)) st Hf)
      as [err Herr].
    rewrite Herr in H. injection H as <- <-. eexists; split; reflexivity.
Qed.

(** ** The email invariant of the file store *)

Lemma find_Some_elem (f : Object -> bool) (l : list Object) u :
  find f l = Some u -> u ∈ l /\ f u = true.
Proof.
  intros H. apply find_some in H as [Hin Hf].
  split; [apply list_elem_of_In; exact Hin | exact Hf].
Qed.

Lemma find_None_elem (f : Object -> bool) (l : list Object) u :
  find f l = None -> u ∈ l -> f u = false.
Proof.
  intros H Hin. apply (find_none f l H). apply list_elem_of_In. exact Hin.
Qed.

(** The exact check finds a record exactly when some record carries the
    lowercased email itself. *)
Lemma find_email_taken e users u :
  find (fun u => strict_eq (get u "email") (Str (toLowerCase e))) users = Some u ->
  email_taken e users.
Proof.
  intros H. apply find_Some_elem in H as [Hin Heq].
  apply strict_eq_Str in Heq.
  exists u, (toLowerCase e). split; [exact Hin|]. split; [exact Heq|].
  apply toLowerCase_idempotent.
Qed.

Lemma email_taken_find e users :
  lowercase_emails users ->
  email_taken e users ->
  exists u, find (fun u => strict_eq (get u "email") (Str (toLowerCase e))) users = Some u.
Proof.
  intros Hlow (u & e' & Hin & He' & Hci).
  destruct (find (fun u => strict_eq (get u "email") (Str (toLowerCase e))) users)
    as [w|] eqn:Hfind; [exists w; reflexivity|].
  exfalso.
  pose proof (find_None_elem _ _ u Hfind Hin) as Hno. cbv beta in Hno.
  unfold lowercase_emails in Hlow. rewrite Forall_forall in Hlow.
  destruct (Hlow u Hin) as (e0 & He0 & Hid).
  rewrite He0 in He'. injection He' as <-.
  rewrite He0, <- Hci, Hid in Hno.
  simpl in Hno. rewrite String.eqb_refl in Hno. discriminate.
Qed.

Lemma not_taken_find e users :
  ~ email_taken e users ->
  find (fun u => strict_eq (get u "email") (Str (toLowerCase e))) users = None.
Proof.
  intros Hfresh.
  destruct (find (fun u => strict_eq (get u "email") (Str (toLowerCase e))) users)
    as [w|] eqn:Hfind; [|reflexivity].
  exfalso. apply Hfresh. exact (find_email_taken e users w Hfind).
Qed.

Lemma lowercase_emails_created users newUser e :
  lowercase_emails users ->
  get newUser "email" = Str (toLowerCase e) ->
  lowercase_emails (JSON_roundtrip <$> (users ++ [newUser])%list).
Proof.
  intros Hlow Hnew. unfold lowercase_emails in *.
  rewrite Forall_fmap, Forall_app. split.
  - eapply Forall_impl; [exact Hlow|].
    intros u (e0 & He0 & Hid). exists e0. split; [|exact Hid].
    apply get_JSON_roundtrip_Str. exact He0.
  - apply Forall_singleton. exists (toLowerCase e). split.
    + apply get_JSON_roundtrip_Str. exact Hnew.
    + apply toLowerCase_idempotent.
Qed.

Lemma unique_emails_created users newUser e :
  lowercase_emails users ->
  unique_emails users ->
  get newUser "email" = Str (toLowerCase e) ->
  find (fun u => strict_eq (get u "email") (Str (toLowerCase e))) users = None ->
  unique_emails (JSON_roundtrip <$> (users ++ [newUser])%list).
Proof.
  intros Hlow Huniq Hnew Hfind.
  assert (Hold : forall i u eu,
             (JSON_roundtrip <$> (users ++ [newUser])%list) !! i = Some u ->
             get u "email" = Str eu ->
             (i < length users)%nat ->
             exists u0, users !! i = Some u0 /\ get u0 "email" = Str eu /\ toLowerCase eu = eu).
  { intros i u eu Hi Hu Hlt.
    rewrite list_lookup_fmap, lookup_app_l in Hi by exact Hlt.
    destruct (users !! i) as [u0|] eqn:Hu0; [|discriminate].
    simpl in Hi. injection Hi as <-.
    unfold lowercase_emails in Hlow. rewrite Forall_forall in Hlow.
    destruct (Hlow u0) as (e0 & He0 & Hid).
    { apply list_elem_of_lookup. exists i. exact Hu0. }
    rewrite (get_JSON_roundtrip_Str u0 "email" e0 He0) in Hu. injection Hu as <-.
    exists u0. repeat split; assumption. }
  assert (Hnewest : forall i u eu,
             (JSON_roundtrip <$> (users ++ [newUser])%list) !! i = Some u ->
             get u "email" = Str eu ->
             (length users <= i)%nat ->
             i = length users /\ eu = toLowerCase e).
  { intros i u eu Hi Hu Hge.
    rewrite list_lookup_fmap, lookup_app_r in Hi by exact Hge.
    destruct (i - length users)%nat as [|n] eqn:Hd; simpl in Hi; [|discriminate].
    injection Hi as <-.
    rewrite (get_JSON_roundtrip_Str newUser "email" _ Hnew) in Hu. injection Hu as <-.
    split; [lia | reflexivity]. }
  assert (Hclash : forall i u0 eu,
             users !! i = Some u0 -> get u0 "email" = Str eu -> toLowerCase eu = eu ->
             toLowerCase eu = toLowerCase (toLowerCase e) -> False).
  { intros i u0 eu Hu0 He0 Hid Hci.
    assert (Hin : u0 ∈ users) by (apply list_elem_of_lookup; exists i; exact Hu0).
    pose proof (find_None_elem _ _ u0 Hfind Hin) as Hno. cbv beta in Hno.
    rewrite He0, <- Hid, Hci, toLowerCase_idempotent in Hno.
    simpl in Hno. rewrite String.eqb_refl in Hno. discriminate. }
  intros i j u v eu ev Hi Hj Hu Hv Hci.
  destruct (decide (i < length users)%nat) as [Hil|Hil],
           (decide (j < length users)%nat) as [Hjl|Hjl].
  - destruct (Hold i u eu Hi Hu Hil) as (u0 & Hu0 & He0 & _).
    destruct (Hold j v ev Hj Hv Hjl) as (v0 & Hv0 & Hf0 & _).
    exact (Huniq i j u0 v0 eu ev Hu0 Hv0 He0 Hf0 Hci).
  - destruct (Hold i u eu Hi Hu Hil) as (u0 & Hu0 & He0 & Hid).
    destruct (Hnewest j v ev Hj Hv ltac:(lia)) as [_ ->].
    exfalso. exact (Hclash i u0 eu Hu0 He0 Hid Hci).
  - destruct (Hold j v ev Hj Hv Hjl) as (v0 & Hv0 & Hf0 & Hid).
    destruct (Hnewest i u eu Hi Hu ltac:(lia)) as [_ ->].
    exfalso. symmetry in Hci. exact (Hclash j v0 ev Hv0 Hf0 Hid Hci).
  - destruct (Hnewest i u eu Hi Hu ltac:(lia)) as [-> _].
    destruct (Hnewest j v ev Hj Hv ltac:(lia)) as [-> _].
    reflexivity.
Qed.

Lemma init_store_inv now readyState connect_ok m u db :
  store_inv (snd (init now readyState connect_ok (constructor m u db))).
Proof.
  exists []. split.
  - unfold init, bind, initFileStorage, constructor, when, initMongoStorage,
      try_catch, bind, ret, throw.
    destruct m, (readyState =? 0)%Z, connect_ok; reflexivity.
  - split; [constructor|].
    intros i j u0 v eu ev Hi. rewrite lookup_nil in Hi. discriminate.
Qed.

Lemma createUser_store_inv env userData st :
  store_inv st -> store_inv (snd (createUser env userData st)).
Proof.
  intros (users & Hf & Hlow & Huniq).
  destruct (createUser env userData st) as [r st'] eqn:Hc.
  destruct (createUser_inv env userData st r st' Hc)
    as [(err & -> & ->) | (e & p & users' & He & Hp & Hf' & Hfind & -> & ->)].
  - exists users. repeat split; assumption.
  - rewrite Hf in Hf'. injection Hf' as <-.
    eexists. split; [apply created_usersFile|]. split.
    + apply (lowercase_emails_created users _ e Hlow). apply newUser_email.
    + apply (unique_emails_created users _ e Hlow Huniq);
        [apply newUser_email | exact Hfind].
Qed.

Lemma reachable_store_inv st : reachable st -> store_inv st.
Proof.
  induction 1 as [now rs ok m u db | st env userData _ IH].
  - apply init_store_inv.
  - apply createUser_store_inv. exact IH.
Qed.

(** ** The coordinator: conflicts, degraded mode, the returned record *)


Lemma init_counted now readyState connect_ok m u db :
  counted (snd (init now readyState connect_ok (constructor m u db))).
Proof.
  exists [], (initialStats now).
  unfold init, bind, initFileStorage, constructor, when, initMongoStorage,
    try_catch, bind, ret, throw.
  destruct m, (readyState =? 0)%Z, connect_ok; repeat split.
Qed.

Lemma created_counted env newUser users stats st :
  usersFile st = Some users ->
  statsFile st = Some stats ->
  counted (created env newUser users st).
Proof.
  intros Hu Hs. unfold created.
  destruct (when_saveToMongo_returns (mongo env) newUser
              (set_usersFile (Some (JSON_roundtrip <$> (users ++ [newUser])%list)) st))
    as (st2 & E2 & U2 & S2 & _).
  rewrite E2. cbn [snd].
  cbn [usersFile statsFile set_usersFile] in U2, S2. rewrite Hs in S2.
  unfold updateStats. rewrite S2, U2. cbn [snd].
  eexists _, _. cbn [usersFile statsFile set_statsFile]. rewrite U2.
  repeat split.
Qed.

(** C1. On a [users.json] whose emails are all lowercase, as they are
    in every state the coordinator reaches (C10), every payload with a
    string password whose email is carried, up to case, by a record of
    the Primary Store makes [createUser] throw the error 'User with this
    email already exists', which the route answers with the 409 conflict
    response and not with the generic 500; the storage, the user
    collection included, is left as it was, whatever the state of the
    Secondary Store. *)
Theorem createUser_taken_email_conflict st env userData e p :
  lowercase_emails (users_of st) ->
  get userData "email" = Str e ->
  get userData "password" = Str p ->
  email_taken e (users_of st) ->
  exists error,
    createUser env userData st = (inl error, st)
    /\ includes "already exists" (message error) = true
    /\ error_response error = Conflict "User with this email already exists"
    /\ status_code (error_response error) = 409%Z.
Proof.
  intros Hlow He Hp Htaken. unfold users_of in Hlow, Htaken.
  destruct (usersFile st) as [users|] eqn:Hf; cbn [default] in Hlow, Htaken.
  2:{ destruct Htaken as (u & _ & Hin & _). apply elem_of_nil in Hin. destruct Hin. }
  destruct (email_taken_find e users Hlow Htaken) as [u Hfind].
  exists (mkError "User with this email already exists").
  split; [exact (createUser_duplicate env userData st e p users u He Hp Hf Hfind)|].
  repeat split.
Qed.

(** C6. For every payload with a string password and a string email
    that no record of the Primary Store carries, [createUser] returns
    a record whose [email] is the lowercased input email and which has
    no [password] property. *)
Theorem createUser_returns_lowercase_email_no_password st env userData e p users :
  get userData "email" = Str e ->
  get userData "password" = Str p ->
  usersFile st = Some users ->
  ~ email_taken e users ->
  exists record st',
    createUser env userData st = (inr record, st')
    /\ get record "email" = Str (toLowerCase e)
    /\ record !! "password" = None.
Proof.
  intros He Hp Hf Hfresh.
  eexists _, _. split.
  - apply (createUser_fresh env userData st e p users He Hp Hf).
    apply not_taken_find. exact Hfresh.
  - split.
    + rewrite get_delete_ne by discriminate. apply newUser_email.
    + apply lookup_delete_eq.
Qed.

Lemma createUser_counted env userData st record st' :
  counted st ->
  createUser env userData st = (inr record, st') ->
  counted st' /\
  exists users users',
    usersFile st = Some users /\ usersFile st' = Some users' /\
    length users' = S (length users).
Proof.
  intros (users & stats & Hu & Hs & _) Hc.
  destruct (createUser_inv env userData st _ _ Hc)
    as [(err & Herr & _) | (e & p & users0 & _ & _ & Hu0 & _ & _ & ->)];
    [discriminate|].
  rewrite Hu in Hu0. injection Hu0 as <-.
  split; [exact (created_counted env _ users stats st Hu Hs)|].
  eexists _, _. split; [exact Hu|]. split; [apply created_usersFile|].
  rewrite length_fmap, length_app. simpl. lia.
Qed.

Lemma createUsers_counted calls st results st' :
  counted st ->
  createUsers calls st = (results, st') ->
  forallb succeeded results = true ->
  counted st' /\
  exists users users',
    usersFile st = Some users /\ usersFile st' = Some users' /\
    length users' = (length users + length calls)%nat.
Proof.
  revert st results st'.
  induction calls as [|[env userData] rest IH]; intros st results st' Hst Hrun Hok.
  - simpl in Hrun. injection Hrun as <- <-. split; [exact Hst|].
    destruct Hst as (users & stats & Hu & _).
    exists users, users. repeat split; [exact Hu | exact Hu | simpl; lia].
  - cbn [createUsers] in Hrun.
    destruct (createUser env userData st) as [r st1] eqn:Hc.
    destruct (createUsers rest st1) as [rs st2] eqn:Hrest.
    apply pair_equal_spec in Hrun as [<- <-].
    cbn [forallb] in Hok. apply andb_prop in Hok as [Hr Hrs].
    destruct r as [err|record]; [discriminate Hr|].
    destruct (createUser_counted env userData st record st1 Hst Hc)
      as (Hst1 & users & users1 & Hu & Hu1 & Hlen1).
    destruct (IH st1 rs st2 Hst1 Hrest Hrs) as (Hst2 & users1' & users2 & Hu1' & Hu2 & Hlen2).
    rewrite Hu1 in Hu1'. injection Hu1' as <-.
    split; [exact Hst2|].
    exists users, users2. repeat split; [exact Hu | exact Hu2 | simpl; lia].
Qed.

(** C9. After any sequence of N calls of [createUser] that all succeed,
    started on the state [init] leaves on an empty data directory, the
    [totalUsers] counter kept in [stats.json] is the number of records
    of [users.json], which is N. *)
Theorem createUsers_totalUsers now readyState connect_ok m u db calls :
  let st0 := snd (init now readyState connect_ok (constructor m u db)) in
  forallb succeeded (fst (createUsers calls st0)) = true ->
  exists users stats,
    usersFile (snd (createUsers calls st0)) = Some users
    /\ statsFile (snd (createUsers calls st0)) = Some stats
    /\ totalUsers stats = Z.of_nat (length users)
    /\ length users = length calls.
Proof.
  intros st0 Hok.
  destruct (createUsers calls st0) as [results st] eqn:Hrun. cbn [fst snd] in *.
  destruct (createUsers_counted calls _ results st
              (init_counted now readyState connect_ok m u db) Hrun Hok)
    as ((users & stats & Hu & Hs & Htot) & users0 & users' & Hu0 & Hu' & Hlen).
  rewrite Hu in Hu'. injection Hu' as <-.
  assert (Hinit : usersFile st0 = Some []).
  { unfold st0, init, bind, initFileStorage, constructor, when, initMongoStorage,
      try_catch, bind, ret, throw.
    destruct m, (readyState =? 0)%Z, connect_ok; reflexivity. }
  fold st0 in Hu0. rewrite Hinit in Hu0. injection Hu0 as <-.
  exists users, stats. repeat split; [exact Hu | exact Hs | exact Htot | exact Hlen].
Qed.

(** C10. In every state reachable through the coordinator, each record
    of [users.json] carries an email that is its own lowercase; so
    [saveToFile], whose exact comparison gets the incoming email
    lowercased by [createUser], throws its duplicate error exactly when
    some record carries that email up to case, and no two records carry
    the same email up to case. *)
Theorem reachable_emails_lowercase_unique st :
  reachable st ->
  exists users,
    usersFile st = Some users
    /\ lowercase_emails users
    /\ (forall e userData,
          get userData "email" = Str (toLowerCase e) ->
          saveToFile userData st = (inl duplicate_error, st) <-> email_taken e users)
    /\ unique_emails users.
Proof.
  intros Hreach.
  destruct (reachable_store_inv st Hreach) as (users & Hf & Hlow & Huniq).
  exists users. split; [exact Hf|]. split; [exact Hlow|]. split; [|exact Huniq].
  intros e userData He. split.
  - intros Hdup.
    destruct (find (fun u => strict_eq (get u "email") (Str (toLowerCase e))) users)
      as [u|] eqn:Hfind; [exact (find_email_taken e users u Hfind)|].
    rewrite (saveToFile_fresh userData st users Hf) in Hdup
      by (rewrite He; exact Hfind).
    apply pair_equal_spec in Hdup as [Hdup _]. discriminate Hdup.
  - intros Htaken. destruct (email_taken_find e users Hlow Htaken) as [u Hfind].
    apply (saveToFile_duplicate userData st users u Hf).
    rewrite He. exact Hfind.
Qed.

(** ** The write to the Secondary Store *)

Lemma inr_eq_inv {A B} (x y : B) : @inr A B x = inr y -> x = y.
Proof. intros H. injection H as ->. reflexivity. Qed.

Lemma User_new_lookup env obj k :
  k <> "_id" ->
  fields (User_new env obj) !! k
  = (obj !! k ≫= cast_property k) ∪ (userSchema_defaults !! k).
Proof.
  intros Hk. unfold User_new. cbn [fields].
  rewrite lookup_insert_ne by (intros Heq; apply Hk; symmetry; exact Heq).
  rewrite lookup_union, map_lookup_imap. reflexivity.
Qed.

Lemma User_new_id env obj :
  get (fields (User_new env obj)) "_id" = ObjectId (objectId env).
Proof. unfold User_new. cbn [fields]. apply get_insert_eq. Qed.

Lemma get_timestamp env k doc k' : k <> k' -> get (timestamp env k doc) k' = get doc k'.
Proof.
  intros Hk. unfold timestamp.
  destruct (get doc k); try reflexivity; apply get_insert_ne; exact Hk.
Qed.

Lemma get_timestamps env doc k :
  k <> "createdAt" -> k <> "updatedAt" -> get (timestamps env doc) k = get doc k.
Proof.
  intros Hc Hu. unfold timestamps.
  rewrite get_timestamp by (intros Heq; apply Hu; symmetry; exact Heq).
  apply get_timestamp. intros Heq; apply Hc; symmetry; exact Heq.
Qed.

Lemma pre_save_hashes env doc p :
  doc !! "password" = Some (Str p) ->
  pre_save env doc = inr (<["password" := Str (bcrypt_hash p (hookSalt env))]> doc).
Proof. intros H. unfold pre_save. rewrite H. reflexivity. Qed.

(** [save] either fails or appends the hooked, stamped document. *)
Lemma User_save_inv env doc db db' :
  User_save env doc db = inr db' ->
  exists hashed,
    pre_save env (fields doc) = inr hashed /\
    db' = (db ++ [timestamps env hashed])%list /\
    castError doc = false /\
    userSchema_validators (validationNow env) (validated_paths (fields doc)) = true /\
    save_throws env = false /\
    existsb (fun d => strict_eq (email_key d) (email_key (timestamps env hashed))) db
    = false.
Proof.
  unfold User_save. intros H.
  destruct (castError doc); [discriminate|].
  destruct (userSchema_validators (validationNow env) (validated_paths (fields doc)));
    [|discriminate].
  cbn [negb orb] in H. cbv iota in H.
  destruct (pre_save env (fields doc)) as [err|hashed]; [discriminate|].
  cbv zeta in H.
  destruct (save_throws env); [discriminate|].
  destruct (existsb _ db) eqn:Hdup; [discriminate|].
  injection H as <-. exists hashed. repeat split. exact Hdup.
Qed.

Lemma created_collection env newUser users st :
  collection (created env newUser users st)
  = if mongoConnected st && User st
    then match User_save (mongo env) (User_new (mongo env) (delete "_id" newUser))
                 (collection st) with
         | inr db => db
         | inl _ => collection st
         end
    else collection st.
Proof.
  unfold created.
  destruct (updateStats_returns (statsNow env)
              (snd (when (fun st => mongoConnected st && User st)
                         (saveToMongo (mongo env) newUser)
                         (set_usersFile (Some (JSON_roundtrip <$> (users ++ [newUser])%list)) st))))
    as (st3 & E3 & _ & _ & _ & _ & C3).
  rewrite E3. cbn [snd]. rewrite C3.
  unfold when. cbn [mongoConnected User set_usersFile].
  destruct (mongoConnected st && User st); [|reflexivity].
  unfold saveToMongo, try_catch. cbv zeta. cbn [collection set_usersFile].
  destruct (User_save _ _ _); reflexivity.
Qed.

Lemma newUser_lookup_password env userData h e :
  newUser_of env userData h e !! "password" = Some (Str h).
Proof. vm_compute. reflexivity. Qed.

Lemma newUser_lookup_email env userData h e :
  newUser_of env userData h e !! "email" = Some (Str e).
Proof. vm_compute. reflexivity. Qed.

(** A call that leaves the collection longer is a creation. *)
Lemma createUser_grew st env userData e p users :
  get userData "email" = Str e ->
  get userData "password" = Str p ->
  usersFile st = Some users ->
  length (collection (snd (createUser env userData st))) = S (length (collection st)) ->
  createUser env userData st
  = (inr (delete "password"
            (newUser_of env userData (bcrypt_hash p (salt env)) (toLowerCase e))),
     created env (newUser_of env userData (bcrypt_hash p (salt env)) (toLowerCase e))
             users st).
Proof.
  intros He Hp Hf Hgrow.
  destruct (createUser env userData st) as [r st'] eqn:Hc.
  destruct (createUser_inv env userData st r st' Hc)
    as [(err & -> & ->) | (e0 & p0 & users0 & He0 & Hp0 & Hf0 & Hfind & -> & ->)];
    [cbn [snd] in Hgrow; lia|].
  rewrite He in He0. injection He0 as <-.
  rewrite Hp in Hp0. injection Hp0 as <-.
  rewrite Hf in Hf0. apply Some_inj in Hf0. subst users0.
  reflexivity.
Qed.

(** When a call of [createUser] on a fresh payload leaves the
    collection longer, the new document is the stamped result of the
    pre-save hook on [new User] of the record without its [_id], and the
    file got the record itself. *)
Lemma dual_write_inv st env userData e p users :
  get userData "email" = Str e ->
  get userData "password" = Str p ->
  usersFile st = Some users ->
  ~ email_taken e users ->
  length (collection (snd (createUser env userData st))) = S (length (collection st)) ->
  let newUser := newUser_of env userData (bcrypt_hash p (salt env)) (toLowerCase e) in
  let user := User_new (mongo env) (delete "_id" newUser) in
  usersFile (snd (createUser env userData st))
  = Some ((JSON_roundtrip <$> users) ++ [JSON_roundtrip newUser])%list
  /\ collection (snd (createUser env userData st))
     = (collection st ++
        [timestamps (mongo env)
           (<["password" :=
                Str (bcrypt_hash (bcrypt_hash p (salt env)) (hookSalt (mongo env)))]>
              (fields user))])%list.
Proof.
  intros He Hp Hf Hfresh Hgrow newUser user.
  destruct (createUser env userData st) as [r st'] eqn:Hc.
  destruct (createUser_inv env userData st r st' Hc)
    as [(err & -> & ->) | (e0 & p0 & users0 & He0 & Hp0 & Hf0 & Hfind & -> & ->)];
    [cbn [snd] in Hgrow; lia|].
  rewrite He in He0. injection He0 as <-.
  rewrite Hp in Hp0. injection Hp0 as <-.
  rewrite Hf in Hf0. apply Some_inj in Hf0. subst users0.
  cbn [snd] in *. fold newUser in Hgrow |- *.
  split.
  - rewrite created_usersFile, fmap_app. reflexivity.
  - rewrite created_collection in Hgrow |- *. fold user in Hgrow |- *.
    destruct (mongoConnected st && User st); [|lia].
    destruct (User_save (mongo env) user (collection st)) as [err|db] eqn:Hsave; [lia|].
    destruct (User_save_inv _ _ _ _ Hsave) as (hashed & Hpre & -> & _).
    assert (Hpw : fields user !! "password" = Some (Str (bcrypt_hash p (salt env)))).
    { unfold user. rewrite User_new_lookup by discriminate.
      rewrite lookup_delete_ne by discriminate.
      unfold newUser. rewrite newUser_lookup_password. reflexivity. }
    rewrite (pre_save_hashes _ _ _ Hpw) in Hpre.
    apply inr_eq_inv in Hpre. rewrite <- Hpre. reflexivity.
Qed.

(** C3. The coordinator hashes the plaintext once and hands that hash to
    both stores, but the stores do not end up with the same value: the
    file keeps the coordinator's hash, while the pre-save hook of the
    [User] model hashes what it receives again, so the document that a
    successful dual write adds to the collection carries the hash of the
    hash. *)
Theorem dual_write_password_hashed_again st env userData e p users :
  get userData "email" = Str e ->
  get userData "password" = Str p ->
  usersFile st = Some users ->
  ~ email_taken e users ->
  length (collection (snd (createUser env userData st))) = S (length (collection st)) ->
  exists fileUser doc,
    usersFile (snd (createUser env userData st))
    = Some ((JSON_roundtrip <$> users) ++ [fileUser])%list
    /\ collection (snd (createUser env userData st)) = (collection st ++ [doc])%list
    /\ get fileUser "password" = Str (bcrypt_hash p (salt env))
    /\ get doc "password"
       = Str (bcrypt_hash (bcrypt_hash p (salt env)) (hookSalt (mongo env))).
Proof.
  intros He Hp Hf Hfresh Hgrow.
  destruct (dual_write_inv st env userData e p users He Hp Hf Hfresh Hgrow)
    as [Hfile Hcoll].
  eexists _, _. split; [exact Hfile|]. split; [exact Hcoll|]. split.
  - apply get_JSON_roundtrip_Str. apply newUser_password.
  - rewrite get_timestamps by discriminate. apply get_insert_eq.
Qed.

(** C4. The identifiers of a dual write: the document that a
    successful dual write adds to the collection does not carry the identifier the coordinator
    generated: [saveToMongo] deletes [_id] before the write and the
    document gets the [ObjectId] assigned on the MongoDB side, while the
    record of the file keeps the coordinator's UUID string; the two
    share the email, lowercased by the coordinator and trimmed by the
    schema. *)
Theorem dual_write_identifiers st env userData e p users :
  get userData "email" = Str e ->
  get userData "password" = Str p ->
  usersFile st = Some users ->
  ~ email_taken e users ->
  length (collection (snd (createUser env userData st))) = S (length (collection st)) ->
  exists fileUser doc,
    usersFile (snd (createUser env userData st))
    = Some ((JSON_roundtrip <$> users) ++ [fileUser])%list
    /\ collection (snd (createUser env userData st)) = (collection st ++ [doc])%list
    /\ get fileUser "_id" = Str (uuid env)
    /\ get doc "_id" = ObjectId (objectId (mongo env))
    /\ get doc "_id" <> get fileUser "_id"
    /\ get fileUser "email" = Str (toLowerCase e)
    /\ get doc "email" = Str (trim (toLowerCase e)).
Proof.
  intros He Hp Hf Hfresh Hgrow.
  destruct (dual_write_inv st env userData e p users He Hp Hf Hfresh Hgrow)
    as [Hfile Hcoll].
  assert (Hfid : get (JSON_roundtrip
                        (newUser_of env userData (bcrypt_hash p (salt env)) (toLowerCase e)))
                     "_id" = Str (uuid env)).
  { apply get_JSON_roundtrip_Str. apply newUser_id. }
  assert (Hdid : get (timestamps (mongo env)
                        (<["password" :=
                             Str (bcrypt_hash (bcrypt_hash p (salt env))
                                    (hookSalt (mongo env)))]>
                           (fields (User_new (mongo env)
                                      (delete "_id"
                                         (newUser_of env userData
                                            (bcrypt_hash p (salt env))
                                            (toLowerCase e)))))))
                     "_id" = ObjectId (objectId (mongo env))).
  { rewrite get_timestamps by discriminate.
    rewrite get_insert_ne by discriminate. apply User_new_id. }
  eexists _, _. split; [exact Hfile|]. split; [exact Hcoll|].
  split; [exact Hfid|]. split; [exact Hdid|].
  split; [rewrite Hfid, Hdid; discriminate|].
  assert (Hmail : get (timestamps (mongo env)
                         (<["password" :=
                              Str (bcrypt_hash (bcrypt_hash p (salt env))
                                     (hookSalt (mongo env)))]>
                            (fields (User_new (mongo env)
                                       (delete "_id"
                                          (newUser_of env userData
                                             (bcrypt_hash p (salt env))
                                             (toLowerCase e)))))))
                      "email" = Str (trim (toLowerCase (toLowerCase e)))).
  { rewrite get_timestamps by discriminate.
    rewrite get_insert_ne by discriminate.
    unfold get. rewrite User_new_lookup by discriminate.
    rewrite lookup_delete_ne by discriminate.
    rewrite newUser_lookup_email. reflexivity. }
  split; [apply get_JSON_roundtrip_Str; apply newUser_email|].
  rewrite Hmail, toLowerCase_idempotent. reflexivity.
Qed.



(** ** The migration tool *)



Lemma find_app_last {A} (f : A -> bool) (l : list A) x :
  f x = true -> exists y, find f (l ++ [x])%list = Some y.
Proof.
  intros Hx. induction l as [|a l IH]; simpl.
  - rewrite Hx. eexists. reflexivity.
  - destruct (f a); [eexists; reflexivity | exact IH].
Qed.


Lemma validated_paths_lookup (doc : Object) k :
  validated_paths doc !! k
  = if decide (k ∈ ["_id"; "createdAt"; "updatedAt"]) then None else doc !! k.
Proof.
  unfold validated_paths.
  destruct (decide (k ∈ ["_id"; "createdAt"; "updatedAt"])) as [Hin|Hout].
  - rewrite !elem_of_cons in Hin.
    destruct Hin as [-> | [-> | [-> | Hin]]].
    + apply lookup_delete_eq.
    + rewrite lookup_delete_ne by discriminate. apply lookup_delete_eq.
    + rewrite !lookup_delete_ne by discriminate. apply lookup_delete_eq.
    + apply elem_of_nil in Hin. destruct Hin.
  - rewrite !elem_of_cons in Hout.
    rewrite !lookup_delete_ne; [reflexivity| | |]; intros <-; apply Hout;
      [right; right; left | right; left | left]; reflexivity.
Qed.

Lemma mongoUser_of_lookup_ne env fileUser k :
  k <> "createdAt" -> k <> "updatedAt" ->
  mongoUser_of env fileUser !! k = mongoUser_base fileUser !! k.
Proof.
  intros Hc Hu. unfold mongoUser_of.
  rewrite !lookup_insert_ne; [reflexivity| |]; intros Heq; [apply Hu | apply Hc];
    symmetry; exact Heq.
Qed.

Lemma mongoUser_base_no_stamp fileUser k :
  k = "createdAt" \/ k = "updatedAt" -> mongoUser_base fileUser !! k = None.
Proof. intros [-> | ->]; vm_compute; reflexivity. Qed.


(** The paths the validators read do not depend on the run. *)
Lemma validated_paths_User_new env menv fileUser :
  validated_paths (fields (User_new env (mongoUser_of menv fileUser)))
  = validated_paths (canonical fileUser).
Proof.
  apply map_eq. intros k. rewrite !validated_paths_lookup.
  destruct (decide (k ∈ ["_id"; "createdAt"; "updatedAt"])) as [Hin|Hout];
    [reflexivity|].
  rewrite !elem_of_cons in Hout.
  assert (Hi : k <> "_id") by (intros ->; apply Hout; left; reflexivity).
  assert (Hc : k <> "createdAt")
    by (intros ->; apply Hout; right; left; reflexivity).
  assert (Hu : k <> "updatedAt")
    by (intros ->; apply Hout; right; right; left; reflexivity).
  rewrite User_new_lookup by exact Hi.
  unfold canonical. rewrite lookup_union, map_lookup_imap.
  rewrite mongoUser_of_lookup_ne by assumption. reflexivity.
Qed.

Lemma fields_User_new_lookup env menv fileUser k :
  k <> "_id" -> k <> "createdAt" -> k <> "updatedAt" ->
  fields (User_new env (mongoUser_of menv fileUser)) !! k = canonical fileUser !! k.
Proof.
  intros Hi Hc Hu. rewrite User_new_lookup by exact Hi.
  unfold canonical. rewrite lookup_union, map_lookup_imap.
  rewrite mongoUser_of_lookup_ne by assumption. reflexivity.
Qed.



Lemma userSchema_cast_email_string s :
  userSchema_cast "email" (Str s) = Some (Str (trim (toLowerCase s))).
Proof. reflexivity. Qed.


Lemma User_findOne_spec env v db :
  User_findOne env v db
  = match filter_key v with
    | None => inl (mkError "Cast to string failed at path email")
    | Some key =>
        if findOne_throws env then inl (mkError "MongoNetworkError")
        else inr (hydrate <$> find (fun d => strict_eq (email_key d) key) db)
    end.
Proof.
  unfold User_findOne, filter_key.
  destruct (userSchema_cast "email" v) as [[]|]; reflexivity.
Qed.

Lemma pre_save_email env doc hashed :
  pre_save env doc = inr hashed -> get hashed "email" = get doc "email".
Proof.
  unfold pre_save.
  destruct (doc !! "password") as [[]|]; intros H;
    try discriminate; apply inr_eq_inv in H; subst hashed;
    try reflexivity.
  apply get_insert_ne. discriminate.
Qed.

Lemma email_key_stored env doc hashed :
  pre_save env doc = inr hashed ->
  email_key (timestamps env hashed) = email_key doc.
Proof.
  intros H. unfold email_key.
  rewrite get_timestamps by discriminate.
  rewrite (pre_save_email env doc hashed H). reflexivity.
Qed.




Lemma migrate_one_prefix env fileUser db o db' :
  migrate_one env fileUser db = (o, db') -> db `prefix_of` db'.
Proof.
  unfold migrate_one.
  destruct (User_findOne _ _ _) as [err|[existing|]].
  - intros H. apply pair_equal_spec in H as [_ <-]. reflexivity.
  - intros H. apply pair_equal_spec in H as [_ <-]. reflexivity.
  - destruct (User_save _ _ _) as [err|db1] eqn:Hsave.
    + intros H. apply pair_equal_spec in H as [_ <-]. reflexivity.
    + intros H. apply pair_equal_spec in H as [_ <-].
      destruct (User_save_inv _ _ _ _ Hsave) as (hashed & _ & -> & _).
      apply prefix_app_r. reflexivity.
Qed.

Lemma migrate_one_found env fileUser db key x :
  filter_key (get fileUser "email") = Some key ->
  find (fun d => strict_eq (email_key d) key) db = Some x ->
  migrate_one env fileUser db
  = (if findOne_throws (store env) then Errored else Skipped, db).
Proof.
  intros Hkey Hfind. unfold migrate_one.
  rewrite User_findOne_spec, Hkey.
  destruct (findOne_throws (store env)); [reflexivity|].
  rewrite Hfind. reflexivity.
Qed.




Lemma migrate_loop_prefix envs fileUsers :
  forall i s db s' log db',
    migrate_loop envs i fileUsers s db = (s', log, db') -> db `prefix_of` db'.
Proof.
  induction fileUsers as [|u rest IH]; intros i s db s' log db' Hrun.
  - cbn [migrate_loop] in Hrun. apply pair_equal_spec in Hrun as [_ <-]. reflexivity.
  - cbn [migrate_loop] in Hrun.
    destruct (migrate_one (envs i) u db) as [o db1] eqn:Hone.
    destruct (migrate_loop envs (S i) rest (count o s) db1) as [[s1 log1] db2] eqn:Hrest.
    apply pair_equal_spec in Hrun as [_ <-].
    etransitivity; [exact (migrate_one_prefix _ _ _ _ _ Hone)|].
    exact (IH _ _ _ _ _ _ Hrest).
Qed.

(** The counters are the tallies of the log. *)
Lemma migrate_loop_counts envs fileUsers :
  forall i s db s' log db',
    migrate_loop envs i fileUsers s db = (s', log, db') ->
    length log = length fileUsers
    /\ migratedCount s' = (migratedCount s + occurrences Migrated log)%nat
    /\ skippedCount s' = (skippedCount s + occurrences Skipped log)%nat
    /\ errorCount s' = (errorCount s + occurrences Errored log)%nat
    /\ total s' = total s.
Proof.
  induction fileUsers as [|u rest IH]; intros i s db s' log db' Hrun.
  - cbn [migrate_loop] in Hrun. apply pair_equal_spec in Hrun as [Hrun _].
    apply pair_equal_spec in Hrun as [<- <-].
    unfold occurrences. simpl. repeat split; lia.
  - cbn [migrate_loop] in Hrun.
    destruct (migrate_one (envs i) u db) as [o db1] eqn:Hone.
    destruct (migrate_loop envs (S i) rest (count o s) db1) as [[s1 log1] db2] eqn:Hrest.
    apply pair_equal_spec in Hrun as [Hrun _].
    apply pair_equal_spec in Hrun as [<- <-].
    destruct (IH _ _ _ _ _ _ Hrest) as (Hlen & Hm & Hs & He & Ht).
    unfold occurrences in *. destruct o; simpl in *; repeat split; lia.
Qed.





Lemma convertUsers_Forall2 now mongoUsers :
  forall converted,
    convertUsers now mongoUsers = inr converted ->
    Forall2 (fun user u => convertUser now user = inr u) mongoUsers converted.
Proof.
  induction mongoUsers as [|user rest IH]; intros converted H.
  - cbn [convertUsers] in H. apply inr_eq_inv in H. subst. constructor.
  - cbn [convertUsers] in H.
    destruct (convertUser now user) as [e|u] eqn:Hu;
      destruct (convertUsers now rest) as [e'|us] eqn:Hus; try discriminate H.
    apply inr_eq_inv in H. subst. constructor; [exact Hu|].
    apply IH. reflexivity.
Qed.

(** *** What the sync writes *)

Lemma get_JSON_roundtrip (o : Object) k :
  get (JSON_roundtrip o) k = JSON_value (get o k).
Proof.
  unfold get, JSON_roundtrip, JSON_value. rewrite lookup_omap.
  destruct (o !! k) as [v|]; [|reflexivity].
  cbn [mbind option_bind]. destruct (toJSON v); reflexivity.
Qed.

Lemma get_omap_defined (o : Object) k :
  get (omap defined o) k = get o k.
Proof.
  unfold get. rewrite lookup_omap.
  destruct (o !! k) as [[]|]; reflexivity.
Qed.

Lemma get_union_defined (o d : Object) k :
  get (omap defined o ∪ d) k
  = match get o k with
    | Undefined => get d k
    | v => v
    end.
Proof.
  unfold get. rewrite lookup_union, lookup_omap.
  destruct (o !! k) as [[]|]; cbn [mbind option_bind defined];
    destruct (d !! k); reflexivity.
Qed.

(** What a hydrated document holds at a path is what the stored
    document shows there. *)
Lemma get_hydrate doc k : get (hydrate doc) k = shown doc k.
Proof.
  unfold hydrate, shown. cbv zeta.
  destruct (decide (k = "profilePhoto")) as [->|Hk].
  - destruct (get doc "profilePhoto") eqn:Hp;
      try (rewrite get_insert_eq; reflexivity).
    rewrite get_union_defined, Hp. reflexivity.
  - assert (Hget : get (omap defined doc ∪ userSchema_defaults) k
                   = match get doc k with
                     | Undefined => get userSchema_defaults k
                     | v => v
                     end) by apply get_union_defined.
    destruct (get doc "profilePhoto");
      try (rewrite get_insert_ne by (intros Heq; apply Hk; symmetry; exact Heq));
      rewrite Hget; destruct (get doc k); reflexivity.
Qed.

Lemma shown_id doc h : get doc "_id" = ObjectId h -> shown doc "_id" = ObjectId h.
Proof. intros H. unfold shown. rewrite H. reflexivity. Qed.

Lemma shown_email doc : shown doc "email" = get doc "email".
Proof. unfold shown. destruct (get doc "email"); reflexivity. Qed.

(** The rendering of a date path of a stored document. *)
Lemma iso_or_shown doc k d0 :
  k ∈ userSchema_dates ->
  stored_date (get doc k) = true ->
  iso_or (shown doc k) d0
  = inr (match get doc k with Date d => Str d | _ => d0 end).
Proof.
  intros Hk Hv. unfold shown.
  assert (Hdef : get userSchema_defaults k = Undefined \/ get userSchema_defaults k = Null).
  { unfold userSchema_dates in Hk. rewrite !elem_of_cons in Hk.
    destruct Hk as [-> | [-> | [-> | [-> | Hk]]]];
      [left | right | left | left |]; try (vm_compute; reflexivity).
    apply elem_of_nil in Hk. destruct Hk. }
  assert (Hpp : k <> "profilePhoto").
  { intros ->. unfold userSchema_dates in Hk. rewrite !elem_of_cons in Hk.
    destruct Hk as [Hk | [Hk | [Hk | [Hk | Hk]]]]; try discriminate Hk.
    apply elem_of_nil in Hk. destruct Hk. }
  destruct (get doc k) as [| | | | |d| |]; try discriminate Hv.
  - destruct Hdef as [-> | ->]; reflexivity.
  - destruct (decide (k = "profilePhoto")); [contradiction | reflexivity].
  - destruct (decide (k = "profilePhoto")); [contradiction|].
    unfold iso_or, toISOString. cbn [truthy stored_date] in Hv |- *.
    destruct (String.eqb d "Invalid Date"); [discriminate Hv | reflexivity].
Qed.

Lemma stored_document_id doc :
  stored_document doc = true -> exists h, get doc "_id" = ObjectId h.
Proof.
  unfold stored_document. intros H. apply andb_prop in H as [H _].
  destruct (get doc "_id"); try discriminate H. eexists. reflexivity.
Qed.

Lemma stored_document_date doc k :
  stored_document doc = true -> k ∈ userSchema_dates -> stored_date (get doc k) = true.
Proof.
  unfold stored_document. intros H Hk. apply andb_prop in H as [_ H].
  rewrite forallb_forall in H. apply H. apply list_elem_of_In. exact Hk.
Qed.

Lemma file_keys_split k :
  k ∈ file_keys -> k = "_id" \/ k ∈ copied_paths \/ k ∈ userSchema_dates.
Proof.
  assert (H : Forall (fun k => k = "_id" \/ k ∈ copied_paths \/ k ∈ userSchema_dates)
                file_keys).
  { unfold file_keys.
    repeat (constructor; [apply (bool_decide_unpack _); vm_compute; exact I|]).
    constructor. }
  rewrite Forall_forall in H. apply H.
Qed.

(** The record the callback builds from a readable document, path by
    path. *)
Lemma convertUser_inv now user u :
  convertUser now user = inr u ->
  id_toString (get user "_id") = inr (get u "_id")
  /\ iso_or (get user "dateOfBirth") Null = inr (get u "dateOfBirth")
  /\ iso_or (get user "createdAt") (Str now) = inr (get u "createdAt")
  /\ iso_or (get user "updatedAt") (Str now) = inr (get u "updatedAt")
  /\ iso_or (get user "lastLogin") Null = inr (get u "lastLogin")
  /\ (forall k, k ∈ copied_paths -> get u k = get user k)
  /\ (forall k, is_Some (u !! k) -> k ∈ file_keys).
Proof.
  unfold convertUser.
  destruct (id_toString _) as [?|id]; [intros H; discriminate H|].
  destruct (iso_or (get user "dateOfBirth") Null) as [?|dob]; [intros H; discriminate H|].
  destruct (iso_or (get user "createdAt") _) as [?|cr]; [intros H; discriminate H|].
  destruct (iso_or (get user "updatedAt") _) as [?|up]; [intros H; discriminate H|].
  destruct (iso_or (get user "lastLogin") Null) as [?|ll]; [intros H; discriminate H|].
  intros H. apply inr_eq_inv in H. subst u.
  split; [f_equal|]. split; [f_equal|]. split; [f_equal|]. split; [f_equal|].
  split; [f_equal|]. split.
  - apply Forall_forall. unfold copied_paths.
    repeat (constructor; [vm_compute; reflexivity|]).
    constructor.
  - intros k [v Hv].
    apply elem_of_list_to_map_2 in Hv.
    apply (list_elem_of_fmap_2 fst) in Hv. exact Hv.
Qed.

(** On a document as MongoDB holds it the callback does not throw, and
    the record it gives is the serialized document. *)
Lemma convertUser_stored now doc :
  stored_document doc = true ->
  exists u, convertUser now (hydrate doc) = inr u
            /\ serialized now doc (JSON_roundtrip u).
Proof.
  intros Hdoc.
  destruct (stored_document_id doc Hdoc) as [h Hid].
  assert (Hdate : forall k, k ∈ userSchema_dates -> stored_date (get doc k) = true)
    by (intros k; apply stored_document_date; exact Hdoc).
  assert (Hin : forall k, k ∈ ["dateOfBirth"; "lastLogin"; "createdAt"; "updatedAt"] ->
                          k ∈ userSchema_dates).
  { intros k. unfold userSchema_dates. rewrite !elem_of_cons.
    intros [-> | [-> | [-> | [-> | Hk]]]];
      [left | right; left | right; right; left | right; right; right; left |];
      try reflexivity.
    apply elem_of_nil in Hk. destruct Hk. }
  assert (Hdob : "dateOfBirth" ∈ userSchema_dates)
    by (apply Hin; rewrite !elem_of_cons; left; reflexivity).
  assert (Hll : "lastLogin" ∈ userSchema_dates)
    by (apply Hin; rewrite !elem_of_cons; right; left; reflexivity).
  assert (Hcr : "createdAt" ∈ userSchema_dates)
    by (apply Hin; rewrite !elem_of_cons; right; right; left; reflexivity).
  assert (Hup : "updatedAt" ∈ userSchema_dates)
    by (apply Hin; rewrite !elem_of_cons; right; right; right; left; reflexivity).
  destruct (convertUser now (hydrate doc)) as [err|u] eqn:Hu.
  { exfalso. unfold convertUser in Hu. rewrite !get_hydrate in Hu.
    rewrite (shown_id doc h Hid) in Hu. cbn [id_toString] in Hu.
    rewrite (iso_or_shown doc "dateOfBirth" Null Hdob (Hdate _ Hdob)) in Hu.
    rewrite (iso_or_shown doc "createdAt" (Str now) Hcr (Hdate _ Hcr)) in Hu.
    rewrite (iso_or_shown doc "updatedAt" (Str now) Hup (Hdate _ Hup)) in Hu.
    rewrite (iso_or_shown doc "lastLogin" Null Hll (Hdate _ Hll)) in Hu.
    discriminate Hu. }
  exists u. split; [reflexivity|].
  destruct (convertUser_inv now (hydrate doc) u Hu)
    as (Hi & Hb & Hc & Hp & Hl & Hcopy & Hkeys).
  rewrite !get_hydrate in Hi, Hb, Hc, Hp, Hl.
  rewrite (iso_or_shown doc "dateOfBirth" Null Hdob (Hdate _ Hdob)) in Hb.
  rewrite (iso_or_shown doc "createdAt" (Str now) Hcr (Hdate _ Hcr)) in Hc.
  rewrite (iso_or_shown doc "updatedAt" (Str now) Hup (Hdate _ Hup)) in Hp.
  rewrite (iso_or_shown doc "lastLogin" Null Hll (Hdate _ Hll)) in Hl.
  apply inr_eq_inv in Hb, Hc, Hp, Hl.
  assert (Hdates : forall k d0,
             k ∈ userSchema_dates ->
             get u k = match get doc k with Date d => Str d | _ => d0 end ->
             get (JSON_roundtrip u) k
             = match get doc k with Date d => Str d | _ => JSON_value d0 end).
  { intros k d0 _ Hk. rewrite get_JSON_roundtrip, Hk.
    destruct (get doc k); reflexivity. }
  unfold serialized. split; [|split; [|split; [|split; [|split]]]].
  - intros h' Hid'. rewrite get_JSON_roundtrip.
    rewrite (shown_id doc h' Hid') in Hi. cbn [id_toString] in Hi.
    apply inr_eq_inv in Hi. rewrite <- Hi. reflexivity.
  - intros k Hk. rewrite get_JSON_roundtrip, (Hcopy k Hk), get_hydrate. reflexivity.
  - intros k d. unfold userSchema_dates. rewrite !elem_of_cons.
    intros [-> | [-> | [-> | [-> | Hk]]]] Hd.
    + rewrite (Hdates _ Null Hdob (eq_sym Hb)), Hd. reflexivity.
    + rewrite (Hdates _ Null Hll (eq_sym Hl)), Hd. reflexivity.
    + rewrite (Hdates _ (Str now) Hcr (eq_sym Hc)), Hd. reflexivity.
    + rewrite (Hdates _ (Str now) Hup (eq_sym Hp)), Hd. reflexivity.
    + apply elem_of_nil in Hk. destruct Hk.
  - intros k [-> | ->] Hf.
    + rewrite (Hdates _ Null Hdob (eq_sym Hb)).
      destruct (get doc "dateOfBirth"); try reflexivity. discriminate Hf.
    + rewrite (Hdates _ Null Hll (eq_sym Hl)).
      destruct (get doc "lastLogin"); try reflexivity. discriminate Hf.
  - intros k [-> | ->] Hf.
    + rewrite (Hdates _ (Str now) Hcr (eq_sym Hc)).
      destruct (get doc "createdAt"); try reflexivity. discriminate Hf.
    + rewrite (Hdates _ (Str now) Hup (eq_sym Hp)).
      destruct (get doc "updatedAt"); try reflexivity. discriminate Hf.
  - intros k [v Hv]. apply file_keys_split. apply Hkeys.
    unfold JSON_roundtrip in Hv. rewrite lookup_omap in Hv.
    destruct (u !! k) as [w|]; [eexists; reflexivity | discriminate Hv].
Qed.

Lemma convertUsers_stored now db :
  forallb stored_document db = true ->
  exists converted,
    convertUsers now (hydrate <$> db) = inr converted
    /\ Forall2 (serialized now) db (JSON_roundtrip <$> converted).
Proof.
  induction db as [|doc rest IH]; intros Hall.
  - exists []. split; [reflexivity | constructor].
  - cbn [forallb] in Hall. apply andb_prop in Hall as [Hdoc Hrest].
    destruct (convertUser_stored now doc Hdoc) as (u & Hu & Hser).
    destruct (IH Hrest) as (us & Hus & Hsers).
    exists (u :: us). split.
    + rewrite fmap_cons. cbn [convertUsers]. rewrite Hu, Hus. reflexivity.
    + rewrite fmap_cons. constructor; assumption.
Qed.

(** ** The registration route *)

Lemma Joi_object_defined keys :
  forall input value k x,
    Joi_object keys input = Some value ->
    value !! k = Some x -> get input k <> Undefined.
Proof.
  induction keys as [|[k0 key0] rest IH]; intros input value k x Hobj Hk.
  - cbn [Joi_object] in Hobj. apply Some_inj in Hobj. subst value.
    rewrite lookup_empty in Hk. discriminate.
  - cbn [Joi_object] in Hobj.
    destruct (Joi_object rest input) as [value0|] eqn:Hrest; [|discriminate].
    assert (Hins : forall v', get input k0 <> Undefined ->
                     value = <[k0 := v']> value0 -> get input k <> Undefined).
    { intros v' Hdef ->.
      destruct (decide (k0 = k)) as [<-|Hne]; [exact Hdef|].
      rewrite lookup_insert_ne in Hk by exact Hne.
      exact (IH input value0 k x Hrest Hk). }
    destruct (get input k0) eqn:Hg;
      try (destruct (Joi_validate (key_schema key0) _) as [v'|]; [|discriminate];
           apply Some_inj in Hobj; symmetry in Hobj;
           exact (Hins v' ltac:(discriminate) Hobj)).
    destruct (key_required key0); [discriminate|].
    apply Some_inj in Hobj. subst value0.
    exact (IH input value k x Hrest Hk).
Qed.

(** What an accepted object holds at a key of the schema. *)
Lemma Joi_object_get keys :
  forall input value k key,
    Joi_object keys input = Some value ->
    Joi_key keys k = Some key ->
    (get input k = Undefined /\ key_required key = false /\ value !! k = None)
    \/ (exists v', Joi_validate (key_schema key) (get input k) = Some v'
                   /\ value !! k = Some v').
Proof.
  induction keys as [|[k0 key0] rest IH]; intros input value k key Hobj Hkey.
  - discriminate.
  - cbn [Joi_object] in Hobj. cbn [Joi_key] in Hkey.
    destruct (Joi_object rest input) as [value0|] eqn:Hrest; [|discriminate].
    destruct (String.eqb k k0) eqn:Heq.
    + apply String.eqb_eq in Heq. subst k0. apply Some_inj in Hkey. subst key0.
      destruct (get input k) eqn:Hg;
        try (right; destruct (Joi_validate (key_schema key) _) as [v'|]; [|discriminate];
             apply Some_inj in Hobj; subst value;
             exists v'; split; [reflexivity | apply lookup_insert_eq]).
      left. destruct (key_required key); [discriminate|].
      apply Some_inj in Hobj. subst value0.
      split; [reflexivity|]. split; [reflexivity|].
      destruct (value !! k) as [x|] eqn:Hx; [|reflexivity].
      exfalso. exact (Joi_object_defined rest input value k x Hrest Hx Hg).
    + apply String.eqb_neq in Heq.
      assert (Hsame : value !! k = value0 !! k).
      { destruct (get input k0);
          try (destruct (Joi_validate (key_schema key0) _) as [v'|]; [|discriminate];
               apply Some_inj in Hobj; subst value;
               apply lookup_insert_ne; intros ->; apply Heq; reflexivity).
        destruct (key_required key0); [discriminate|].
        apply Some_inj in Hobj. subst value0. reflexivity. }
      rewrite Hsame. exact (IH input value0 k key Hrest Hkey).
Qed.

Lemma Joi_string_result r v v' :
  Joi_validate (JoiString r) v = Some v' -> exists s, v' = Str s.
Proof.
  cbn [Joi_validate].
  destruct (Joi_coerce (JoiString r) v); try discriminate.
  destruct (String.eqb s ""); [discriminate|].
  destruct (_ && _); [|discriminate].
  intros H. apply Some_inj in H. subst v'. eexists. reflexivity.
Qed.

(** A required string key of the schema is a string in the accepted
    object. *)
Lemma registrationSchema_string input value k r :
  Joi_object registrationSchema input = Some value ->
  Joi_key registrationSchema k = Some (required (JoiString r)) ->
  exists s, get value k = Str s.
Proof.
  intros Hobj Hkey.
  destruct (Joi_object_get registrationSchema input value k _ Hobj Hkey)
    as [(_ & Hreq & _) | (v' & Hval & Hv)].
  - discriminate.
  - cbn [key_schema required] in Hval.
    destruct (Joi_string_result r _ v' Hval) as [s ->].
    exists s. unfold get. rewrite Hv. reflexivity.
Qed.

Lemma registrationSchema_email :
  Joi_key registrationSchema "email"
  = Some (required (Joi_lowercase (Joi_isEmail Joi_string))).
Proof. vm_compute. reflexivity. Qed.

Lemma registrationSchema_password :
  Joi_key registrationSchema "password" = Some (required (Joi_min 6 Joi_string)).
Proof. vm_compute. reflexivity. Qed.

Lemma get_empty_to_null k k' processed :
  k <> k' -> get (empty_to_null k processed) k' = get processed k'.
Proof.
  intros Hne. unfold empty_to_null.
  destruct (strict_eq _ _); [apply get_insert_ne; exact Hne | reflexivity].
Qed.

Lemma get_preprocess_flag_ne k k' processed :
  k <> k' -> get (preprocess_flag k processed) k' = get processed k'.
Proof.
  intros Hne. unfold preprocess_flag.
  destruct (get processed k); try reflexivity; apply get_insert_ne; exact Hne.
Qed.

Lemma get_preprocess_flag_eq k processed :
  get (preprocess_flag k processed) k
  = match get processed k with
    | Undefined => Undefined
    | v => convert_flag v
    end.
Proof.
  unfold preprocess_flag.
  destruct (get processed k) eqn:Hg; try apply get_insert_eq. exact Hg.
Qed.

(** [preprocessFormData] turns a defined [terms_accepted] into
    [convert_flag] of it and leaves an undefined one alone. *)
Lemma preprocessFormData_terms data :
  get (preprocessFormData data) "terms_accepted"
  = match get data "terms_accepted" with
    | Undefined => Undefined
    | v => convert_flag v
    end.
Proof.
  unfold preprocessFormData. cbn [foldl].
  rewrite !get_empty_to_null by discriminate.
  rewrite get_preprocess_flag_eq.
  rewrite get_preprocess_flag_ne by discriminate. reflexivity.
Qed.

Lemma flagSchema_false : Joi_validate flagSchema (Bool false) = Some (Bool false).
Proof. reflexivity. Qed.

Lemma get_userData_of value file k :
  k ∉ ["termsAccepted"; "newsletterSubscription"; "emergencyContactPhone";
       "emergencyContactName"; "postalCode"; "dateOfBirth"; "profilePhoto"] ->
  get (userData_of value file) k = get value k.
Proof.
  intros Hk. rewrite !not_elem_of_cons in Hk.
  destruct Hk as (H1 & H2 & H3 & H4 & H5 & H6 & H7 & _).
  unfold userData_of.
  destruct file; rewrite !get_insert_ne by (intros Heq; symmetry in Heq; contradiction);
    reflexivity.
Qed.

Lemma get_userData_of_terms value file :
  get (userData_of value file) "termsAccepted" = get value "terms_accepted".
Proof.
  unfold userData_of.
  destruct file; [rewrite get_insert_ne by discriminate|]; apply get_insert_eq.
Qed.

Lemma newUser_termsAccepted env userData h e :
  get (newUser_of env userData h e) "termsAccepted"
  = Bool (strict_eq (get userData "termsAccepted") (Bool true)).
Proof. vm_compute. reflexivity. Qed.

Lemma get_JSON_roundtrip_Bool o k b :
  get o k = Bool b -> get (JSON_roundtrip o) k = Bool b.
Proof.
  unfold get, JSON_roundtrip. rewrite lookup_omap.
  destruct (o !! k) as [v|]; simpl; [|discriminate].
  intros ->. reflexivity.
Qed.

Lemma registrationSchema_terms :
  Joi_key registrationSchema "terms_accepted" = Some (required flagSchema).
Proof. vm_compute. reflexivity. Qed.

(** A 201 answer comes from an accepted body and a successful
    [createUser]. *)
Lemma register_created body file env st :
  status_code (fst (register body file env st)) = 201%Z ->
  exists value newUser,
    Joi_object registrationSchema (preprocessFormData body) = Some value
    /\ createUser env (userData_of value file) st
       = (inr newUser, snd (register body file env st)).
Proof.
  unfold register.
  destruct (Joi_object registrationSchema (preprocessFormData body)) as [value|];
    [|intros H; discriminate H].
  destruct (createUser env (userData_of value file) st) as [[error|newUser] st1] eqn:Hc.
  - unfold error_response.
    destruct (includes _ _); intros H; discriminate H.
  - intros _. exists value, newUser. split; [reflexivity | exact Hc].
Qed.

Lemma accepted_terms body value :
  convert_flag (get body "terms_accepted") = Bool false ->
  Joi_object registrationSchema (preprocessFormData body) = Some value ->
  get value "terms_accepted" = Bool false.
Proof.
  intros Hflag Hobj.
  destruct (Joi_object_get registrationSchema _ value "terms_accepted" _ Hobj
              registrationSchema_terms) as [(_ & Hreq & _) | (v' & Hval & Hv)].
  - discriminate Hreq.
  - cbn [key_schema required] in Hval.
    rewrite preprocessFormData_terms in Hval.
    assert (Hp : match get body "terms_accepted" with
                 | Undefined => Undefined
                 | v => convert_flag v
                 end = Bool false).
    { destruct (get body "terms_accepted"); exact Hflag. }
    rewrite Hp, flagSchema_false in Hval. apply Some_inj in Hval. subst v'.
    unfold get. rewrite Hv. reflexivity.
Qed.

(** What the route hands to the coordinator is a payload: its email
    and its password are strings. *)
Lemma accepted_payload input value file :
  Joi_object registrationSchema input = Some value ->
  exists e p,
    get (userData_of value file) "email" = Str e
    /\ get (userData_of value file) "password" = Str p.
Proof.
  intros Hobj.
  destruct (registrationSchema_string input value "email" _ Hobj registrationSchema_email)
    as [e He].
  destruct (registrationSchema_string input value "password" _ Hobj
              registrationSchema_password) as [p Hp].
  exists e, p. split.
  - rewrite get_userData_of; [exact He|].
    rewrite !not_elem_of_cons. repeat split; try discriminate. apply not_elem_of_nil.
  - rewrite get_userData_of; [exact Hp|].
    rewrite !not_elem_of_cons. repeat split; try discriminate. apply not_elem_of_nil.
Qed.

(** On the route, an accepted body whose email is taken is answered
    with 409 and nothing is written. *)
Lemma register_conflict body file env st value e users :
  usersFile st = Some users ->
  lowercase_emails users ->
  Joi_object registrationSchema (preprocessFormData body) = Some value ->
  get value "email" = Str e ->
  email_taken e users ->
  register body file env st = (Conflict "User with this email already exists", st).
Proof.
  intros Hf Hlow Hobj He Htaken.
  destruct (accepted_payload _ value file Hobj) as (e' & p & He' & Hp).
  assert (e' = e).
  { rewrite get_userData_of in He'.
    - rewrite He in He'. injection He' as <-. reflexivity.
    - rewrite !not_elem_of_cons. repeat split; try discriminate. apply not_elem_of_nil. }
  subst e'.
  destruct (email_taken_find e users Hlow Htaken) as [u Hfind].
  unfold register. rewrite Hobj.
  rewrite (createUser_duplicate env _ st e p users u He' Hp Hf Hfind).
  reflexivity.
Qed.

(** C5. The schema of the route lets a false consent flag through:
    whenever [terms_accepted] arrives as [false], as a string other than
    'true' and '1', or as a number other than 1, and the registration is
    answered with 201, the record appended to [users.json] has
    [termsAccepted] false. *)
Theorem register_persists_unaccepted_terms body file env st :
  convert_flag (get body "terms_accepted") = Bool false ->
  status_code (fst (register body file env st)) = 201%Z ->
  exists users fileUser,
    usersFile (snd (register body file env st)) = Some (users ++ [fileUser])%list
    /\ get fileUser "termsAccepted" = Bool false.
Proof.
  intros Hflag Hreg.
  destruct (register_created body file env st Hreg) as (value & newUser & Hobj & Hc).
  pose proof (accepted_terms body value Hflag Hobj) as Hterms.
  destruct (createUser_inv env _ st _ _ Hc)
    as [(err & Herr & _) | (e & p & users & _ & _ & _ & _ & _ & Hst)];
    [discriminate Herr|].
  rewrite Hst. eexists _, _. split.
  - rewrite created_usersFile, fmap_app. reflexivity.
  - apply get_JSON_roundtrip_Bool. rewrite newUser_termsAccepted.
    rewrite get_userData_of_terms, Hterms. reflexivity.
Qed.

(** ** More on the coordinator: what a call writes *)

Lemma toJSON_idemp v v' : toJSON v = Some v' -> toJSON v' = Some v'.
Proof.
  destruct v; cbn [toJSON]; try discriminate; intros H; apply Some_inj in H; subst v';
    try reflexivity.
  destruct (String.eqb iso "Invalid Date"); reflexivity.
Qed.

Lemma JSON_roundtrip_idemp o : JSON_roundtrip (JSON_roundtrip o) = JSON_roundtrip o.
Proof.
  apply map_eq. intros k. unfold JSON_roundtrip. rewrite !lookup_omap.
  destruct (o !! k) as [v|]; [|reflexivity].
  cbn [mbind option_bind].
  destruct (toJSON v) as [v'|] eqn:Hv; [|reflexivity].
  cbn [mbind option_bind]. exact (toJSON_idemp v v' Hv).
Qed.

Lemma json_normal_fmap users : json_normal (JSON_roundtrip <$> users).
Proof.
  unfold json_normal. rewrite Forall_fmap. apply Forall_forall.
  intros u _. apply JSON_roundtrip_idemp.
Qed.

Lemma json_normal_id users : json_normal users -> JSON_roundtrip <$> users = users.
Proof.
  induction 1 as [|u users Hu _ IH]; [reflexivity|].
  rewrite fmap_cons, Hu, IH. reflexivity.
Qed.

(** The file of a reachable state holds JSON records. *)
Lemma reachable_json_normal st :
  reachable st -> exists users, usersFile st = Some users /\ json_normal users.
Proof.
  induction 1 as [now rs ok m u db | st env userData _ (users & Hf & Hn)].
  - exists []. split; [|constructor].
    unfold init, bind, initFileStorage, constructor, when, initMongoStorage,
      try_catch, bind, ret, throw.
    destruct m, (rs =? 0)%Z, ok; reflexivity.
  - destruct (createUser env userData st) as [r st'] eqn:Hc.
    destruct (createUser_inv env userData st r st' Hc)
      as [(err & -> & ->) | (e & p & users' & _ & _ & _ & _ & _ & ->)].
    + exists users. split; assumption.
    + eexists. split; [apply created_usersFile | apply json_normal_fmap].
Qed.

Lemma created_statsFile env newUser users st :
  usersFile st = Some users ->
  statsFile (created env newUser users st)
  = match statsFile st with
    | Some stats =>
        Some (mkStats (Z.of_nat (S (length users))) (totalRegistrations stats + 1)
                      (Some (statsNow env)) (createdAt stats))
    | None => None
    end.
Proof.
  intros Hu. unfold created.
  destruct (when_saveToMongo_returns (mongo env) newUser
              (set_usersFile (Some (JSON_roundtrip <$> (users ++ [newUser])%list)) st))
    as (st2 & E2 & U2 & S2 & _).
  rewrite E2. cbn [snd].
  cbn [usersFile statsFile set_usersFile] in U2, S2.
  unfold updateStats. rewrite S2, U2.
  destruct (statsFile st) as [stats|]; cbn [snd statsFile set_statsFile].
  - rewrite length_fmap, length_app. cbn [length].
    replace (length users + 1)%nat with (S (length users)) by lia. reflexivity.
  - exact S2.
Qed.

(** The outcome of a call, read off its result. *)
Lemma createUser_succeeded env userData st :
  succeeded (fst (createUser env userData st)) = true ->
  exists e p users,
    get userData "email" = Str e /\ get userData "password" = Str p /\
    usersFile st = Some users /\
    find (fun u => strict_eq (get u "email") (Str (toLowerCase e))) users = None /\
    createUser env userData st
    = (inr (delete "password"
              (newUser_of env userData (bcrypt_hash p (salt env)) (toLowerCase e))),
       created env (newUser_of env userData (bcrypt_hash p (salt env)) (toLowerCase e))
               users st).
Proof.
  intros Hok. destruct (createUser env userData st) as [r st'] eqn:Hc.
  destruct (createUser_inv env userData st r st' Hc)
    as [(err & -> & _) | (e & p & users & He & Hp & Hf & Hfind & -> & ->)].
  - discriminate Hok.
  - exists e, p, users. repeat split; assumption.
Qed.

Lemma createUser_failed env userData st :
  succeeded (fst (createUser env userData st)) = false ->
  snd (createUser env userData st) = st.
Proof.
  intros Hko. destruct (createUser env userData st) as [r st'] eqn:Hc.
  destruct (createUser_inv env userData st r st' Hc)
    as [(err & _ & ->) | (e & p & users & _ & _ & _ & _ & -> & _)].
  - reflexivity.
  - discriminate Hko.
Qed.

Lemma createUser_flags env userData st :
  mongoConnected (snd (createUser env userData st)) = mongoConnected st
  /\ mongoose (snd (createUser env userData st)) = mongoose st
  /\ User (snd (createUser env userData st)) = User st.
Proof.
  destruct (createUser env userData st) as [r st'] eqn:Hc. cbn [snd].
  destruct (createUser_inv env userData st r st' Hc)
    as [(err & _ & ->) | (e & p & users & _ & _ & _ & _ & _ & ->)].
  - repeat split.
  - apply created_flags.
Qed.

(** X1. The four ways in which [createUser] throws before it has
    written anything: a password that is no string, an email that is no
    string, a [users.json] that cannot be read, and an email that a
    record of the file carries in its lowercased form.  In each of them
    the call throws and leaves the whole storage as it was: the two
    files, the flags and the collection. *)
Theorem createUser_failure_writes_nothing env userData st :
  (forall p, get userData "password" <> Str p)
  \/ (forall e, get userData "email" <> Str e)
  \/ usersFile st = None
  \/ (exists e u, get userData "email" = Str e /\ u ∈ users_of st
                  /\ get u "email" = Str (toLowerCase e)) ->
  exists error, createUser env userData st = (inl error, st).
Proof.
  intros Hcause. destruct (createUser env userData st) as [r st'] eqn:Hc.
  destruct (createUser_inv env userData st r st' Hc)
    as [(err & -> & ->) | (e & p & users & He & Hp & Hf & Hfind & _ & _)].
  - exists err. reflexivity.
  - exfalso. destruct Hcause as [Hno | [Hno | [Hno | (e' & u & He' & Hin & Hu)]]].
    + exact (Hno p Hp).
    + exact (Hno e He).
    + rewrite Hno in Hf. discriminate Hf.
    + rewrite He in He'. injection He' as <-.
      unfold users_of in Hin. rewrite Hf in Hin.
      pose proof (find_None_elem _ _ u Hfind Hin) as Hne. cbv beta in Hne.
      rewrite Hu in Hne. cbn [strict_eq] in Hne.
      rewrite String.eqb_refl in Hne. discriminate Hne.
Qed.

(** X3. In every state reachable through the coordinator a successful
    call of [createUser] only appends: the records [users.json] held
    are all still there, unchanged and in their order, followed by one
    new record that carries the identifier and the email of the record
    returned to the caller. *)
Theorem createUser_appends st env userData :
  reachable st ->
  succeeded (fst (createUser env userData st)) = true ->
  exists record fileUser,
    fst (createUser env userData st) = inr record
    /\ usersFile (snd (createUser env userData st))
       = Some (users_of st ++ [fileUser])%list
    /\ get fileUser "_id" = get record "_id"
    /\ get fileUser "email" = get record "email".
Proof.
  intros Hreach Hok.
  destruct (reachable_json_normal st Hreach) as (users0 & Hf0 & Hnormal).
  destruct (createUser_succeeded env userData st Hok)
    as (e & p & users & _ & _ & Hf & _ & ->).
  rewrite Hf0 in Hf. apply Some_inj in Hf. subst users0.
  cbn [fst snd]. eexists _, _. split; [reflexivity|]. split.
  - rewrite created_usersFile, fmap_app, (json_normal_id users Hnormal).
    unfold users_of. rewrite Hf0. reflexivity.
  - split.
    + rewrite get_delete_ne by discriminate.
      rewrite newUser_id. apply get_JSON_roundtrip_Str. apply newUser_id.
    + rewrite get_delete_ne by discriminate.
      rewrite newUser_email. apply get_JSON_roundtrip_Str. apply newUser_email.
Qed.

Lemma newUser_system_fields env userData h e :
  get (newUser_of env userData h e) "status" = Str "active"
  /\ get (newUser_of env userData h e) "emailVerified" = Bool false
  /\ get (newUser_of env userData h e) "loginCount" = Num 0
  /\ get (newUser_of env userData h e) "lastLogin" = Null
  /\ get (newUser_of env userData h e) "createdAt" = Str (createdNow env)
  /\ get (newUser_of env userData h e) "updatedAt" = Str (updatedNow env).
Proof. repeat split; vm_compute; reflexivity. Qed.

Lemma get_JSON_roundtrip_plain o k v :
  get o k = v ->
  match v with Undefined | Date _ | ObjectId _ => False | _ => True end ->
  get (JSON_roundtrip o) k = v.
Proof.
  unfold get, JSON_roundtrip. rewrite lookup_omap.
  destruct (o !! k) as [w|]; cbn [mbind option_bind].
  - intros ->. destruct v; cbn [toJSON]; intros H; try reflexivity; destruct H.
  - intros <-. intros H. destruct H.
Qed.

(** X4. The payload cannot set the system fields: whatever it carries
    under [_id], [status], [emailVerified], [loginCount], [lastLogin] or
    [createdAt], the record a successful [createUser] appends to
    [users.json] has the identifier and the clock readings of the call,
    the status 'active', an unverified email, no login. *)
Theorem createUser_system_fields env userData st :
  succeeded (fst (createUser env userData st)) = true ->
  exists users fileUser,
    usersFile (snd (createUser env userData st)) = Some (users ++ [fileUser])%list
    /\ get fileUser "_id" = Str (uuid env)
    /\ get fileUser "status" = Str "active"
    /\ get fileUser "emailVerified" = Bool false
    /\ get fileUser "loginCount" = Num 0
    /\ get fileUser "lastLogin" = Null
    /\ get fileUser "createdAt" = Str (createdNow env)
    /\ get fileUser "updatedAt" = Str (updatedNow env).
Proof.
  intros Hok.
  destruct (createUser_succeeded env userData st Hok)
    as (e & p & users & _ & _ & _ & _ & ->).
  cbn [snd]. eexists _, _. split.
  - rewrite created_usersFile, fmap_app. reflexivity.
  - destruct (newUser_system_fields env userData (bcrypt_hash p (salt env)) (toLowerCase e))
      as (H1 & H2 & H3 & H4 & H5 & H6).
    split; [apply get_JSON_roundtrip_Str, newUser_id|].
    split; [apply get_JSON_roundtrip_Str, H1|].
    split; [apply get_JSON_roundtrip_Bool, H2|].
    split; [exact (get_JSON_roundtrip_plain _ _ _ H3 I)|].
    split; [exact (get_JSON_roundtrip_plain _ _ _ H4 I)|].
    split; [apply get_JSON_roundtrip_Str, H5 | apply get_JSON_roundtrip_Str, H6].
Qed.

Lemma newUser_optional env userData h e k :
  k ∈ optional_fields ->
  get (newUser_of env userData h e) k = or_else (get userData k) Null.
Proof.
  unfold optional_fields. rewrite !elem_of_cons.
  intros [-> | [-> | [-> | [-> | [-> | [-> | [-> | [-> | [-> | [-> | [-> | [-> | H]]]]]]]]]]]];
    [vm_compute; reflexivity ..|].
  apply elem_of_nil in H. destruct H.
Qed.

(** X5. An optional property never comes back empty: in the record a
    successful [createUser] returns, each of the optional properties is
    either [null] or the truthy value of the payload; an empty string, a
    missing or a falsy value all give [null]. *)
Theorem createUser_optional_fields env userData st k :
  k ∈ optional_fields ->
  succeeded (fst (createUser env userData st)) = true ->
  exists record,
    fst (createUser env userData st) = inr record
    /\ get record k = or_else (get userData k) Null
    /\ (get record k = Null \/ truthy (get record k) = true)
    /\ get record k <> Str "".
Proof.
  intros Hk Hok.
  destruct (createUser_succeeded env userData st Hok)
    as (e & p & users & _ & _ & _ & _ & ->).
  cbn [fst]. eexists. split; [reflexivity|].
  assert (Hne : "password" <> k).
  { intros <-. unfold optional_fields in Hk. rewrite !elem_of_cons in Hk.
    repeat (destruct Hk as [Hk | Hk]; [discriminate Hk|]).
    apply elem_of_nil in Hk. exact Hk. }
  rewrite get_delete_ne by exact Hne.
  rewrite (newUser_optional env userData _ _ k Hk).
  split; [reflexivity|].
  unfold or_else. destruct (truthy (get userData k)) eqn:Ht.
  - split; [right; exact Ht|]. intros Heq. rewrite Heq in Ht. discriminate Ht.
  - split; [left; reflexivity | discriminate].
Qed.

Lemma init_returns now readyState connect_ok st :
  fst (init now readyState connect_ok st) = inr tt
  /\ usersFile (snd (init now readyState connect_ok st))
     = Some (default [] (usersFile st))
  /\ statsFile (snd (init now readyState connect_ok st))
     = Some (default (initialStats now) (statsFile st))
  /\ collection (snd (init now readyState connect_ok st)) = collection st.
Proof.
  unfold init, bind, initFileStorage, when, initMongoStorage, try_catch, bind, ret, throw.
  destruct st as [uf sf mc mg us db].
  destruct uf, sf, mg, (readyState =? 0)%Z, connect_ok; repeat split.
Qed.

(** X6. Starting the coordinator again keeps the data: [init] creates
    only the files that are missing and leaves existing [users.json] and
    [stats.json], and the collection, as they are; so the email
    invariant of the file survives a restart. *)
Theorem init_keeps_files now readyState connect_ok st users stats :
  usersFile st = Some users ->
  statsFile st = Some stats ->
  usersFile (snd (init now readyState connect_ok st)) = Some users
  /\ statsFile (snd (init now readyState connect_ok st)) = Some stats
  /\ collection (snd (init now readyState connect_ok st)) = collection st
  /\ (store_inv st -> store_inv (snd (init now readyState connect_ok st))).
Proof.
  intros Hu Hs.
  destruct (init_returns now readyState connect_ok st) as (_ & H2 & H3 & H4).
  rewrite Hu in H2. rewrite Hs in H3. cbn [default] in H2, H3.
  split; [exact H2|]. split; [exact H3|]. split; [exact H4|].
  intros (users' & Hf & Hlow & Huniq).
  rewrite Hu in Hf. apply Some_inj in Hf. subst users'.
  exists users. split; [exact H2|]. split; assumption.
Qed.

(** ** The readers of the coordinator *)

Lemma find_None_existsb {A} (f : A -> bool) (l : list A) :
  existsb f l = false -> find f l = None.
Proof.
  induction l as [|a l IH]; simpl; [reflexivity|].
  destruct (f a); [discriminate | exact IH].
Qed.

Lemma find_app_None_last {A} (f : A -> bool) (l : list A) x :
  find f l = None -> f x = true -> find f (l ++ [x])%list = Some x.
Proof.
  intros Hl Hx. induction l as [|a l IH]; simpl in *.
  - rewrite Hx. reflexivity.
  - destruct (f a); [discriminate Hl | exact (IH Hl)].
Qed.

Lemma find_elem_Some {A} (f : A -> bool) (l : list A) x :
  x ∈ l -> f x = true -> exists y, find f l = Some y.
Proof.
  intros Hin Hx. destruct (find f l) as [y|] eqn:Hfind; [exists y; reflexivity|].
  apply list_elem_of_In in Hin.
  rewrite (find_none f l Hfind x Hin) in Hx. discriminate Hx.
Qed.

(** With MongoDB out of the way the lookup is the one of the file. *)
Lemma findUserByEmail_file env email st users :
  mongoConnected st && User st = false ->
  usersFile st = Some users ->
  findUserByEmail env email st
  = (inr (find (fun u => strict_eq (get u "email") (Str (toLowerCase email))) users), st).
Proof.
  intros Hoff Hf. unfold findUserByEmail, try_catch, bind, readUsers, ret.
  rewrite Hoff, Hf. reflexivity.
Qed.

(** With MongoDB connected a document under the key of the email,
    which the filter lowercases once more and trims, is the answer. *)
Lemma findUserByEmail_mongo env email st doc :
  mongoConnected st && User st = true ->
  findOne_throws env = false ->
  find (fun d => strict_eq (email_key d)
                   (Str (trim (toLowerCase (toLowerCase email))))) (collection st)
  = Some doc ->
  findUserByEmail env email st = (inr (Some (hydrate doc)), st).
Proof.
  intros Hon Hno Hfind. unfold findUserByEmail, try_catch, bind, ret.
  rewrite Hon, User_findOne_spec.
  unfold filter_key. rewrite userSchema_cast_email_string, Hno, Hfind.
  reflexivity.
Qed.

Lemma shown_plain doc k v :
  get doc k = v -> v <> Undefined -> k <> "profilePhoto" -> shown doc k = v.
Proof.
  intros Hv Hdef Hk. unfold shown. rewrite Hv.
  destruct (decide (k = "profilePhoto")); [contradiction|].
  destruct v; try reflexivity. destruct Hdef. reflexivity.
Qed.

(** X7. On a file-only back end, in every reachable state,
    [findUserByEmail] is a read-only lookup without regard to case: it
    returns a record, whose email is the lowercased argument, exactly
    when some record of [users.json] carries the email up to case, and
    [null] exactly when none does. *)
Theorem findUserByEmail_file_only st env email :
  reachable st ->
  mongoConnected st = false ->
  snd (findUserByEmail env email st) = st
  /\ ((exists u, fst (findUserByEmail env email st) = inr (Some u)
                 /\ get u "email" = Str (toLowerCase email))
      <-> email_taken email (users_of st))
  /\ (fst (findUserByEmail env email st) = inr None
      <-> ~ email_taken email (users_of st)).
Proof.
  intros Hreach Hoff.
  destruct (reachable_store_inv st Hreach) as (users & Hf & Hlow & _).
  assert (Hand : mongoConnected st && User st = false) by (rewrite Hoff; reflexivity).
  rewrite (findUserByEmail_file env email st users Hand Hf).
  unfold users_of. rewrite Hf. cbn [fst snd default].
  split; [reflexivity|].
  destruct (find (fun u => strict_eq (get u "email") (Str (toLowerCase email))) users)
    as [w|] eqn:Hfind.
  - pose proof (find_email_taken email users w Hfind) as Htaken.
    split.
    + split; [intros _; exact Htaken|].
      intros _. exists w. split; [reflexivity|].
      apply find_Some_elem in Hfind as [_ Heq]. apply strict_eq_Str in Heq. exact Heq.
    + split; [intros H; discriminate H | intros Hno; destruct (Hno Htaken)].
  - split.
    + split.
      * intros (u & Hu & _). discriminate Hu.
      * intros Htaken. destruct (email_taken_find email users Hlow Htaken) as [u Hu].
        rewrite Hu in Hfind. discriminate Hfind.
    + split; [|reflexivity].
      intros _ Htaken. destruct (email_taken_find email users Hlow Htaken) as [u Hu].
      rewrite Hu in Hfind. discriminate Hfind.
Qed.

(** X8. What [createUser] wrote, [findUserByEmail] reads back: on a
    file-only back end, after a successful call from a reachable state,
    a lookup of the email in any case returns the record of that call,
    with its identifier, the lowercased email and the hash of the
    password. *)
Theorem createUser_then_findUserByEmail st env menv userData e p email :
  reachable st ->
  mongoConnected st = false ->
  get userData "email" = Str e ->
  get userData "password" = Str p ->
  succeeded (fst (createUser env userData st)) = true ->
  toLowerCase email = toLowerCase e ->
  exists u,
    fst (findUserByEmail menv email (snd (createUser env userData st))) = inr (Some u)
    /\ get u "_id" = Str (uuid env)
    /\ get u "email" = Str (toLowerCase e)
    /\ get u "password" = Str (bcrypt_hash p (salt env)).
Proof.
  intros Hreach Hoff He Hp Hok Hci.
  destruct (reachable_json_normal st Hreach) as (users & Hf & Hnormal).
  destruct (createUser_succeeded env userData st Hok)
    as (e' & p' & users' & He' & Hp' & Hf' & Hfind & Hc).
  rewrite He in He'. injection He' as <-.
  rewrite Hp in Hp'. injection Hp' as <-.
  rewrite Hf in Hf'. apply Some_inj in Hf'. subst users'.
  rewrite Hc. cbn [snd].
  set (newUser := newUser_of env userData (bcrypt_hash p (salt env)) (toLowerCase e)).
  assert (Hand : mongoConnected (created env newUser users st)
                 && User (created env newUser users st) = false).
  { destruct (created_flags env newUser users st) as (-> & _). rewrite Hoff. reflexivity. }
  rewrite (findUserByEmail_file menv email _ _ Hand (created_usersFile env newUser users st)).
  cbn [fst]. rewrite fmap_app, (json_normal_id users Hnormal), Hci.
  exists (JSON_roundtrip newUser). split.
  - f_equal. apply find_app_None_last; [exact Hfind|].
    apply strict_eq_Str. apply get_JSON_roundtrip_Str. apply newUser_email.
  - split; [apply get_JSON_roundtrip_Str, newUser_id|].
    split; [apply get_JSON_roundtrip_Str, newUser_email|].
    apply get_JSON_roundtrip_Str, newUser_password.
Qed.

(** The key under which the document of a dual write is indexed. *)
Lemma email_key_dual_doc menv env userData h e :
  email_key (fields (User_new menv (delete "_id" (newUser_of env userData h (toLowerCase e)))))
  = Str (trim (toLowerCase (toLowerCase e))).
Proof.
  unfold email_key, get. rewrite User_new_lookup by discriminate.
  rewrite lookup_delete_ne by discriminate.
  rewrite newUser_lookup_email. reflexivity.
Qed.

(** A creation that leaves the collection longer went through [save]. *)
Lemma created_saved env newUser users st :
  length (collection (created env newUser users st)) = S (length (collection st)) ->
  mongoConnected st && User st = true
  /\ exists hashed,
       pre_save (mongo env) (fields (User_new (mongo env) (delete "_id" newUser)))
       = inr hashed
       /\ collection (created env newUser users st)
          = (collection st ++ [timestamps (mongo env) hashed])%list
       /\ existsb (fun d => strict_eq (email_key d)
                              (email_key (timestamps (mongo env) hashed)))
            (collection st) = false.
Proof.
  rewrite created_collection.
  destruct (mongoConnected st && User st); [|intros H; lia].
  destruct (User_save (mongo env) (User_new (mongo env) (delete "_id" newUser))
              (collection st)) as [err|db] eqn:Hsave; [intros H; lia|].
  intros _. split; [reflexivity|].
  destruct (User_save_inv _ _ _ _ Hsave) as (hashed & Hpre & -> & _ & _ & _ & Hdup).
  exists hashed. split; [exact Hpre|]. split; [reflexivity | exact Hdup].
Qed.

(** X9. After a successful dual write the lookup answers from MongoDB:
    [findUserByEmail], called with the email in any case while the
    query does not fail, returns the document of the collection, with
    the ObjectId of MongoDB and the password hashed a second time by
    the hook, not the record of [users.json]. *)
Theorem dual_write_then_findUserByEmail st env menv userData e p users email :
  get userData "email" = Str e ->
  get userData "password" = Str p ->
  usersFile st = Some users ->
  ~ email_taken e users ->
  length (collection (snd (createUser env userData st))) = S (length (collection st)) ->
  findOne_throws menv = false ->
  toLowerCase email = toLowerCase e ->
  exists doc,
    fst (findUserByEmail menv email (snd (createUser env userData st))) = inr (Some doc)
    /\ get doc "_id" = ObjectId (objectId (mongo env))
    /\ get doc "password"
       = Str (bcrypt_hash (bcrypt_hash p (salt env)) (hookSalt (mongo env))).
Proof.
  intros He Hp Hf Hfresh Hgrow Hno Hci.
  destruct (createUser env userData st) as [r st'] eqn:Hc.
  destruct (createUser_inv env userData st r st' Hc)
    as [(err & -> & ->) | (e0 & p0 & users0 & He0 & Hp0 & Hf0 & Hfind & -> & ->)];
    [cbn [snd] in Hgrow; lia|].
  rewrite He in He0. injection He0 as <-.
  rewrite Hp in Hp0. injection Hp0 as <-.
  rewrite Hf in Hf0. apply Some_inj in Hf0. subst users0.
  cbn [snd] in *.
  set (newUser := newUser_of env userData (bcrypt_hash p (salt env)) (toLowerCase e)) in *.
  destruct (created_saved env newUser users st Hgrow)
    as (Hon & hashed & Hpre & Hcoll & Hdup).
  assert (Hpw : fields (User_new (mongo env) (delete "_id" newUser)) !! "password"
                = Some (Str (bcrypt_hash p (salt env)))).
  { rewrite User_new_lookup by discriminate.
    rewrite lookup_delete_ne by discriminate.
    unfold newUser. rewrite newUser_lookup_password. reflexivity. }
  pose proof (email_key_stored (mongo env) _ hashed Hpre) as Hkey.
  unfold newUser in Hkey. rewrite email_key_dual_doc in Hkey. fold newUser in Hkey.
  rewrite Hkey in Hdup.
  assert (Hon' : mongoConnected (created env newUser users st)
                 && User (created env newUser users st) = true).
  { destruct (created_flags env newUser users st) as (-> & _ & ->). exact Hon. }
  exists (hydrate (timestamps (mongo env) hashed)). split.
  - rewrite (findUserByEmail_mongo menv email _ (timestamps (mongo env) hashed) Hon' Hno);
      [reflexivity|].
    rewrite Hcoll, Hci. apply find_app_None_last.
    + apply find_None_existsb. exact Hdup.
    + rewrite Hkey. cbn [strict_eq]. apply String.eqb_refl.
  - rewrite (pre_save_hashes _ _ _ Hpw) in Hpre. apply inr_eq_inv in Hpre. subst hashed.
    rewrite !get_hydrate. split.
    + apply shown_plain; [|discriminate|discriminate].
      rewrite get_timestamps by discriminate.
      rewrite get_insert_ne by discriminate. apply User_new_id.
    + apply shown_plain; [|discriminate|discriminate].
      rewrite get_timestamps by discriminate. apply get_insert_eq.
Qed.

Lemma Forall_delete_password (users : list Object) :
  Forall (fun u : Object => u !! "password" = None) (delete "password" <$> users).
Proof.
  rewrite Forall_fmap. apply Forall_forall. intros u _. apply lookup_delete_eq.
Qed.

(** X10. [getAllUsers] is read-only and never hands out a password:
    whichever store answers, no user of the list it returns has a
    [password] property. *)
Theorem getAllUsers_no_password find_throws st :
  snd (getAllUsers find_throws st) = st
  /\ match fst (getAllUsers find_throws st) with
     | inr users => Forall (fun u : Object => u !! "password" = None) users
     | inl _ => True
     end.
Proof.
  unfold getAllUsers, try_catch, bind, readUsers, ret, throw.
  destruct (mongoConnected st && User st).
  - destruct find_throws; [split; [reflexivity | exact I]|].
    cbv zeta.
    destruct (0 <? length (delete "password" <$> User_find (collection st)))%nat.
    + split; [reflexivity | apply Forall_delete_password].
    + destruct (usersFile st) as [users|].
      * split; [reflexivity | apply Forall_delete_password].
      * split; [reflexivity | exact I].
  - destruct (usersFile st) as [users|].
    + split; [reflexivity | apply Forall_delete_password].
    + split; [reflexivity | exact I].
Qed.

Lemma getAllUsers_file find_throws st users :
  mongoConnected st = false ->
  usersFile st = Some users ->
  getAllUsers find_throws st = (inr (delete "password" <$> users), st).
Proof.
  intros Hoff Hf. unfold getAllUsers, try_catch, bind, readUsers, ret.
  rewrite Hoff, Hf. reflexivity.
Qed.

Lemma createUsers_mongoConnected calls :
  forall st, mongoConnected (snd (createUsers calls st)) = mongoConnected st.
Proof.
  induction calls as [|[env userData] rest IH]; intros st; [reflexivity|].
  cbn [createUsers].
  destruct (createUser_flags env userData st) as (Hc & _).
  destruct (createUser env userData st) as [r st1].
  specialize (IH st1).
  destruct (createUsers rest st1) as [rs st2].
  cbn [snd] in *. rewrite IH. exact Hc.
Qed.

(** X11. The listing agrees with the counters: on a file-only back end
    started on an empty data directory, after N calls of [createUser]
    that all succeed, [GET /] answers with N users, none of which has a
    password, with statistics read without error whose [totalUsers] is
    N, and with the mode 'file-only'. *)
Theorem get_users_after_creates now readyState connect_ok m u db calls find_throws :
  let st0 := snd (init now readyState connect_ok (constructor m u db)) in
  mongoConnected st0 = false ->
  forallb succeeded (fst (createUsers calls st0)) = true ->
  exists users stats storage,
    fst (get_users find_throws (snd (createUsers calls st0))) = Listed users stats storage
    /\ length users = length calls
    /\ answer_totalUsers stats = Z.of_nat (length calls)
    /\ answer_error stats = None
    /\ mode storage = "file-only"
    /\ Forall (fun u : Object => u !! "password" = None) users.
Proof.
  intros st0 Hoff Hok.
  pose proof (createUsers_mongoConnected calls st0) as Hflag. rewrite Hoff in Hflag.
  destruct (createUsers calls st0) as [results st] eqn:Hrun. cbn [fst snd] in *.
  destruct (createUsers_counted calls _ results st
              (init_counted now readyState connect_ok m u db) Hrun Hok)
    as ((users & stats & Hu & Hs & Htot) & users0 & users' & Hu0 & Hu' & Hlen).
  rewrite Hu in Hu'. apply Some_inj in Hu'. subst users'.
  destruct (init_returns now readyState connect_ok (constructor m u db))
    as (_ & Hinit & _).
  fold st0 in Hu0. unfold st0 in Hu0. rewrite Hinit in Hu0.
  cbn [constructor usersFile default] in Hu0. apply Some_inj in Hu0. subst users0.
  cbn [length] in Hlen. rewrite Nat.add_0_l in Hlen.
  unfold get_users. rewrite (getAllUsers_file find_throws st users Hflag Hu).
  cbn [fst]. eexists _, _, _. split; [reflexivity|].
  split; [rewrite length_fmap; exact Hlen|].
  unfold getStats. rewrite Hs. cbn [answer_totalUsers answer_error].
  split; [rewrite Htot, Hlen; reflexivity|].
  split; [reflexivity|].
  split; [unfold getStorageStatus; cbn [mode]; rewrite Hflag; reflexivity|].
  apply Forall_delete_password.
Qed.

(** ** More on the registration route *)

Lemma lookup_preprocess_flag_ne k k' (processed : Object) :
  k <> k' -> preprocess_flag k processed !! k' = processed !! k'.
Proof.
  intros Hne. unfold preprocess_flag.
  destruct (get processed k); try reflexivity; apply lookup_insert_ne; exact Hne.
Qed.

Lemma lookup_preprocess_flag_eq k (processed : Object) :
  preprocess_flag k processed !! k = convert_flag <$> processed !! k.
Proof.
  unfold preprocess_flag, get.
  destruct (processed !! k) as [v|] eqn:Hv.
  - destruct v; rewrite ?lookup_insert_eq, ?Hv; reflexivity.
  - rewrite Hv. reflexivity.
Qed.

Lemma lookup_empty_to_null_ne k k' (processed : Object) :
  k <> k' -> empty_to_null k processed !! k' = processed !! k'.
Proof.
  intros Hne. unfold empty_to_null.
  destruct (strict_eq _ _); [apply lookup_insert_ne; exact Hne | reflexivity].
Qed.

Lemma lookup_empty_to_null_eq k (processed : Object) :
  empty_to_null k processed !! k = empty_as_null <$> processed !! k.
Proof.
  unfold empty_to_null, get, empty_as_null.
  destruct (processed !! k) as [v|] eqn:Hv.
  - cbn [fmap option_fmap option_map].
    destruct (strict_eq v (Str "")); [apply lookup_insert_eq | exact Hv].
  - cbn [strict_eq]. exact Hv.
Qed.

(** What [preprocessFormData] leaves under each key. *)
Lemma preprocessFormData_lookup data k :
  preprocessFormData data !! k
  = if decide (k ∈ flag_fields) then convert_flag <$> data !! k
    else if decide (k ∈ nullable_fields) then empty_as_null <$> data !! k
    else data !! k.
Proof.
  unfold preprocessFormData. cbn [foldl].
  destruct (decide (k ∈ flag_fields)) as [Hf|Hf].
  - unfold flag_fields in Hf. rewrite !elem_of_cons in Hf.
    destruct Hf as [-> | [-> | Hf]]; [| |apply elem_of_nil in Hf; destruct Hf].
    + rewrite !lookup_empty_to_null_ne by discriminate.
      rewrite lookup_preprocess_flag_ne by discriminate.
      apply lookup_preprocess_flag_eq.
    + rewrite !lookup_empty_to_null_ne by discriminate.
      rewrite lookup_preprocess_flag_eq.
      rewrite lookup_preprocess_flag_ne by discriminate. reflexivity.
  - unfold flag_fields in Hf. rewrite !not_elem_of_cons in Hf.
    destruct Hf as (Hf1 & Hf2 & _).
    destruct (decide (k ∈ nullable_fields)) as [Hn|Hn].
    + unfold nullable_fields in Hn. rewrite !elem_of_cons in Hn.
      repeat (destruct Hn as [-> | Hn];
              [rewrite ?lookup_empty_to_null_ne by discriminate;
               rewrite lookup_empty_to_null_eq;
               rewrite ?lookup_empty_to_null_ne by discriminate;
               rewrite !lookup_preprocess_flag_ne by discriminate;
               reflexivity|]).
      apply elem_of_nil in Hn. destruct Hn.
    + unfold nullable_fields in Hn. rewrite !not_elem_of_cons in Hn.
      destruct Hn as (H1 & H2 & H3 & H4 & H5 & H6 & H7 & H8 & H9 & H10 & H11 & H12 & _).
      rewrite !lookup_empty_to_null_ne by (intros Heq; symmetry in Heq; contradiction).
      rewrite !lookup_preprocess_flag_ne by (intros Heq; symmetry in Heq; contradiction).
      reflexivity.
Qed.

Lemma convert_flag_idemp v : convert_flag (convert_flag v) = convert_flag v.
Proof. destruct v; reflexivity. Qed.

Lemma empty_as_null_idemp v : empty_as_null (empty_as_null v) = empty_as_null v.
Proof.
  unfold empty_as_null. destruct (strict_eq v (Str "")) eqn:Hv; [reflexivity|].
  rewrite Hv. reflexivity.
Qed.

(** X12. [preprocessFormData] is idempotent: a body that went through
    it once is left as it is by a second pass. *)
Theorem preprocessFormData_idempotent data :
  preprocessFormData (preprocessFormData data) = preprocessFormData data.
Proof.
  apply map_eq. intros k.
  rewrite (preprocessFormData_lookup (preprocessFormData data) k).
  rewrite (preprocessFormData_lookup data k).
  destruct (decide (k ∈ flag_fields)).
  - destruct (data !! k) as [v|]; [|reflexivity].
    cbn [fmap option_fmap option_map]. rewrite convert_flag_idemp. reflexivity.
  - destruct (decide (k ∈ nullable_fields)); [|reflexivity].
    destruct (data !! k) as [v|]; [|reflexivity].
    cbn [fmap option_fmap option_map]. rewrite empty_as_null_idemp. reflexivity.
Qed.

(** X13. [preprocessFormData] rewrites nothing but the two flags and
    the twelve optional text fields: every other property of the body,
    the name, the email, the password and the phone among them, and
    every property the schema does not know, reaches the validation
    exactly as it was sent, and no property is added or removed. *)
Theorem preprocessFormData_other_keys data k :
  k ∉ flag_fields ->
  k ∉ nullable_fields ->
  preprocessFormData data !! k = data !! k
  /\ forall k', is_Some (preprocessFormData data !! k') <-> is_Some (data !! k').
Proof.
  intros Hf Hn. split.
  - rewrite preprocessFormData_lookup.
    destruct (decide (k ∈ flag_fields)); [contradiction|].
    destruct (decide (k ∈ nullable_fields)); [contradiction|]. reflexivity.
  - intros k'. rewrite preprocessFormData_lookup.
    destruct (decide (k' ∈ flag_fields)); [apply fmap_is_Some|].
    destruct (decide (k' ∈ nullable_fields)); [apply fmap_is_Some | reflexivity].
Qed.

Lemma preprocessFormData_get_other data k :
  k ∉ flag_fields ->
  k ∉ nullable_fields ->
  get (preprocessFormData data) k = get data k.
Proof.
  intros Hf Hn. unfold get. rewrite preprocessFormData_lookup.
  destruct (decide (k ∈ flag_fields)); [contradiction|].
  destruct (decide (k ∈ nullable_fields)); [contradiction|]. reflexivity.
Qed.

Lemma preprocessFormData_undefined data k :
  get data k = Undefined -> get (preprocessFormData data) k = Undefined.
Proof.
  unfold get. rewrite preprocessFormData_lookup.
  destruct (decide (k ∈ flag_fields)); [|destruct (decide (k ∈ nullable_fields))];
    destruct (data !! k) as [v|]; cbn [fmap option_fmap option_map];
    try (intros ->; reflexivity); intros _; reflexivity.
Qed.

(** An accepted object was given every required key. *)
Lemma Joi_object_required keys input value k key :
  Joi_object keys input = Some value ->
  Joi_key keys k = Some key ->
  key_required key = true ->
  get input k <> Undefined.
Proof.
  intros Hobj Hkey Hreq.
  destruct (Joi_object_get keys input value k key Hobj Hkey)
    as [(_ & Hopt & _) | (v' & _ & Hv)].
  - rewrite Hreq in Hopt. discriminate Hopt.
  - exact (Joi_object_defined keys input value k v' Hobj Hv).
Qed.

Lemma registrationSchema_required k :
  k ∈ ["name"; "email"; "password"; "phone"; "terms_accepted"] ->
  exists key, Joi_key registrationSchema k = Some key /\ key_required key = true.
Proof.
  rewrite !elem_of_cons.
  intros [-> | [-> | [-> | [-> | [-> | H]]]]];
    [eexists; split; [vm_compute; reflexivity | reflexivity] ..|].
  apply elem_of_nil in H. destruct H.
Qed.

(** X14. The handler of [POST /register], which runs once the upload
    middleware has passed the request on, answers a body that lacks one
    of the five required fields (name, email, password, phone, consent
    to the terms) with 400, and leaves [users.json], [stats.json], the
    flags and the collection as they were. *)
Theorem register_missing_required body file env st k :
  k ∈ ["name"; "email"; "password"; "phone"; "terms_accepted"] ->
  get body k = Undefined ->
  register body file env st = (ValidationFailed, st).
Proof.
  intros Hk Hmiss. unfold register.
  destruct (Joi_object registrationSchema (preprocessFormData body)) as [value|] eqn:Hobj;
    [|reflexivity].
  exfalso.
  destruct (registrationSchema_required k Hk) as (key & Hkey & Hreq).
  apply (Joi_object_required _ _ value k key Hobj Hkey Hreq).
  apply preprocessFormData_undefined. exact Hmiss.
Qed.

(** X15. A registration that the handler answers with 400 or with 409
    has changed neither [users.json] nor [stats.json] nor the flags nor
    the collection: the validation error is answered before the
    coordinator is called, and the conflict is thrown before the
    coordinator writes. *)
Theorem register_failure_writes_nothing body file env st :
  status_code (fst (register body file env st)) = 400%Z
  \/ status_code (fst (register body file env st)) = 409%Z ->
  snd (register body file env st) = st.
Proof.
  unfold register.
  destruct (Joi_object registrationSchema (preprocessFormData body)) as [value|];
    [|intros _; reflexivity].
  pose proof (createUser_failed env (userData_of value file) st) as Hfail.
  destruct (createUser env (userData_of value file) st) as [[error|newUser] st1].
  - intros _. apply Hfail. reflexivity.
  - intros [H | H]; discriminate H.
Qed.

(** The email of an accepted object is the email of the input, which
    is a string, put in lower case by [Joi]. *)
Lemma registrationSchema_email_lower input value :
  Joi_object registrationSchema input = Some value ->
  exists s, get input "email" = Str s /\ get value "email" = Str (toLocaleLowerCase s).
Proof.
  intros Hobj.
  destruct (Joi_object_get registrationSchema input value "email" _ Hobj
              registrationSchema_email) as [(_ & Hreq & _) | (v' & Hval & Hv)].
  - discriminate Hreq.
  - destruct (get input "email") as [| | | |s| | |]; try discriminate Hval.
    exists s. split; [reflexivity|].
    cbn [key_schema required Joi_lowercase Joi_isEmail Joi_string on_rules Joi_validate
         Joi_coerce rule_trim rule_lowercase rule_email rule_min rule_max] in Hval.
    destruct (String.eqb (toLocaleLowerCase s) ""); [discriminate Hval|].
    destruct (_ && _); [|discriminate Hval].
    apply Some_inj in Hval. subst v'. unfold get. rewrite Hv. reflexivity.
Qed.

Lemma created_view_get newUser :
  get (created_view newUser) "id" = get newUser "_id"
  /\ get (created_view newUser) "email" = get newUser "email".
Proof. split; vm_compute; reflexivity. Qed.

Lemma created_view_keys newUser k :
  k ∉ ["id"; "name"; "email"; "phone"; "createdAt"; "profilePhoto"] ->
  created_view newUser !! k = None.
Proof.
  intros Hk. rewrite !not_elem_of_cons in Hk.
  destruct Hk as (H1 & H2 & H3 & H4 & H5 & H6 & _).
  unfold created_view. rewrite !list_to_map_cons, list_to_map_nil.
  rewrite !lookup_insert_ne by (intros Heq; symmetry in Heq; contradiction).
  apply lookup_empty.
Qed.

(** The whole answer of a registration that ends with 201. *)
Lemma register_created_eq body file env st :
  status_code (fst (register body file env st)) = 201%Z ->
  exists value newUser st1,
    Joi_object registrationSchema (preprocessFormData body) = Some value
    /\ createUser env (userData_of value file) st = (inr newUser, st1)
    /\ register body file env st
       = (Created (created_view newUser) (getStorageStatus st1), st1).
Proof.
  unfold register.
  destruct (Joi_object registrationSchema (preprocessFormData body)) as [value|];
    [|intros H; discriminate H].
  destruct (createUser env (userData_of value file) st) as [[error|newUser] st1] eqn:Hc.
  - unfold error_response.
    destruct (includes _ _); intros H; discriminate H.
  - intros _. exists value, newUser, st1.
    split; [reflexivity|]. split; [exact Hc | reflexivity].
Qed.

(** X16. The 201 answer shows six properties and no more: the user of
    the response has the identifier generated by the coordinator, the
    email of the body (which was a string) as [Joi] and then the
    coordinator put it in lower case, and no property besides [id],
    [name], [email], [phone], [createdAt] and [profilePhoto]; neither
    the password nor its hash is among them.  The storage status is the
    one after the write. *)
Theorem register_created_view body file env st :
  status_code (fst (register body file env st)) = 201%Z ->
  exists view storage s,
    fst (register body file env st) = Created view storage
    /\ get body "email" = Str s
    /\ get view "email" = Str (toLowerCase (toLocaleLowerCase s))
    /\ get view "id" = Str (uuid env)
    /\ (forall k, k ∉ ["id"; "name"; "email"; "phone"; "createdAt"; "profilePhoto"] ->
                  view !! k = None)
    /\ storage = getStorageStatus (snd (register body file env st)).
Proof.
  intros Hreg.
  destruct (register_created_eq body file env st Hreg)
    as (value & newUser & st1 & Hobj & Hc & ->).
  destruct (registrationSchema_email_lower _ value Hobj) as (s & Hs & Hv).
  assert (Hbody : get body "email" = Str s).
  { rewrite <- Hs. symmetry. apply preprocessFormData_get_other.
    - unfold flag_fields. rewrite !not_elem_of_cons.
      repeat split; try discriminate. apply not_elem_of_nil.
    - unfold nullable_fields. rewrite !not_elem_of_cons.
      repeat split; try discriminate. apply not_elem_of_nil. }
  assert (He : get (userData_of value file) "email" = Str (toLocaleLowerCase s)).
  { rewrite get_userData_of; [exact Hv|].
    rewrite !not_elem_of_cons. repeat split; try discriminate. apply not_elem_of_nil. }
  destruct (createUser_inv env _ st _ _ Hc)
    as [(err & Herr & _) | (e & p & users & He' & _ & _ & _ & Hnew & _)];
    [discriminate Herr|].
  rewrite He in He'. injection He' as <-.
  apply inr_eq_inv in Hnew.
  cbn [fst snd]. exists (created_view newUser), (getStorageStatus st1), s.
  split; [reflexivity|].
  split; [exact Hbody|].
  destruct (created_view_get newUser) as [Hid Hem].
  split.
  - rewrite Hem, Hnew. rewrite get_delete_ne by discriminate.
    rewrite newUser_email. reflexivity.
  - split.
    + rewrite Hid, Hnew. rewrite get_delete_ne by discriminate. apply newUser_id.
    + split; [apply created_view_keys | reflexivity].
Qed.

(** The schema of the flags lets a converted flag through only as a
    boolean. *)
Lemma flagSchema_converted raw v' :
  Joi_validate flagSchema (convert_flag raw) = Some v' ->
  exists b, convert_flag raw = Bool b /\ v' = Bool b.
Proof.
  destruct raw as [| |b|n|s|d|h|l]; cbn [convert_flag]; intros H;
    try (vm_compute in H; discriminate H);
    eexists; (split; [reflexivity|]);
    cbn in H; apply Some_inj in H; symmetry; exact H.
Qed.

Lemma registrationSchema_newsletter :
  Joi_key registrationSchema "newsletter_subscription" = Some (optional flagSchema).
Proof. vm_compute. reflexivity. Qed.

Lemma preprocessFormData_flag data k :
  k ∈ flag_fields ->
  get (preprocessFormData data) k = convert_flag (get data k).
Proof.
  intros Hk. unfold get. rewrite preprocessFormData_lookup.
  destruct (decide (k ∈ flag_fields)); [|contradiction].
  destruct (data !! k); reflexivity.
Qed.

Lemma get_userData_of_newsletter value file :
  get (userData_of value file) "newsletterSubscription"
  = get value "newsletter_subscription".
Proof.
  unfold userData_of.
  destruct file; rewrite !get_insert_ne by discriminate; apply get_insert_eq.
Qed.

Lemma newUser_newsletterSubscription env userData h e :
  get (newUser_of env userData h e) "newsletterSubscription"
  = Bool (strict_eq (get userData "newsletterSubscription") (Bool true)).
Proof. vm_compute. reflexivity. Qed.

(** X17. The flags of a stored record are the conversions of the raw
    flags: whenever the registration is answered with 201, the raw
    [terms_accepted] was a boolean, a string or a number, and the
    record appended to [users.json] has [termsAccepted] equal to its
    conversion ([true] for [true], 1, '1' and 'true' in any case,
    [false] otherwise) and [newsletterSubscription] true exactly when
    the raw [newsletter_subscription] converts to [true]. *)
Theorem register_stores_converted_flags body file env st :
  status_code (fst (register body file env st)) = 201%Z ->
  exists users fileUser b,
    usersFile (snd (register body file env st)) = Some (users ++ [fileUser])%list
    /\ convert_flag (get body "terms_accepted") = Bool b
    /\ get fileUser "termsAccepted" = Bool b
    /\ get fileUser "newsletterSubscription"
       = Bool (strict_eq (convert_flag (get body "newsletter_subscription")) (Bool true)).
Proof.
  intros Hreg.
  destruct (register_created body file env st Hreg) as (value & newUser & Hobj & Hc).
  assert (Hterms : exists b, convert_flag (get body "terms_accepted") = Bool b
                             /\ get value "terms_accepted" = Bool b).
  { destruct (Joi_object_get registrationSchema _ value "terms_accepted" _ Hobj
                registrationSchema_terms) as [(_ & Hreq & _) | (v' & Hval & Hv)];
      [discriminate Hreq|].
    cbn [key_schema required] in Hval.
    rewrite preprocessFormData_flag in Hval
      by (unfold flag_fields; rewrite !elem_of_cons; right; left; reflexivity).
    destruct (flagSchema_converted _ v' Hval) as (b & Hb & ->).
    exists b. split; [exact Hb|]. unfold get. rewrite Hv. reflexivity. }
  assert (Hnews : strict_eq (get value "newsletter_subscription") (Bool true)
                  = strict_eq (convert_flag (get body "newsletter_subscription"))
                      (Bool true)).
  { destruct (Joi_object_get registrationSchema _ value "newsletter_subscription" _ Hobj
                registrationSchema_newsletter) as [(Hun & _ & Hv) | (v' & Hval & Hv)].
    - rewrite preprocessFormData_flag in Hun
        by (unfold flag_fields; rewrite !elem_of_cons; left; reflexivity).
      rewrite Hun. unfold get. rewrite Hv. reflexivity.
    - cbn [key_schema optional] in Hval.
      rewrite preprocessFormData_flag in Hval
        by (unfold flag_fields; rewrite !elem_of_cons; left; reflexivity).
      destruct (flagSchema_converted _ v' Hval) as (b & Hb & ->).
      rewrite Hb. unfold get. rewrite Hv. reflexivity. }
  destruct Hterms as (b & Hb & Hvb).
  destruct (createUser_inv env _ st _ _ Hc)
    as [(err & Herr & _) | (e & p & users & _ & _ & _ & _ & _ & Hst)];
    [discriminate Herr|].
  rewrite Hst. eexists _, _, b. split.
  - rewrite created_usersFile, fmap_app. reflexivity.
  - split; [exact Hb|]. split.
    + apply get_JSON_roundtrip_Bool. rewrite newUser_termsAccepted.
      rewrite get_userData_of_terms, Hvb. destruct b; reflexivity.
    + apply get_JSON_roundtrip_Bool. rewrite newUser_newsletterSubscription.
      rewrite get_userData_of_newsletter, Hnews. reflexivity.
Qed.

Lemma saveToFile_missing userData st :
  usersFile st = None ->
  saveToFile userData st
  = (inl (mkError "ENOENT: no such file or directory, open users.json"), st).
Proof.
  intros Hf. unfold saveToFile, try_catch, bind, readUsers. rewrite Hf. reflexivity.
Qed.

(** X18. A request that reaches the handler while [users.json] does not
    exist (the server listens before [init] has finished) is never
    answered with 201 or 409: a body the schema accepts gets the generic
    500, any other the 400, and the handler writes nothing: [users.json]
    stays missing, [stats.json], the flags and the collection are as
    they were. *)
Theorem register_before_init body file env st :
  usersFile st = None ->
  snd (register body file env st) = st
  /\ fst (register body file env st)
     = match Joi_object registrationSchema (preprocessFormData body) with
       | Some _ => InternalError
       | None => ValidationFailed
       end.
Proof.
  intros Hf. unfold register.
  destruct (Joi_object registrationSchema (preprocessFormData body)) as [value|] eqn:Hobj;
    [|split; reflexivity].
  destruct (accepted_payload _ value file Hobj) as (e & p & He & Hp).
  rewrite (createUser_strings env _ st e p He Hp).
  rewrite (saveToFile_missing _ st Hf). split; reflexivity.
Qed.

(** ** More on the model and on the migration tool *)

Lemma occurrences_length log :
  (occurrences Migrated log + occurrences Skipped log + occurrences Errored log
   = length log)%nat.
Proof.
  unfold occurrences. induction log as [|o log IH]; [reflexivity|].
  destruct o; simpl; lia.
Qed.

Lemma migrate_one_length env fileUser db o db' :
  migrate_one env fileUser db = (o, db') ->
  length db' = (length db + occurrences Migrated [o])%nat.
Proof.
  unfold migrate_one.
  destruct (User_findOne _ _ _) as [err|[existing|]].
  - intros H. apply pair_equal_spec in H as [<- <-]. cbn. lia.
  - intros H. apply pair_equal_spec in H as [<- <-]. cbn. lia.
  - destruct (User_save _ _ _) as [err|db1] eqn:Hsave.
    + intros H. apply pair_equal_spec in H as [<- <-]. cbn. lia.
    + intros H. apply pair_equal_spec in H as [<- <-].
      destruct (User_save_inv _ _ _ _ Hsave) as (hashed & _ & -> & _).
      rewrite length_app. cbn. lia.
Qed.

Lemma migrate_loop_length envs fileUsers :
  forall i s db s' log db',
    migrate_loop envs i fileUsers s db = (s', log, db') ->
    length db' = (length db + occurrences Migrated log)%nat.
Proof.
  induction fileUsers as [|u rest IH]; intros i s db s' log db' Hrun.
  - cbn [migrate_loop] in Hrun. apply pair_equal_spec in Hrun as [Hrun <-].
    apply pair_equal_spec in Hrun as [_ <-]. cbn. lia.
  - cbn [migrate_loop] in Hrun.
    destruct (migrate_one (envs i) u db) as [o db1] eqn:Hone.
    destruct (migrate_loop envs (S i) rest (count o s) db1) as [[s1 log1] db2] eqn:Hrest.
    apply pair_equal_spec in Hrun as [Hrun <-].
    apply pair_equal_spec in Hrun as [_ <-].
    rewrite (IH _ _ _ _ _ _ Hrest), (migrate_one_length _ _ _ _ _ Hone).
    unfold occurrences. destruct o; simpl; lia.
Qed.

(** X20. The summary of [migrateUsers] accounts for every record of
    the file exactly once: the three counters add up to the total, which
    is the number of records read; the collection keeps every document
    it had, in place, and grows by exactly [migratedCount] documents. *)
Theorem migrateUsers_accounts envs file db s log :
  fst (migrateUsers true envs file db) = Some (s, log) ->
  (migratedCount s + skippedCount s + errorCount s = total s)%nat
  /\ total s = length (readUsersFromFile file)
  /\ length log = total s
  /\ length (snd (migrateUsers true envs file db)) = (length db + migratedCount s)%nat
  /\ db `prefix_of` snd (migrateUsers true envs file db).
Proof.
  unfold migrateUsers. cbn [negb]. cbv iota zeta.
  destruct (length (readUsersFromFile file) =? 0)%nat; [intros H; discriminate H|].
  destruct (migrate_loop envs 0 (readUsersFromFile file)
              (mkSummary 0 0 0 (length (readUsersFromFile file))) db)
    as [[s' log'] db'] eqn:Hloop.
  cbn [fst snd]. intros H. apply Some_inj in H. apply pair_equal_spec in H as [-> ->].
  destruct (migrate_loop_counts _ _ _ _ _ _ _ _ Hloop) as (Hlen & Hm & Hs & He & Ht).
  cbn [migratedCount skippedCount errorCount total] in Hm, Hs, He, Ht.
  pose proof (occurrences_length log) as Hsum.
  pose proof (migrate_loop_length _ _ _ _ _ _ _ _ Hloop) as Hdb.
  split; [lia|]. split; [exact Ht|]. split; [lia|]. split; [lia|].
  exact (migrate_loop_prefix _ _ _ _ _ _ _ _ Hloop).
Qed.

Lemma existsb_find_Some {A} (f : A -> bool) (l : list A) :
  existsb f l = true -> exists x, find f l = Some x.
Proof.
  induction l as [|a l IH]; simpl; [discriminate|].
  destruct (f a); [intros _; eexists; reflexivity | exact IH].
Qed.

Lemma existsb_app_l {A} (f : A -> bool) (l l' : list A) :
  existsb f l = true -> existsb f (l ++ l')%list = true.
Proof. intros H. rewrite existsb_app, H. reflexivity. Qed.

(** X21. A successful dual write keeps the two stores in step: if
    every record of [users.json] had a document under the key of its
    email before the call, so has every record after it, the new one
    included. *)
Theorem dual_write_mirrored st env userData e p users :
  get userData "email" = Str e ->
  get userData "password" = Str p ->
  usersFile st = Some users ->
  ~ email_taken e users ->
  length (collection (snd (createUser env userData st))) = S (length (collection st)) ->
  mirrored users (collection st) ->
  mirrored (users_of (snd (createUser env userData st)))
           (collection (snd (createUser env userData st))).
Proof.
  intros He Hp Hf Hfresh Hgrow Hmir.
  pose proof (createUser_grew st env userData e p users He Hp Hf Hgrow) as Hc.
  rewrite Hc in Hgrow |- *. clear Hc.
  cbn [snd] in *.
  set (newUser := newUser_of env userData (bcrypt_hash p (salt env)) (toLowerCase e)) in *.
  destruct (created_saved env newUser users st Hgrow)
    as (_ & hashed & Hpre & Hcoll & _).
  pose proof (email_key_stored (mongo env) _ hashed Hpre) as Hkey.
  unfold newUser in Hkey. rewrite email_key_dual_doc in Hkey. fold newUser in Hkey.
  assert (Hu : users_of (created env newUser users st)
               = JSON_roundtrip <$> (users ++ [newUser])%list)
    by (unfold users_of; rewrite created_usersFile; reflexivity).
  rewrite Hu, Hcoll.
  unfold mirrored in *. rewrite Forall_fmap, Forall_app. split.
  - eapply Forall_impl; [exact Hmir|].
    intros u (e0 & He0 & Hex). exists e0. split.
    + apply get_JSON_roundtrip_Str. exact He0.
    + apply existsb_app_l. exact Hex.
  - apply Forall_singleton. exists (toLowerCase e). split.
    + apply get_JSON_roundtrip_Str. apply newUser_email.
    + rewrite existsb_app. cbn [existsb].
      rewrite Hkey. cbn [strict_eq].
      rewrite String.eqb_refl. cbn [orb]. apply orb_true_r.
Qed.

Lemma migrate_loop_mirrored envs db users :
  mirrored users db ->
  (forall n, findOne_throws (store (envs n)) = false) ->
  forall i s,
    migrate_loop envs i users s db
    = (mkSummary (migratedCount s) (skippedCount s + length users) (errorCount s) (total s),
       replicate (length users) Skipped, db).
Proof.
  intros Hmir Hno. induction Hmir as [|u users (e & He & Hex) _ IH]; intros i s.
  - cbn [migrate_loop length replicate]. rewrite Nat.add_0_r. destruct s; reflexivity.
  - cbn [migrate_loop].
    destruct (existsb_find_Some _ _ Hex) as [x Hx].
    rewrite (migrate_one_found (envs i) u db (Str (trim (toLowerCase e))) x);
      [|rewrite He; reflexivity | exact Hx].
    rewrite (Hno i), IH.
    cbn [count migratedCount skippedCount errorCount total length replicate].
    replace (S (skippedCount s) + length users)%nat
      with (skippedCount s + S (length users))%nat by lia.
    reflexivity.
Qed.

(** X22. When the two stores are in step the migration has nothing to
    do: if every record of the file has a document under the key of its
    email and the lookups do not fail, [migrateUsers] reports every
    record as skipped, none as migrated or failed, and leaves the
    collection as it is. *)
Theorem migrateUsers_mirrored envs users db :
  mirrored users db ->
  (forall n, findOne_throws (store (envs n)) = false) ->
  users <> [] ->
  migrateUsers true envs (Some users) db
  = (Some (mkSummary 0 (length users) 0 (length users),
           replicate (length users) Skipped), db).
Proof.
  intros Hmir Hno Hne. unfold migrateUsers. cbn [negb readUsersFromFile]. cbv iota zeta.
  destruct users as [|u users]; [destruct Hne; reflexivity|].
  cbn [length Nat.eqb]. cbv iota.
  rewrite (migrate_loop_mirrored envs db (u :: users) Hmir Hno).
  reflexivity.
Qed.

Lemma convertUser_get now user u k :
  convertUser now user = inr u ->
  k ∈ ["name"; "email"; "password"; "phone"] ->
  get u k = get user k.
Proof.
  unfold convertUser.
  destruct (id_toString _) as [?|id]; [intros H; discriminate H|].
  destruct (iso_or (get user "dateOfBirth") Null) as [?|dob]; [intros H; discriminate H|].
  destruct (iso_or (get user "createdAt") _) as [?|cr]; [intros H; discriminate H|].
  destruct (iso_or (get user "updatedAt") _) as [?|up]; [intros H; discriminate H|].
  destruct (iso_or (get user "lastLogin") Null) as [?|ll]; [intros H; discriminate H|].
  intros H. apply inr_eq_inv in H. subst u.
  rewrite !elem_of_cons.
  intros [-> | [-> | [-> | [-> | Hk]]]]; [vm_compute; reflexivity ..|].
  apply elem_of_nil in Hk. destruct Hk.
Qed.

Lemma convertUser_id now user u :
  convertUser now user = inr u ->
  id_toString (get user "_id") = inr (get u "_id").
Proof.
  unfold convertUser.
  destruct (id_toString _) as [?|id]; [intros H; discriminate H|].
  destruct (iso_or (get user "dateOfBirth") Null) as [?|dob]; [intros H; discriminate H|].
  destruct (iso_or (get user "createdAt") _) as [?|cr]; [intros H; discriminate H|].
  destruct (iso_or (get user "updatedAt") _) as [?|up]; [intros H; discriminate H|].
  destruct (iso_or (get user "lastLogin") Null) as [?|ll]; [intros H; discriminate H|].
  intros H. apply inr_eq_inv in H. subst u. f_equal.
Qed.

Lemma existsb_elem {A} (f : A -> bool) (l : list A) x :
  x ∈ l -> f x = true -> existsb f l = true.
Proof.
  intros Hin Hx. apply existsb_exists. exists x.
  split; [apply list_elem_of_In; exact Hin | exact Hx].
Qed.

Lemma serialized_mirrored now db0 :
  forall db users,
    (forall d, d ∈ db -> d ∈ db0) ->
    normalised_emails db ->
    Forall2 (serialized now) db users ->
    mirrored users db0.
Proof.
  intros db users Hsub Hnorm Hser. revert Hsub Hnorm.
  induction Hser as [|doc u db users Hs _ IH]; intros Hsub Hnorm; [constructor|].
  apply Forall_cons_1 in Hnorm as [(s & Hs' & Hid) Hnorm].
  constructor.
  - exists s. split.
    + destruct Hs as (_ & Hcopy & _).
      rewrite (Hcopy "email"), shown_email, Hs'; [reflexivity|].
      unfold copied_paths. rewrite !elem_of_cons. right; left; reflexivity.
    + apply (existsb_elem _ db0 doc).
      * apply Hsub. apply list_elem_of_here.
      * unfold email_key. rewrite Hs', Hid. cbn [strict_eq]. apply String.eqb_refl.
  - apply IH; [|exact Hnorm].
    intros d Hd. apply Hsub. apply list_elem_of_further. exact Hd.
Qed.

Lemma convertUsers_length now db :
  forall converted, convertUsers now db = inr converted -> length converted = length db.
Proof.
  intros converted H. apply convertUsers_Forall2 in H.
  symmetry. exact (Forall2_length _ _ _ H).
Qed.

(** X23. A sync to the file followed by a migration back changes
    nothing: when the collection is not empty, its documents are as
    MongoDB holds them, with emails trimmed and lowercased as the model
    stores them, the sync is connected and its query does not fail, and
    no lookup of the migration fails, a run of [migrateUsers] on the
    file the sync wrote finds every record in the collection, reports
    all of them as skipped and inserts nothing. *)
Theorem sync_then_migrate now file db envs :
  normalised_emails db ->
  forallb stored_document db = true ->
  (forall n, findOne_throws (store (envs n)) = false) ->
  db <> [] ->
  migrateUsers true envs (syncFromMongoToFile true false now file db) db
  = (Some (mkSummary 0 (length db) 0 (length db), replicate (length db) Skipped), db).
Proof.
  intros Hnorm Hdb Hno Hne.
  destruct (convertUsers_stored now db Hdb) as (converted & Hconv & Hser).
  unfold syncFromMongoToFile, User_find. cbn [negb]. cbv iota zeta.
  rewrite Hconv.
  pose proof (Forall2_length _ _ _ Hser) as Hlen.
  pose proof (serialized_mirrored now db db _ (fun d H => H) Hnorm Hser) as Hmir.
  assert (Hne' : JSON_roundtrip <$> converted <> []).
  { intros Hnil. rewrite Hnil in Hlen. destruct db; [destruct Hne; reflexivity|].
    discriminate Hlen. }
  unfold migrateUsers. cbn [negb readUsersFromFile]. cbv iota zeta.
  destruct (JSON_roundtrip <$> converted) as [|u us] eqn:Hus; [destruct Hne'; reflexivity|].
  cbn [length Nat.eqb]. cbv iota.
  rewrite (migrate_loop_mirrored envs db (u :: us) Hmir Hno).
  cbn [migratedCount skippedCount errorCount total].
  cbn [length] in Hlen |- *. rewrite Nat.add_0_l, <- Hlen. reflexivity.
Qed.

(** X24. What the sync copies: when [syncFromMongoToFile] completes,
    the file has one record per document, at the same position; the
    record carries the identifier of MongoDB as a string, and the name,
    the email, the password hash and the phone of the document as they
    are stored there. *)
Theorem syncFromMongoToFile_copies now file db i doc :
  succeeded (convertUsers now (User_find db)) = true ->
  db !! i = Some doc ->
  exists users fileUser,
    syncFromMongoToFile true false now file db = Some users
    /\ length users = length db
    /\ users !! i = Some fileUser
    /\ (forall h, get doc "_id" = ObjectId h -> get fileUser "_id" = Str h)
    /\ (forall k s, k ∈ ["name"; "email"; "password"; "phone"] ->
                    get doc k = Str s -> get fileUser k = Str s).
Proof.
  intros Hok Hdoc.
  unfold syncFromMongoToFile. cbn [negb]. cbv iota zeta.
  destruct (convertUsers now (User_find db)) as [err|converted] eqn:Hconv;
    [discriminate Hok|].
  unfold User_find in Hconv.
  pose proof (convertUsers_Forall2 now _ converted Hconv) as Hall.
  apply Forall2_fmap_l in Hall.
  destruct (Forall2_lookup_l _ _ _ _ _ Hall Hdoc) as (u & Hu & Hcu).
  cbv beta in Hcu.
  exists (JSON_roundtrip <$> converted), (JSON_roundtrip u).
  split; [reflexivity|].
  split; [rewrite length_fmap; symmetry; exact (Forall2_length _ _ _ Hall)|].
  split; [rewrite list_lookup_fmap, Hu; reflexivity|].
  split.
  - intros h Hid. apply get_JSON_roundtrip_Str.
    pose proof (convertUser_id now _ u Hcu) as Hi.
    rewrite get_hydrate, (shown_id doc h Hid) in Hi.
    cbn [id_toString] in Hi. apply inr_eq_inv in Hi. symmetry. exact Hi.
  - intros k s Hk Hs. apply get_JSON_roundtrip_Str.
    rewrite (convertUser_get now _ u k Hcu Hk), get_hydrate.
    apply shown_plain; [exact Hs | discriminate|].
    intros ->. rewrite !elem_of_cons in Hk.
    destruct Hk as [Hk | [Hk | [Hk | [Hk | Hk]]]]; try discriminate Hk.
    apply elem_of_nil in Hk. destruct Hk.
Qed.

Lemma canonical_lookup_password fileUser p :
  get fileUser "password" = Str p ->
  canonical fileUser !! "password" = Some (Str p).
Proof.
  intros Hp. unfold canonical. rewrite lookup_union, map_lookup_imap.
  assert (Hb : mongoUser_base fileUser !! "password" = Some (get fileUser "password"))
    by (vm_compute; reflexivity).
  rewrite Hb, Hp. reflexivity.
Qed.

(** X25. The migration hashes the stored hash again: the document
    [migrateUsers] inserts for a record of the file does not carry the
    password of the record, which is already a hash, but the hash the
    pre-save hook computes of it, under an identifier assigned by
    MongoDB. *)
Theorem migrate_one_hashes_again env fileUser db p :
  fst (migrate_one env fileUser db) = Migrated ->
  get fileUser "password" = Str p ->
  exists doc,
    snd (migrate_one env fileUser db) = (db ++ [doc])%list
    /\ get doc "password" = Str (bcrypt_hash p (hookSalt (store env)))
    /\ get doc "_id" = ObjectId (objectId (store env)).
Proof.
  unfold migrate_one.
  destruct (User_findOne _ _ _) as [err|[existing|]];
    [intros H; discriminate H | intros H; discriminate H |].
  destruct (User_save _ _ _) as [err|db1] eqn:Hsave; [intros H; discriminate H|].
  intros _ Hp. cbn [snd].
  destruct (User_save_inv _ _ _ _ Hsave) as (hashed & Hpre & -> & _).
  assert (Hpw : fields (User_new (store env) (mongoUser_of env fileUser)) !! "password"
                = Some (Str p)).
  { rewrite fields_User_new_lookup by discriminate.
    apply canonical_lookup_password. exact Hp. }
  rewrite (pre_save_hashes _ _ _ Hpw) in Hpre. apply inr_eq_inv in Hpre. subst hashed.
  eexists. split; [reflexivity|]. split.
  - rewrite get_timestamps by discriminate. apply get_insert_eq.
  - rewrite get_timestamps by discriminate.
    rewrite get_insert_ne by discriminate. apply User_new_id.
Qed.

(** ** The file-only back end and the sibling routes *)

Lemma FileDatabase_find_email_taken users e :
  Forall (fun u => exists s, get u "email" = Str s) users ->
  email_taken e users ->
  exists u, FileDatabase_find_email users (Str e) = inr (Some u).
Proof.
  intros Hstr (w & e' & Hin & Hw & Hci).
  induction Hstr as [|u users (s & Hs) _ IH]; [apply elem_of_nil in Hin; destruct Hin|].
  cbn [FileDatabase_find_email]. rewrite Hs. cbn [value_toLowerCase].
  destruct (String.eqb (toLowerCase s) (toLowerCase e)) eqn:Heq;
    [exists u; reflexivity|].
  apply elem_of_cons in Hin as [-> | Hin]; [|exact (IH Hin)].
  rewrite Hs in Hw. injection Hw as <-.
  rewrite Hci, String.eqb_refl in Heq. discriminate Heq.
Qed.

Lemma FileDatabase_find_email_fresh users e :
  Forall (fun u => exists s, get u "email" = Str s) users ->
  ~ email_taken e users ->
  FileDatabase_find_email users (Str e) = inr None.
Proof.
  intros Hstr Hfresh.
  induction Hstr as [|u users (s & Hs) _ IH]; [reflexivity|].
  cbn [FileDatabase_find_email]. rewrite Hs. cbn [value_toLowerCase].
  destruct (String.eqb (toLowerCase s) (toLowerCase e)) eqn:Heq.
  - exfalso. apply Hfresh. exists u, s. split; [apply list_elem_of_here|].
    split; [exact Hs | apply String.eqb_eq; exact Heq].
  - apply IH. intros (w & e' & Hin & Hw & Hci). apply Hfresh.
    exists w, e'. split; [apply list_elem_of_further; exact Hin|]. split; assumption.
Qed.

(** X26. The file back end refuses a taken email whatever its case and
    whatever the file holds: when every record of [users.json] has a
    string email and one of them carries the email of the payload up to
    case, [findUserByEmail] finds a record and [createUser] throws
    'User with this email already exists', which the route answers with
    409, before it hashes anything, and writes nothing. *)
Theorem FileDatabase_createUser_conflict env userData fd e :
  Forall (fun u => exists s, get u "email" = Str s) (FileDatabase_readUsers fd) ->
  get userData "email" = Str e ->
  email_taken e (FileDatabase_readUsers fd) ->
  FileDatabase_createUser env userData fd = (inl duplicate_error, fd)
  /\ error_response duplicate_error = Conflict "User with this email already exists"
  /\ exists u, FileDatabase_findUserByEmail (Str e) fd = inr (Some u).
Proof.
  intros Hstr He Htaken.
  destruct (FileDatabase_find_email_taken _ e Hstr Htaken) as [u Hu].
  split; [|split; [reflexivity | exists u; exact Hu]].
  unfold FileDatabase_createUser. cbv zeta. rewrite He, Hu.
  reflexivity.
Qed.

Lemma FileDatabase_newUser_email env userData h e :
  get (FileDatabase_newUser env userData h e) "email" = Str e.
Proof. vm_compute. reflexivity. Qed.

(** The call on a payload with a string password and a fresh string
    email. *)
Lemma FileDatabase_createUser_fresh env userData fd e p :
  Forall (fun u => exists s, get u "email" = Str s) (FileDatabase_readUsers fd) ->
  get userData "email" = Str e ->
  get userData "password" = Str p ->
  ~ email_taken e (FileDatabase_readUsers fd) ->
  let newUser :=
    FileDatabase_newUser env userData (bcrypt_hash p (file_salt env)) (toLowerCase e) in
  FileDatabase_createUser env userData fd
  = (inr (delete "password" newUser),
     snd (FileDatabase_updateStats env
            (snd (FileDatabase_saveUsers (users_write_fails env)
                    (FileDatabase_readUsers fd ++ [newUser])%list fd)))).
Proof.
  intros Hstr He Hp Hfresh newUser.
  unfold FileDatabase_createUser. cbv zeta. rewrite He, Hp.
  rewrite (FileDatabase_find_email_fresh _ e Hstr Hfresh).
  reflexivity.
Qed.

Lemma FileDatabase_updateStats_usersFile env fd :
  db_usersFile (snd (FileDatabase_updateStats env fd)) = db_usersFile fd.
Proof.
  unfold FileDatabase_updateStats. cbv zeta.
  destruct (stats_write_fails env); reflexivity.
Qed.

(** X27. The two back ends agree on the file: when [users.json] holds
    lowercase, pairwise distinct emails and the file back end creates a
    user, its write succeeding, the file keeps that form; and a
    coordinator that reads the file afterwards refuses the same email,
    in any case, with its conflict error. *)
Theorem FileDatabase_createUser_then_dual env userData fd e p :
  lowercase_emails (FileDatabase_readUsers fd) ->
  unique_emails (FileDatabase_readUsers fd) ->
  get userData "email" = Str e ->
  get userData "password" = Str p ->
  ~ email_taken e (FileDatabase_readUsers fd) ->
  users_write_fails env = false ->
  exists users',
    db_usersFile (snd (FileDatabase_createUser env userData fd)) = Some users'
    /\ lowercase_emails users'
    /\ unique_emails users'
    /\ forall st env' userData' e' p',
         usersFile st = Some users' ->
         get userData' "email" = Str e' ->
         get userData' "password" = Str p' ->
         toLowerCase e' = toLowerCase e ->
         createUser env' userData' st = (inl duplicate_error, st).
Proof.
  intros Hlow Huniq He Hp Hfresh Hw.
  assert (Hstr : Forall (fun u => exists s, get u "email" = Str s)
                   (FileDatabase_readUsers fd)).
  { eapply Forall_impl; [exact Hlow|]. intros u (s & Hs & _). exists s. exact Hs. }
  rewrite (FileDatabase_createUser_fresh env userData fd e p Hstr He Hp Hfresh).
  cbn [snd]. rewrite FileDatabase_updateStats_usersFile.
  unfold FileDatabase_saveUsers. rewrite Hw. cbn [snd db_usersFile].
  set (newUser := FileDatabase_newUser env userData (bcrypt_hash p (file_salt env))
                    (toLowerCase e)).
  assert (Hnew : get newUser "email" = Str (toLowerCase e))
    by apply FileDatabase_newUser_email.
  eexists. split; [reflexivity|].
  split; [exact (lowercase_emails_created _ newUser e Hlow Hnew)|].
  split; [exact (unique_emails_created _ newUser e Hlow Huniq Hnew
                   (not_taken_find e _ Hfresh))|].
  intros st env' userData' e' p' Hf He' Hp' Hci.
  destruct (find_app_last
              (fun u => strict_eq (get u "email") (Str (toLowerCase e')))
              (JSON_roundtrip <$> FileDatabase_readUsers fd) (JSON_roundtrip newUser))
    as [y Hy].
  { apply strict_eq_Str. rewrite Hci. apply get_JSON_roundtrip_Str. exact Hnew. }
  apply (createUser_duplicate env' userData' st e' p' _ y He' Hp' Hf).
  rewrite fmap_app. exact Hy.
Qed.

(** X28. The file back end does not notice a failed write: when the
    write of [users.json] fails, [createUser] still returns the new
    user, without its password, although the file is as it was and the
    user is in no store. *)
Theorem FileDatabase_createUser_lost_write env userData fd e p :
  Forall (fun u => exists s, get u "email" = Str s) (FileDatabase_readUsers fd) ->
  get userData "email" = Str e ->
  get userData "password" = Str p ->
  ~ email_taken e (FileDatabase_readUsers fd) ->
  users_write_fails env = true ->
  exists record,
    fst (FileDatabase_createUser env userData fd) = inr record
    /\ get record "email" = Str (toLowerCase e)
    /\ record !! "password" = None
    /\ db_usersFile (snd (FileDatabase_createUser env userData fd)) = db_usersFile fd
    /\ ~ email_taken e
         (FileDatabase_readUsers (snd (FileDatabase_createUser env userData fd))).
Proof.
  intros Hstr He Hp Hfresh Hw.
  rewrite (FileDatabase_createUser_fresh env userData fd e p Hstr He Hp Hfresh).
  cbn [fst snd]. eexists. split; [reflexivity|].
  split; [rewrite get_delete_ne by discriminate; apply FileDatabase_newUser_email|].
  split; [apply lookup_delete_eq|].
  assert (Hsame : db_usersFile
                    (snd (FileDatabase_updateStats env
                            (snd (FileDatabase_saveUsers (users_write_fails env)
                                    (FileDatabase_readUsers fd ++
                                     [FileDatabase_newUser env userData
                                        (bcrypt_hash p (file_salt env)) (toLowerCase e)])%list
                                    fd))))
                  = db_usersFile fd).
  { rewrite FileDatabase_updateStats_usersFile.
    unfold FileDatabase_saveUsers. rewrite Hw. reflexivity. }
  split; [exact Hsame|].
  unfold FileDatabase_readUsers at 1. rewrite Hsame. exact Hfresh.
Qed.

Lemma Array_insert_length compare x l :
  length (Array_insert compare x l) = S (length l).
Proof.
  induction l as [|y rest IH]; [reflexivity|].
  cbn [Array_insert]. destruct (in_order compare x y); cbn [length]; [reflexivity|].
  rewrite IH. reflexivity.
Qed.

Lemma Array_sort_length compare l : length (Array_sort compare l) = length l.
Proof.
  induction l as [|x rest IH]; [reflexivity|].
  cbn [Array_sort]. rewrite Array_insert_length, IH. reflexivity.
Qed.

Lemma Array_insert_Forall (P : Object -> Prop) compare x l :
  P x -> Forall P l -> Forall P (Array_insert compare x l).
Proof.
  intros Hx Hl. induction Hl as [|y rest Hy Hrest IH].
  - constructor; [exact Hx | constructor].
  - cbn [Array_insert]. destruct (in_order compare x y).
    + constructor; [exact Hx|]. constructor; assumption.
    + constructor; assumption.
Qed.

Lemma Array_sort_Forall (P : Object -> Prop) compare l :
  Forall P l -> Forall P (Array_sort compare l).
Proof.
  induction 1 as [|x rest Hx _ IH]; [constructor|].
  cbn [Array_sort]. apply Array_insert_Forall; assumption.
Qed.

Lemma Array_slice_length (l : list Object) (page limit : Z) :
  (1 <= page)%Z -> (1 <= limit)%Z ->
  Z.of_nat (length (Array_slice ((page - 1) * limit) ((page - 1) * limit + limit) l))
  = Z.min limit (Z.max 0 (Z.of_nat (length l) - (page - 1) * limit)).
Proof.
  intros Hp Hl. unfold Array_slice, relative_index. cbv zeta.
  assert (H0 : (0 <= (page - 1) * limit)%Z) by nia.
  destruct ((page - 1) * limit <? 0)%Z eqn:H1; [apply Z.ltb_lt in H1; lia|].
  destruct ((page - 1) * limit + limit <? 0)%Z eqn:H2; [apply Z.ltb_lt in H2; lia|].
  rewrite length_take, length_drop. lia.
Qed.

Lemma Array_slice_Forall (P : Object -> Prop) start end_ l :
  Forall P l -> Forall P (Array_slice start end_ l).
Proof. intros H. unfold Array_slice. cbv zeta. apply Forall_take, Forall_drop. exact H. Qed.

(** X29. A page of the file back end: for a page number and a page size
    of at least one, [getAllUsers] returns the users of that page, as
    many as the size allows and the total leaves; the number of pages is
    the total divided by the size, rounded up; a page is empty exactly
    when it lies beyond the last one; and no returned user has a
    password. *)
Theorem FileDatabase_getAllUsers_page page limit status fd :
  (1 <= page)%Z ->
  (1 <= limit)%Z ->
  let r := FileDatabase_getAllUsers page limit status fd in
  Z.of_nat (length (page_users r))
  = Z.min limit (Z.max 0 (page_total r - (page - 1) * limit))
  /\ (exists pages,
        page_totalPages r = Some pages
        /\ ((pages - 1) * limit < page_total r <= pages * limit)%Z
        /\ (page_users r = [] <-> (pages < page)%Z))
  /\ (0 <= page_total r <= Z.of_nat (length (FileDatabase_readUsers fd)))%Z
  /\ Forall (fun u : Object => u !! "password" = None) (page_users r).
Proof.
  intros Hp Hl r. unfold r, FileDatabase_getAllUsers. cbv zeta.
  cbn [page_users page_total page_totalPages].
  set (filtered := if truthy status
                   then List.filter (fun user => strict_eq (get user "status") status)
                          (FileDatabase_readUsers fd)
                   else FileDatabase_readUsers fd).
  set (sorted := Array_sort newest_first (delete "password" <$> filtered)).
  assert (Hlen : length sorted = length filtered).
  { unfold sorted. rewrite Array_sort_length, length_fmap. reflexivity. }
  assert (Hle : (length filtered <= length (FileDatabase_readUsers fd))%nat).
  { unfold filtered. destruct (truthy status); [apply filter_length_le | lia]. }
  pose proof (Array_slice_length sorted page limit Hp Hl) as Hsize.
  split; [exact Hsize|].
  split.
  - unfold Math_ceil_div.
    destruct (limit =? 0)%Z eqn:H0; [apply Z.eqb_eq in H0; lia|].
    eexists. split; [reflexivity|].
    pose proof (Z.div_mod (- Z.of_nat (length sorted)) limit ltac:(lia)) as Hdm.
    pose proof (Z.mod_pos_bound (- Z.of_nat (length sorted)) limit ltac:(lia)) as Hmb.
    set (q := (- Z.of_nat (length sorted) / limit)%Z) in *.
    set (m := (- Z.of_nat (length sorted) mod limit)%Z) in *.
    split; [nia|].
    split.
    + intros Hnil. apply (f_equal length) in Hnil. cbn [length] in Hnil. nia.
    + intros Hlt.
      apply length_zero_iff_nil. nia.
  - split; [lia|].
    apply Array_slice_Forall. unfold sorted.
    apply Array_sort_Forall, Forall_delete_password.
Qed.

Lemma get_fileRoute_flag_ne k k' processedBody :
  k <> k' -> get (fileRoute_flag k processedBody) k' = get processedBody k'.
Proof.
  intros Hne. unfold fileRoute_flag.
  destruct (truthy _); [apply get_insert_ne; exact Hne | reflexivity].
Qed.

Lemma get_fileRoute_preprocess_terms body :
  get (fileRoute_preprocess body) "terms_accepted"
  = if truthy (get body "terms_accepted")
    then Bool (strict_eq (get body "terms_accepted") (Str "true")
               || strict_eq (get body "terms_accepted") (Bool true))
    else get body "terms_accepted".
Proof.
  unfold fileRoute_preprocess. cbv zeta.
  rewrite get_empty_to_null by discriminate.
  unfold fileRoute_flag at 1.
  rewrite !get_fileRoute_flag_ne by discriminate.
  destruct (truthy (get body "terms_accepted")).
  - apply get_insert_eq.
  - apply get_fileRoute_flag_ne. discriminate.
Qed.

Lemma mongoRoute_terms_true v v' :
  Joi_validate mongoRoute_terms v = Some v' -> v' = Bool true.
Proof.
  unfold mongoRoute_terms. cbn [Joi_validate].
  destruct (existsb _ _) eqn:Hex; [|discriminate].
  intros H. apply Some_inj in H. subst v'.
  cbn [existsb] in Hex. rewrite orb_false_r in Hex.
  destruct (Joi_coerce JoiBoolean v) as [| |[]| | | | |]; try discriminate Hex.
  reflexivity.
Qed.

Lemma fileRoute_accepted_true body v' :
  Joi_validate fileRoute_terms (get (fileRoute_preprocess body) "terms_accepted") = Some v' ->
  v' = Bool true
  /\ (get body "terms_accepted" = Bool true \/ get body "terms_accepted" = Str "true").
Proof.
  intros Hval. rewrite get_fileRoute_preprocess_terms in Hval.
  destruct (get body "terms_accepted") as [| |b|n|s|d|h|l] eqn:Hraw;
    cbn [truthy] in Hval.
  - vm_compute in Hval. discriminate Hval.
  - vm_compute in Hval. discriminate Hval.
  - destruct b; [|vm_compute in Hval; discriminate Hval].
    cbn in Hval. apply Some_inj in Hval. subst v'.
    split; [reflexivity | left; reflexivity].
  - destruct (negb (n =? 0)%Z); vm_compute in Hval; discriminate Hval.
  - destruct (negb (String.eqb s "")) eqn:Hs.
    + cbn [strict_eq orb] in Hval. rewrite orb_false_r in Hval.
      destruct (String.eqb s "true") eqn:Ht.
      * apply String.eqb_eq in Ht. subst s.
        cbn in Hval. apply Some_inj in Hval. subst v'.
        split; [reflexivity | right; reflexivity].
      * vm_compute in Hval. discriminate Hval.
    + apply negb_false_iff, String.eqb_eq in Hs. subst s.
      vm_compute in Hval. discriminate Hval.
  - vm_compute in Hval. discriminate Hval.
  - vm_compute in Hval. discriminate Hval.
  - vm_compute in Hval. discriminate Hval.
Qed.

(** X30. The sibling routes do enforce the consent: under the schema
    of the file route, applied to a body that went through its
    preprocessing, and under the schema of the MongoDB route, applied to
    the raw body, an accepted object carries [terms_accepted] as the
    boolean [true]; on the file route the raw flag was then [true] or
    the string 'true'.  This holds whatever the other keys of the
    schema are. *)
Theorem sibling_routes_require_consent keys body value :
  (Joi_key keys "terms_accepted" = Some (required fileRoute_terms)
   /\ Joi_object keys (fileRoute_preprocess body) = Some value)
  \/ (Joi_key keys "terms_accepted" = Some (required mongoRoute_terms)
      /\ Joi_object keys body = Some value) ->
  get value "terms_accepted" = Bool true
  /\ (Joi_key keys "terms_accepted" = Some (required fileRoute_terms) ->
      Joi_object keys (fileRoute_preprocess body) = Some value ->
      get body "terms_accepted" = Bool true \/ get body "terms_accepted" = Str "true").
Proof.
  intros Hcase. split.
  - destruct Hcase as [[Hkey Hobj] | [Hkey Hobj]];
      destruct (Joi_object_get keys _ value "terms_accepted" _ Hobj Hkey)
        as [(_ & Hreq & _) | (v' & Hval & Hv)]; try discriminate Hreq;
      cbn [key_schema required] in Hval; unfold get; rewrite Hv.
    + destruct (fileRoute_accepted_true body v' Hval) as [-> _]. reflexivity.
    + rewrite (mongoRoute_terms_true _ v' Hval). reflexivity.
  - intros Hkey Hobj.
    destruct (Joi_object_get keys _ value "terms_accepted" _ Hobj Hkey)
      as [(_ & Hreq & _) | (v' & Hval & Hv)]; [discriminate Hreq|].
    cbn [key_schema required] in Hval.
    exact (proj2 (fileRoute_accepted_true body v' Hval)).
Qed.

End Backend.

(** ** The statements on the sample inputs

    The samples are evaluated with [standin_library]. *)

#[local] Existing Instance standin_library.

Example toLowerCase_ex : toLowerCase "JANE@X.COM" = "jane@x.com".
Proof. reflexivity. Qed.

Example trim_ex : trim "  a b  " = "a b".
Proof. reflexivity. Qed.

Example includes_ex :
  includes "already exists" "User with this email already exists" = true.
Proof. reflexivity. Qed.

(** The end-to-end example: Jane registers with an upper-case email on
    a file-only back end, then submits the same payload again. *)
Example end_to_end_first :
  let r := createUser standin_hash accept_all sample_env sample_userData sample_file_only in
  match fst r with
  | inr user => get user "email" = Str "jane@x.com"
                /\ get user "_id" = Str "110ec58a-a0f2-4ac4-8393-c866d813b8d1"
                /\ get user "status" = Str "active"
  | inl _ => False
  end
  /\ mode (getStorageStatus (snd r)) = "file-only"
  /\ length (users_of (snd r)) = 1%nat.
Proof. vm_compute. repeat split. Qed.

Example end_to_end_again :
  let st := snd (createUser standin_hash accept_all sample_env sample_userData
                   sample_file_only) in
  let r := createUser standin_hash accept_all sample_env2 sample_userData st in
  match fst r with
  | inl error => error_response error = Conflict "User with this email already exists"
  | inr _ => False
  end
  /\ length (users_of (snd r)) = 1%nat.
Proof. vm_compute. repeat split. Qed.

(** The destructive sync on the example: A and B in MongoDB, A and C in
    the file; afterwards the file holds A and B, with the identifiers of
    MongoDB. *)
Example sync_example :
  option_map (List.map (fun u : Object =>
                          (get u "_id", get u "email", get u "loginCount",
                           get u "newsletterSubscription", get u "lastLogin",
                           get u "createdAt")))
    (syncFromMongoToFile true false "2024-06-01T00:00:00.000Z"
       (Some sample_users) sample_collection)
  = Some [(Str "65f000000000000000000001", Str "a@x.com", Num 0, Bool false, Null,
           Str "2024-04-01T00:00:00.000Z");
          (Str "65f000000000000000000002", Str "b@x.com", Num 0, Bool false, Null,
           Str "2024-04-01T00:00:00.000Z")].
Proof. vm_compute. reflexivity. Qed.

Example sync_example_profilePhoto :
  option_map (List.map (fun u : Object => get u "profilePhoto"))
    (syncFromMongoToFile true false "2024-06-01T00:00:00.000Z"
       (Some sample_users) sample_collection)
  = Some [profilePhoto_default; profilePhoto_default].
Proof. vm_compute. reflexivity. Qed.

(** Jane registers again, in another case, on the dual back end. *)
Lemma createUser_taken_email_conflict_witness :
  exists error,
    createUser standin_hash accept_all sample_env2 sample_userData
      (sample_registered standin_hash accept_all)
    = (inl error, sample_registered standin_hash accept_all)
    /\ includes "already exists" (message error) = true
    /\ error_response error = Conflict "User with this email already exists"
    /\ status_code (error_response error) = 409%Z.
Proof.
  apply (createUser_taken_email_conflict standin_hash accept_all
           (sample_registered standin_hash accept_all) sample_env2 sample_userData
           "JANE@X.COM" "secret1").
  - destruct (reachable_store_inv standin_hash accept_all
                (sample_registered standin_hash accept_all))
      as (users & Hf & Hlow & _).
    + apply reachable_createUser. apply reachable_init.
    + unfold users_of. rewrite Hf. exact Hlow.
  - vm_compute. reflexivity.
  - vm_compute. reflexivity.
  - exists (default ∅ (head (users_of (sample_registered standin_hash accept_all)))),
      "jane@x.com".
    split; [|split; vm_compute; reflexivity].
    apply head_default_elem. vm_compute. constructor.
Defined.

(** On a file that another tool wrote with the email 'Jane@X.com', the
    payload with that email in capitals is not refused: the exact
    comparison of [saveToFile] looks for 'jane@x.com'. *)
Lemma createUser_taken_email_counterexample :
  ~ (forall (lib : Library) (bcrypt_hash : string -> string -> string)
            (userSchema_validators : string -> Object -> bool)
            st env userData e p,
        get userData "email" = Str e ->
        get userData "password" = Str p ->
        email_taken e (users_of st) ->
        exists error,
          createUser bcrypt_hash userSchema_validators env userData st
          = (inl error, st)).
Proof.
  intros Hconflict.
  destruct (Hconflict standin_library standin_hash accept_all sample_foreign sample_env
              sample_userData "JANE@X.COM" "secret1") as [error Herr].
  - vm_compute. reflexivity.
  - vm_compute. reflexivity.
  - exists (default ∅ (head (users_of sample_foreign))), "Jane@X.com".
    split; [apply list_elem_of_here|]. split; vm_compute; reflexivity.
  - apply (f_equal (fun r => succeeded (fst r))) in Herr.
    vm_compute in Herr. discriminate Herr.
Qed.


Example absorbed_failure :
  let r := createUser standin_hash accept_all sample_env_down sample_userData sample_dual in
  succeeded (fst r) = true
  /\ length (users_of (snd r)) = 1%nat
  /\ collection (snd r) = []
  /\ mode (getStorageStatus (snd r)) = "dual".
Proof. vm_compute. repeat split. Qed.


(** Jane registers on the dual back end: the document of the
    collection carries the hash of the hash. *)
Lemma dual_write_password_hashed_again_witness :
  exists fileUser doc,
    usersFile (snd (createUser standin_hash accept_all sample_env sample_userData
                      sample_dual))
    = Some ((JSON_roundtrip <$> []) ++ [fileUser])%list
    /\ collection (snd (createUser standin_hash accept_all sample_env sample_userData
                         sample_dual))
       = (collection sample_dual ++ [doc])%list
    /\ get fileUser "password" = Str (standin_hash "secret1" (salt sample_env))
    /\ get doc "password"
       = Str (standin_hash (standin_hash "secret1" (salt sample_env))
                (hookSalt (mongo sample_env))).
Proof.
  apply (dual_write_password_hashed_again standin_hash accept_all
           sample_dual sample_env sample_userData "JANE@X.COM" "secret1" []).
  - vm_compute. reflexivity.
  - vm_compute. reflexivity.
  - vm_compute. reflexivity.
  - intros (u & e' & Hin & _). apply elem_of_nil in Hin. exact Hin.
  - vm_compute. reflexivity.
Defined.

Example hashed_twice :
  standin_hash (standin_hash "secret1" (salt sample_env)) (hookSalt (mongo sample_env))
  = "$2a$12$hooksalt$$2a$12$salt$secret1"
  /\ standin_hash "secret1" (salt sample_env) = "$2a$12$salt$secret1".
Proof. split; reflexivity. Qed.

(** One identifier for both stores does not hold on Jane's
    registration: the last record of the file has the UUID of the
    coordinator, the last document of the collection the ObjectId of
    MongoDB. *)
Lemma dual_write_same_identifier_counterexample :
  ~ (forall (lib : Library) (bcrypt_hash : string -> string -> string)
            (userSchema_validators : string -> Object -> bool)
            st env userData e p users fileUser doc,
        get userData "email" = Str e ->
        get userData "password" = Str p ->
        usersFile st = Some users ->
        ~ email_taken e users ->
        length (collection (snd (createUser bcrypt_hash userSchema_validators
                                   env userData st)))
        = S (length (collection st)) ->
        last (users_of (snd (createUser bcrypt_hash userSchema_validators
                               env userData st))) = Some fileUser ->
        last (collection (snd (createUser bcrypt_hash userSchema_validators
                                 env userData st))) = Some doc ->
        id_toString (get doc "_id") = id_toString (get fileUser "_id")).
Proof.
  intros Hsame.
  specialize (Hsame standin_library standin_hash accept_all sample_dual sample_env
                sample_userData
                "JANE@X.COM" "secret1" []
                (default ∅ (last (users_of (sample_registered standin_hash accept_all))))
                (default ∅ (last (collection (sample_registered standin_hash accept_all))))).
  assert (Hids : id_toString
                   (get (default ∅ (last (collection
                                            (sample_registered standin_hash accept_all))))
                        "_id")
                 = id_toString
                     (get (default ∅ (last (users_of
                                             (sample_registered standin_hash accept_all))))
                          "_id")).
  { apply Hsame.
    - vm_compute. reflexivity.
    - vm_compute. reflexivity.
    - vm_compute. reflexivity.
    - intros (u & e' & Hin & _). apply elem_of_nil in Hin. exact Hin.
    - vm_compute. reflexivity.
    - apply last_default. vm_compute. constructor.
    - apply last_default. vm_compute. constructor. }
  vm_compute in Hids. discriminate Hids.
Qed.

Lemma dual_write_identifiers_witness :
  exists fileUser doc,
    usersFile (snd (createUser standin_hash accept_all sample_env sample_userData
                      sample_dual))
    = Some ((JSON_roundtrip <$> []) ++ [fileUser])%list
    /\ collection (snd (createUser standin_hash accept_all sample_env sample_userData
                         sample_dual))
       = (collection sample_dual ++ [doc])%list
    /\ get fileUser "_id" = Str (uuid sample_env)
    /\ get doc "_id" = ObjectId (objectId (mongo sample_env))
    /\ get doc "_id" <> get fileUser "_id"
    /\ get fileUser "email" = Str (toLowerCase "JANE@X.COM")
    /\ get doc "email" = Str (trim (toLowerCase "JANE@X.COM")).
Proof.
  apply (dual_write_identifiers standin_hash accept_all
           sample_dual sample_env sample_userData "JANE@X.COM" "secret1" []).
  - vm_compute. reflexivity.
  - vm_compute. reflexivity.
  - vm_compute. reflexivity.
  - intros (u & e' & Hin & _). apply elem_of_nil in Hin. exact Hin.
  - vm_compute. reflexivity.
Defined.

(** The body with [terms_accepted: 'false'] is answered with 201 and its
    record is written. *)
Lemma register_persists_unaccepted_terms_witness :
  exists users fileUser,
    usersFile (snd (register standin_hash accept_all accept_text accept_text accept_text
                      sample_body_unaccepted None sample_env sample_dual))
    = Some (users ++ [fileUser])%list
    /\ get fileUser "termsAccepted" = Bool false.
Proof.
  apply (register_persists_unaccepted_terms standin_hash accept_all
           accept_text accept_text accept_text
           sample_body_unaccepted None sample_env sample_dual).
  - vm_compute. reflexivity.
  - vm_compute. reflexivity.
Defined.

Lemma createUser_returns_lowercase_email_no_password_witness :
  exists record st',
    createUser standin_hash accept_all sample_env sample_userData sample_file_only
    = (inr record, st')
    /\ get record "email" = Str (toLowerCase "JANE@X.COM")
    /\ record !! "password" = None.
Proof.
  apply (createUser_returns_lowercase_email_no_password standin_hash accept_all
           sample_file_only sample_env sample_userData "JANE@X.COM" "secret1" []).
  - vm_compute. reflexivity.
  - vm_compute. reflexivity.
  - vm_compute. reflexivity.
  - intros (u & e' & Hin & _). apply elem_of_nil in Hin. exact Hin.
Defined.




(** Jane and John register one after the other. *)
Lemma createUsers_totalUsers_witness :
  let st0 := snd (init "2024-05-01T09:00:00.000Z" 0 true (constructor true true [])) in
  exists users stats,
    usersFile (snd (createUsers standin_hash accept_all
                      [(sample_env, sample_userData); (sample_env2, sample_userData2)]
                      st0)) = Some users
    /\ statsFile (snd (createUsers standin_hash accept_all
                         [(sample_env, sample_userData); (sample_env2, sample_userData2)]
                         st0)) = Some stats
    /\ totalUsers stats = Z.of_nat (length users)
    /\ length users
       = length [(sample_env, sample_userData); (sample_env2, sample_userData2)].
Proof.
  apply (createUsers_totalUsers standin_hash accept_all
           "2024-05-01T09:00:00.000Z" 0%Z true true true []
           [(sample_env, sample_userData); (sample_env2, sample_userData2)]).
  vm_compute. reflexivity.
Defined.

Lemma reachable_emails_lowercase_unique_witness :
  exists users,
    usersFile (sample_registered standin_hash accept_all) = Some users
    /\ lowercase_emails users
    /\ (forall e userData,
          get userData "email" = Str (toLowerCase e) ->
          saveToFile userData (sample_registered standin_hash accept_all)
          = (inl duplicate_error, sample_registered standin_hash accept_all)
          <-> email_taken e users)
    /\ unique_emails users.
Proof.
  apply (reachable_emails_lowercase_unique standin_hash accept_all
           (sample_registered standin_hash accept_all)).
  - apply reachable_createUser. apply reachable_init.
Defined.

(** ** The further statements on the sample inputs *)

(** Jane registers a second time on the dual back end: the call throws
    and the storage is the one before it. *)
Lemma createUser_failure_writes_nothing_witness :
  exists error,
    createUser standin_hash accept_all sample_env2 sample_userData
      (sample_registered standin_hash accept_all)
    = (inl error, sample_registered standin_hash accept_all).
Proof.
  apply (createUser_failure_writes_nothing standin_hash accept_all
           sample_env2 sample_userData (sample_registered standin_hash accept_all)).
  right. right. right.
  exists "JANE@X.COM",
    (default ∅ (head (users_of (sample_registered standin_hash accept_all)))).
  split; [vm_compute; reflexivity|].
  split; [apply head_default_elem; vm_compute; constructor | vm_compute; reflexivity].
Defined.

(** John registers after Jane. *)
Lemma createUser_appends_witness :
  exists record fileUser,
    fst (createUser standin_hash accept_all sample_env2 sample_userData2
           (sample_registered standin_hash accept_all)) = inr record
    /\ usersFile (snd (createUser standin_hash accept_all sample_env2 sample_userData2
                         (sample_registered standin_hash accept_all)))
       = Some (users_of (sample_registered standin_hash accept_all) ++ [fileUser])%list
    /\ get fileUser "_id" = get record "_id"
    /\ get fileUser "email" = get record "email".
Proof.
  apply (createUser_appends standin_hash accept_all
           (sample_registered standin_hash accept_all) sample_env2 sample_userData2).
  - apply reachable_createUser. apply reachable_init.
  - vm_compute. reflexivity.
Defined.

Lemma createUser_system_fields_witness :
  exists users fileUser,
    usersFile (snd (createUser standin_hash accept_all sample_env sample_userData
                      sample_file_only))
    = Some (users ++ [fileUser])%list
    /\ get fileUser "_id" = Str (uuid sample_env)
    /\ get fileUser "status" = Str "active"
    /\ get fileUser "emailVerified" = Bool false
    /\ get fileUser "loginCount" = Num 0
    /\ get fileUser "lastLogin" = Null
    /\ get fileUser "createdAt" = Str (createdNow sample_env)
    /\ get fileUser "updatedAt" = Str (updatedNow sample_env).
Proof.
  apply (createUser_system_fields standin_hash accept_all
           sample_env sample_userData sample_file_only).
  vm_compute. reflexivity.
Defined.

Lemma createUser_optional_fields_witness :
  exists record,
    fst (createUser standin_hash accept_all sample_env sample_userData sample_file_only)
    = inr record
    /\ get record "gender" = or_else (get sample_userData "gender") Null
    /\ (get record "gender" = Null \/ truthy (get record "gender") = true)
    /\ get record "gender" <> Str "".
Proof.
  apply (createUser_optional_fields standin_hash accept_all
           sample_env sample_userData sample_file_only "gender").
  - apply list_elem_of_here.
  - vm_compute. reflexivity.
Defined.

(** [init] runs again on the state it left. *)
Lemma init_keeps_files_witness :
  usersFile (snd (init "2024-05-03T09:00:00.000Z" 1 true sample_file_only)) = Some []
  /\ statsFile (snd (init "2024-05-03T09:00:00.000Z" 1 true sample_file_only))
     = Some (initialStats "2024-05-01T09:00:00.000Z")
  /\ collection (snd (init "2024-05-03T09:00:00.000Z" 1 true sample_file_only))
     = collection sample_file_only
  /\ (store_inv sample_file_only ->
      store_inv (snd (init "2024-05-03T09:00:00.000Z" 1 true sample_file_only))).
Proof.
  apply (init_keeps_files
           "2024-05-03T09:00:00.000Z" 1%Z true sample_file_only []
           (initialStats "2024-05-01T09:00:00.000Z")).
  - vm_compute. reflexivity.
  - vm_compute. reflexivity.
Defined.

(** Lookups on the file-only back end after Jane has registered. *)
Lemma findUserByEmail_file_only_witness :
  snd (findUserByEmail sample_mongoEnv "Jane@X.com"
         (snd (createUser standin_hash accept_all sample_env sample_userData
                 sample_file_only)))
  = snd (createUser standin_hash accept_all sample_env sample_userData sample_file_only)
  /\ ((exists u,
         fst (findUserByEmail sample_mongoEnv "Jane@X.com"
                (snd (createUser standin_hash accept_all sample_env sample_userData
                        sample_file_only))) = inr (Some u)
         /\ get u "email" = Str (toLowerCase "Jane@X.com"))
      <-> email_taken "Jane@X.com"
            (users_of (snd (createUser standin_hash accept_all sample_env sample_userData
                              sample_file_only))))
  /\ (fst (findUserByEmail sample_mongoEnv "Jane@X.com"
             (snd (createUser standin_hash accept_all sample_env sample_userData
                     sample_file_only))) = inr None
      <-> ~ email_taken "Jane@X.com"
            (users_of (snd (createUser standin_hash accept_all sample_env sample_userData
                              sample_file_only)))).
Proof.
  apply (findUserByEmail_file_only standin_hash accept_all
           (snd (createUser standin_hash accept_all sample_env sample_userData
                   sample_file_only))
           sample_mongoEnv "Jane@X.com").
  - apply reachable_createUser. apply reachable_init.
  - vm_compute. reflexivity.
Defined.

Lemma createUser_then_findUserByEmail_witness :
  exists u,
    fst (findUserByEmail sample_mongoEnv "Jane@X.com"
           (snd (createUser standin_hash accept_all sample_env sample_userData
                   sample_file_only))) = inr (Some u)
    /\ get u "_id" = Str (uuid sample_env)
    /\ get u "email" = Str (toLowerCase "JANE@X.COM")
    /\ get u "password" = Str (standin_hash "secret1" (salt sample_env)).
Proof.
  apply (createUser_then_findUserByEmail standin_hash accept_all
           sample_file_only sample_env sample_mongoEnv sample_userData
           "JANE@X.COM" "secret1" "Jane@X.com").
  - apply reachable_init.
  - vm_compute. reflexivity.
  - vm_compute. reflexivity.
  - vm_compute. reflexivity.
  - vm_compute. reflexivity.
  - vm_compute. reflexivity.
Defined.

Lemma dual_write_then_findUserByEmail_witness :
  exists doc,
    fst (findUserByEmail sample_mongoEnv "Jane@X.com"
           (snd (createUser standin_hash accept_all sample_env sample_userData
                   sample_dual))) = inr (Some doc)
    /\ get doc "_id" = ObjectId (objectId (mongo sample_env))
    /\ get doc "password"
       = Str (standin_hash (standin_hash "secret1" (salt sample_env))
                (hookSalt (mongo sample_env))).
Proof.
  apply (dual_write_then_findUserByEmail standin_hash accept_all
           sample_dual sample_env sample_mongoEnv sample_userData
           "JANE@X.COM" "secret1" [] "Jane@X.com").
  - vm_compute. reflexivity.
  - vm_compute. reflexivity.
  - vm_compute. reflexivity.
  - intros (u & e' & Hin & _). apply elem_of_nil in Hin. exact Hin.
  - vm_compute. reflexivity.
  - vm_compute. reflexivity.
  - vm_compute. reflexivity.
Defined.

(** Jane and John register on the file-only back end, then the users
    are listed. *)
Lemma get_users_after_creates_witness :
  let st0 := snd (init "2024-05-01T09:00:00.000Z" 0 false (constructor true true [])) in
  exists users stats storage,
    fst (get_users false
           (snd (createUsers standin_hash accept_all
                   [(sample_env, sample_userData); (sample_env2, sample_userData2)]
                   st0))) = Listed users stats storage
    /\ length users
       = length [(sample_env, sample_userData); (sample_env2, sample_userData2)]
    /\ answer_totalUsers stats
       = Z.of_nat (length [(sample_env, sample_userData); (sample_env2, sample_userData2)])
    /\ answer_error stats = None
    /\ mode storage = "file-only"
    /\ Forall (fun u : Object => u !! "password" = None) users.
Proof.
  apply (get_users_after_creates standin_hash accept_all
           "2024-05-01T09:00:00.000Z" 0%Z false true true []
           [(sample_env, sample_userData); (sample_env2, sample_userData2)] false).
  - vm_compute. reflexivity.
  - vm_compute. reflexivity.
Defined.

Lemma preprocessFormData_other_keys_witness :
  preprocessFormData sample_body_unaccepted !! "password"
  = sample_body_unaccepted !! "password"
  /\ forall k', is_Some (preprocessFormData sample_body_unaccepted !! k')
                <-> is_Some (sample_body_unaccepted !! k').
Proof.
  apply (preprocessFormData_other_keys sample_body_unaccepted "password").
  - unfold flag_fields. rewrite !not_elem_of_cons.
    repeat split; try discriminate. apply not_elem_of_nil.
  - unfold nullable_fields. rewrite !not_elem_of_cons.
    repeat split; try discriminate. apply not_elem_of_nil.
Defined.

(** An empty body. *)
Lemma register_missing_required_witness :
  register standin_hash accept_all accept_text accept_text accept_text
    ∅ None sample_env sample_dual
  = (ValidationFailed, sample_dual).
Proof.
  apply (register_missing_required standin_hash accept_all
           accept_text accept_text accept_text ∅ None sample_env sample_dual "name").
  - apply list_elem_of_here.
  - vm_compute. reflexivity.
Defined.

(** Jane's body arrives again after she has registered: 409. *)
Lemma register_failure_writes_nothing_witness :
  snd (register standin_hash accept_all accept_text accept_text accept_text
         sample_body_unaccepted None sample_env2
         (sample_registered standin_hash accept_all))
  = sample_registered standin_hash accept_all.
Proof.
  apply (register_failure_writes_nothing standin_hash accept_all
           accept_text accept_text accept_text
           sample_body_unaccepted None sample_env2
           (sample_registered standin_hash accept_all)).
  right. vm_compute. reflexivity.
Defined.

Lemma register_created_view_witness :
  exists view storage s,
    fst (register standin_hash accept_all accept_text accept_text accept_text
           sample_body_unaccepted None sample_env sample_dual) = Created view storage
    /\ get sample_body_unaccepted "email" = Str s
    /\ get view "email" = Str (toLowerCase (toLocaleLowerCase s))
    /\ get view "id" = Str (uuid sample_env)
    /\ (forall k, k ∉ ["id"; "name"; "email"; "phone"; "createdAt"; "profilePhoto"] ->
                  view !! k = None)
    /\ storage
       = getStorageStatus
           (snd (register standin_hash accept_all accept_text accept_text accept_text
                   sample_body_unaccepted None sample_env sample_dual)).
Proof.
  apply (register_created_view standin_hash accept_all accept_text accept_text accept_text
           sample_body_unaccepted None sample_env sample_dual).
  vm_compute. reflexivity.
Defined.

Lemma register_stores_converted_flags_witness :
  exists users fileUser b,
    usersFile (snd (register standin_hash accept_all accept_text accept_text accept_text
                      sample_body_unaccepted None sample_env sample_dual))
    = Some (users ++ [fileUser])%list
    /\ convert_flag (get sample_body_unaccepted "terms_accepted") = Bool b
    /\ get fileUser "termsAccepted" = Bool b
    /\ get fileUser "newsletterSubscription"
       = Bool (strict_eq (convert_flag (get sample_body_unaccepted "newsletter_subscription"))
                 (Bool true)).
Proof.
  apply (register_stores_converted_flags standin_hash accept_all
           accept_text accept_text accept_text
           sample_body_unaccepted None sample_env sample_dual).
  vm_compute. reflexivity.
Defined.

(** Jane's body arrives before [init] has created the files. *)
Lemma register_before_init_witness :
  snd (register standin_hash accept_all accept_text accept_text accept_text
         sample_body_unaccepted None sample_env (constructor true true []))
  = constructor true true []
  /\ fst (register standin_hash accept_all accept_text accept_text accept_text
            sample_body_unaccepted None sample_env (constructor true true []))
     = match Joi_object accept_text accept_text (registrationSchema accept_text)
               (preprocessFormData sample_body_unaccepted) with
       | Some _ => InternalError
       | None => ValidationFailed
       end.
Proof.
  apply (register_before_init standin_hash accept_all accept_text accept_text accept_text
           sample_body_unaccepted None sample_env (constructor true true [])).
  reflexivity.
Defined.

(** The file holds A and C, the collection A and B. *)
Lemma migrateUsers_accounts_witness :
  (migratedCount (mkSummary 1 1 0 2) + skippedCount (mkSummary 1 1 0 2)
   + errorCount (mkSummary 1 1 0 2) = total (mkSummary 1 1 0 2))%nat
  /\ total (mkSummary 1 1 0 2) = length (readUsersFromFile (Some sample_users))
  /\ length [Skipped; Migrated] = total (mkSummary 1 1 0 2)
  /\ length (snd (migrateUsers standin_hash accept_all true (fun _ => sample_migrateEnv)
                    (Some sample_users) sample_collection))
     = (length sample_collection + migratedCount (mkSummary 1 1 0 2))%nat
  /\ sample_collection
     `prefix_of` snd (migrateUsers standin_hash accept_all true (fun _ => sample_migrateEnv)
                        (Some sample_users) sample_collection).
Proof.
  apply (migrateUsers_accounts standin_hash accept_all
           (fun _ => sample_migrateEnv) (Some sample_users) sample_collection
           (mkSummary 1 1 0 2) [Skipped; Migrated]).
  vm_compute. reflexivity.
Defined.

Lemma dual_write_mirrored_witness :
  mirrored
    (users_of (snd (createUser standin_hash accept_all sample_env sample_userData
                      sample_dual)))
    (collection (snd (createUser standin_hash accept_all sample_env sample_userData
                        sample_dual))).
Proof.
  apply (dual_write_mirrored standin_hash accept_all
           sample_dual sample_env sample_userData "JANE@X.COM" "secret1" []).
  - vm_compute. reflexivity.
  - vm_compute. reflexivity.
  - vm_compute. reflexivity.
  - intros (u & e' & Hin & _). apply elem_of_nil in Hin. exact Hin.
  - vm_compute. reflexivity.
  - constructor.
Defined.

(** The file holds A alone, the collection A and B. *)
Lemma migrateUsers_mirrored_witness :
  migrateUsers standin_hash accept_all true (fun _ => sample_migrateEnv)
    (Some [sample_fileUser "id-a" "A" "a@x.com"]) sample_collection
  = (Some (mkSummary 0 (length [sample_fileUser "id-a" "A" "a@x.com"]) 0
             (length [sample_fileUser "id-a" "A" "a@x.com"]),
           replicate (length [sample_fileUser "id-a" "A" "a@x.com"]) Skipped),
     sample_collection).
Proof.
  apply (migrateUsers_mirrored standin_hash accept_all
           (fun _ => sample_migrateEnv) [sample_fileUser "id-a" "A" "a@x.com"]
           sample_collection).
  - constructor; [|constructor].
    exists "a@x.com". split; vm_compute; reflexivity.
  - intros n. reflexivity.
  - intros H. discriminate H.
Defined.

Lemma sync_then_migrate_witness :
  migrateUsers standin_hash accept_all true (fun _ => sample_migrateEnv)
    (syncFromMongoToFile true false "2024-06-01T00:00:00.000Z" (Some sample_users)
       sample_collection)
    sample_collection
  = (Some (mkSummary 0 (length sample_collection) 0 (length sample_collection),
           replicate (length sample_collection) Skipped),
     sample_collection).
Proof.
  apply (sync_then_migrate standin_hash accept_all
           "2024-06-01T00:00:00.000Z" (Some sample_users) sample_collection
           (fun _ => sample_migrateEnv)).
  - constructor; [|constructor; [|constructor]].
    + exists "a@x.com". split; vm_compute; reflexivity.
    + exists "b@x.com". split; vm_compute; reflexivity.
  - vm_compute. reflexivity.
  - intros n. reflexivity.
  - intros H. discriminate H.
Defined.

Lemma syncFromMongoToFile_copies_witness :
  exists users fileUser,
    syncFromMongoToFile true false "2024-06-01T00:00:00.000Z" (Some sample_users)
      sample_collection = Some users
    /\ length users = length sample_collection
    /\ users !! 0%nat = Some fileUser
    /\ (forall h, get (sample_doc "65f000000000000000000001" "A" "a@x.com") "_id"
                  = ObjectId h -> get fileUser "_id" = Str h)
    /\ (forall k s, k ∈ ["name"; "email"; "password"; "phone"] ->
                    get (sample_doc "65f000000000000000000001" "A" "a@x.com") k = Str s ->
                    get fileUser k = Str s).
Proof.
  apply (syncFromMongoToFile_copies "2024-06-01T00:00:00.000Z" (Some sample_users)
           sample_collection 0%nat (sample_doc "65f000000000000000000001" "A" "a@x.com")).
  - vm_compute. reflexivity.
  - reflexivity.
Defined.

(** The record C of the file is migrated. *)
Lemma migrate_one_hashes_again_witness :
  exists doc,
    snd (migrate_one standin_hash accept_all sample_migrateEnv
           (sample_fileUser "id-c" "C" "c@x.com") sample_collection)
    = (sample_collection ++ [doc])%list
    /\ get doc "password"
       = Str (standin_hash "$2a$12$hash" (hookSalt (store sample_migrateEnv)))
    /\ get doc "_id" = ObjectId (objectId (store sample_migrateEnv)).
Proof.
  apply (migrate_one_hashes_again standin_hash accept_all sample_migrateEnv
           (sample_fileUser "id-c" "C" "c@x.com") sample_collection "$2a$12$hash").
  - vm_compute. reflexivity.
  - vm_compute. reflexivity.
Defined.

(** ** The file back end on the sample inputs *)

Lemma sample_users_strings :
  Forall (fun u : Object => exists s, get u "email" = Str s)
         (FileDatabase_readUsers sample_fileDb).
Proof.
  repeat constructor.
  - exists "a@x.com". vm_compute. reflexivity.
  - exists "c@x.com". vm_compute. reflexivity.
Qed.

Lemma sample_users_fresh : ~ email_taken "JANE@X.COM" (FileDatabase_readUsers sample_fileDb).
Proof.
  intros (u & e' & Hin & Hu & Hci).
  apply elem_of_cons in Hin as [-> | Hin].
  { vm_compute in Hu. injection Hu as <-. vm_compute in Hci. discriminate Hci. }
  apply elem_of_cons in Hin as [-> | Hin].
  { vm_compute in Hu. injection Hu as <-. vm_compute in Hci. discriminate Hci. }
  apply elem_of_nil in Hin. exact Hin.
Qed.

(** Ann's payload carries the email of record A in upper case. *)
Lemma FileDatabase_createUser_conflict_witness :
  FileDatabase_createUser standin_hash standin_toDateString sample_fileEnv
    sample_userData_taken sample_fileDb
  = (inl duplicate_error, sample_fileDb)
  /\ error_response duplicate_error = Conflict "User with this email already exists"
  /\ exists u, FileDatabase_findUserByEmail (Str "A@X.COM") sample_fileDb = inr (Some u).
Proof.
  apply (FileDatabase_createUser_conflict standin_hash standin_toDateString
           sample_fileEnv sample_userData_taken sample_fileDb "A@X.COM").
  - exact sample_users_strings.
  - vm_compute. reflexivity.
  - exists (sample_fileUser "id-a" "A" "a@x.com"), "a@x.com".
    split; [apply list_elem_of_here|]. split; vm_compute; reflexivity.
Defined.

(** Jane registers through the file back end on an empty file. *)
Lemma FileDatabase_createUser_then_dual_witness :
  exists users',
    db_usersFile (snd (FileDatabase_createUser standin_hash standin_toDateString
                         sample_fileEnv sample_userData sample_fileDb_empty))
    = Some users'
    /\ lowercase_emails users'
    /\ unique_emails users'
    /\ forall st env' userData' e' p',
         usersFile st = Some users' ->
         get userData' "email" = Str e' ->
         get userData' "password" = Str p' ->
         toLowerCase e' = toLowerCase "JANE@X.COM" ->
         createUser standin_hash accept_all env' userData' st = (inl duplicate_error, st).
Proof.
  apply (FileDatabase_createUser_then_dual standin_hash accept_all standin_toDateString
           sample_fileEnv sample_userData sample_fileDb_empty "JANE@X.COM" "secret1").
  - constructor.
  - intros i j u v eu ev Hi. destruct i; discriminate Hi.
  - vm_compute. reflexivity.
  - vm_compute. reflexivity.
  - intros (u & e' & Hin & _). apply elem_of_nil in Hin. exact Hin.
  - reflexivity.
Defined.

(** Jane registers while the write of the file fails. *)
Lemma FileDatabase_createUser_lost_write_witness :
  exists record,
    fst (FileDatabase_createUser standin_hash standin_toDateString
           sample_fileEnv_failing sample_userData sample_fileDb) = inr record
    /\ get record "email" = Str (toLowerCase "JANE@X.COM")
    /\ record !! "password" = None
    /\ db_usersFile (snd (FileDatabase_createUser standin_hash standin_toDateString
                            sample_fileEnv_failing sample_userData sample_fileDb))
       = db_usersFile sample_fileDb
    /\ ~ email_taken "JANE@X.COM"
         (FileDatabase_readUsers
            (snd (FileDatabase_createUser standin_hash standin_toDateString
                    sample_fileEnv_failing sample_userData sample_fileDb))).
Proof.
  apply (FileDatabase_createUser_lost_write standin_hash standin_toDateString
           sample_fileEnv_failing sample_userData sample_fileDb "JANE@X.COM" "secret1").
  - exact sample_users_strings.
  - vm_compute. reflexivity.
  - vm_compute. reflexivity.
  - exact sample_users_fresh.
  - reflexivity.
Defined.

(** The first page of size one of the active users. *)
Lemma FileDatabase_getAllUsers_page_witness :
  let r := FileDatabase_getAllUsers standin_getTime 1 1 (Str "active") sample_fileDb in
  Z.of_nat (length (page_users r))
  = Z.min 1 (Z.max 0 (page_total r - (1 - 1) * 1))
  /\ (exists pages,
        page_totalPages r = Some pages
        /\ ((pages - 1) * 1 < page_total r <= pages * 1)%Z
        /\ (page_users r = [] <-> (pages < 1)%Z))
  /\ (0 <= page_total r <= Z.of_nat (length (FileDatabase_readUsers sample_fileDb)))%Z
  /\ Forall (fun u : Object => u !! "password" = None) (page_users r).
Proof.
  apply (FileDatabase_getAllUsers_page standin_getTime 1%Z 1%Z (Str "active") sample_fileDb).
  - lia.
  - lia.
Defined.

Example FileDatabase_getAllUsers_ex :
  let r := FileDatabase_getAllUsers standin_getTime 2 1 Null sample_fileDb in
  List.map (fun u : Object => get u "email") (page_users r) = [Str "c@x.com"]
  /\ page_total r = 2%Z /\ page_totalPages r = Some 2%Z.
Proof. vm_compute. repeat split. Qed.

Lemma sibling_routes_require_consent_witness :
  get (list_to_map [("terms_accepted", Bool true)] : Object) "terms_accepted" = Bool true
  /\ (Joi_key sample_consent_schema "terms_accepted" = Some (required fileRoute_terms) ->
      Joi_object accept_text accept_text sample_consent_schema
        (fileRoute_preprocess sample_consent_body)
      = Some (list_to_map [("terms_accepted", Bool true)]) ->
      get sample_consent_body "terms_accepted" = Bool true
      \/ get sample_consent_body "terms_accepted" = Str "true").
Proof.
  apply (sibling_routes_require_consent accept_text accept_text
           sample_consent_schema sample_consent_body
           (list_to_map [("terms_accepted", Bool true)])).
  left. split; vm_compute; reflexivity.
Defined.
